(** * Hand gesture and hand mouvement recognition calculators

    A shallow embedding of the two MediaPipe calculators
    [HandGestureRecognitionCalculator] and
    [HandMouvementRecognitionCalculator], followed by the properties their
    specification states about them.

    Coordinates are IEEE 754 numbers.  They are modelled with the
    [spec_float] type of the Standard Library and its executable
    operations: C++ [float] is binary32 (precision 24, emax 128) and C++
    [double] is binary64 (precision 53, emax 1024), rounding to nearest,
    ties to even. *)

From Stdlib Require Import ZArith List String Bool Lia.
From Stdlib Require Import Floats.SpecFloat.
Import ListNotations.
Local Open Scope Z_scope.

(** ** IEEE 754 arithmetic as the C++ code uses it *)

Module Float.

Definition float := spec_float.
Definition double := spec_float.

(** A [spec_float] that is a binary32 value: its mantissa and exponent are
    in canonical form for the format. *)
Definition valid (x : float) : bool := valid_binary 24 128 x.

(** [float] arithmetic. *)
Definition fadd : float -> float -> float := SFadd 24 128.
Definition fsub : float -> float -> float := SFsub 24 128.
Definition fmul : float -> float -> float := SFmul 24 128.
Definition fsqrt : float -> float := SFsqrt 24 128.

(** [double] arithmetic. *)
Definition dadd : double -> double -> double := SFadd 53 1024.
Definition dmul : double -> double -> double := SFmul 53 1024.
Definition ddiv : double -> double -> double := SFdiv 53 1024.

(** Comparisons.  Each is false as soon as an operand is a NaN. *)
Definition lt (a b : spec_float) : bool := SFltb a b.
Definition gt (a b : spec_float) : bool := SFltb b a.
Definition le (a b : spec_float) : bool := SFleb a b.
Definition ge (a b : spec_float) : bool := SFleb b a.

(** Conversion of a value to the format [prec], [emax]. *)
Definition convert (prec emax : Z) (x : spec_float) : spec_float :=
  match x with
  | S754_finite s m e => binary_round prec emax s m e
  | _ => x
  end.

(** The promotion of a [float] to [double] (exact) and the conversion of
    a [double] to [float] (rounded). *)
Definition to_double : float -> double := convert 53 1024.
Definition to_float : double -> float := convert 24 128.

(** Conversions of an [int]. *)
Definition int_to_float (n : Z) : float := binary_normalize 24 128 n 0 false.
Definition int_to_double (n : Z) : double := binary_normalize 53 1024 n 0 false.

(** The [double] a decimal literal [n/d] denotes, and the [float] a
    variable initialised with that literal holds: [float t = 0.01;]
    converts the [double] literal. *)
Definition dlit (n d : Z) : double := ddiv (int_to_double n) (int_to_double d).
Definition flit (n d : Z) : float := to_float (dlit n d).

(** The truth value of a [float] used as a condition: [x != 0]. *)
Definition truthy (x : float) : bool := negb (SFeqb x (S754_zero false)).

(** [std::pow(x, 2)] on a [double]: the correctly rounded square. *)
Definition pow2 (x : double) : double := dmul x x.

(** [M_PI], the [double] 0x400921FB54442D18. *)
Definition M_PI : double := S754_finite false 7074237752028440 (-51).

(** [(int)floor(x)].  The floor of a finite [double] is an integer; the
    cast to [int] is undefined in C++ when that integer is outside the
    [int] range or [x] is a NaN or an infinity: the model then returns
    the value -2^31 that the x86 conversion instruction delivers. *)
Definition INT_MIN : Z := - 2 ^ 31.
Definition INT_MAX : Z := 2 ^ 31 - 1.

Definition floor_Z (x : double) : option Z :=
  match x with
  | S754_zero _ => Some 0
  | S754_finite s m e =>
      let v := cond_Zopp s (Zpos m) in
      Some (if 0 <=? e then v * 2 ^ e else v / 2 ^ (- e))
  | _ => None
  end.

Definition int_of_floor (x : double) : Z :=
  match floor_Z x with
  | Some n => if (INT_MIN <=? n) && (n <=? INT_MAX) then n else INT_MIN
  | None => INT_MIN
  end.

(** The arithmetic is run by [vm_compute] on closed terms only; [simpl]
    and [cbn] leave it folded. *)
Arguments fadd : simpl never.
Arguments fsub : simpl never.
Arguments fmul : simpl never.
Arguments fsqrt : simpl never.
Arguments dadd : simpl never.
Arguments dmul : simpl never.
Arguments ddiv : simpl never.
Arguments lt : simpl never.
Arguments gt : simpl never.
Arguments le : simpl never.
Arguments ge : simpl never.
Arguments to_double : simpl never.
Arguments to_float : simpl never.
Arguments int_to_float : simpl never.
Arguments int_to_double : simpl never.
Arguments dlit : simpl never.
Arguments flit : simpl never.
Arguments truthy : simpl never.
Arguments int_of_floor : simpl never.

(** *** Notions used to reason about rounding *)

(** The number of bits of a mantissa. *)
Definition D (m : positive) : Z := Zpos (digits2_pos m).

(** What [k] right shifts of the mantissa [m0] leave in a shift record:
    the quotient, and no sticky bit when the division is exact. *)
Definition shifted (m0 k : Z) (mrs : shr_record) : Prop :=
  shr_m mrs = m0 / 2 ^ k /\
  (m0 mod 2 ^ k = 0 -> shr_r mrs = false /\ shr_s mrs = false).

(** [r] has sign [s] and a magnitude no smaller than [mx * 2^ex], or is
    a NaN. *)
Definition above (s : bool) (mx : positive) (ex : Z) (r : spec_float) : Prop :=
  match r with
  | S754_nan => True
  | S754_infinity s' => s' = s
  | S754_finite s' m e => s' = s /\ (ex < e \/ (e = ex /\ Zpos mx <= Zpos m))
  | S754_zero _ => False
  end.

(** [r] has sign [s] and a magnitude no larger than [mx * 2^ex], or is
    a NaN. *)
Definition below (s : bool) (mx : positive) (ex : Z) (r : spec_float) : Prop :=
  match r with
  | S754_nan => True
  | S754_zero s' => s' = s
  | S754_finite s' m e => s' = s /\ (e < ex \/ (e = ex /\ Zpos m <= Zpos mx))
  | S754_infinity _ => False
  end.

(** [r] has sign [s], or is a NaN. *)
Definition signed (s : bool) (r : spec_float) : Prop :=
  match r with
  | S754_nan => True
  | S754_zero s' | S754_infinity s' | S754_finite s' _ _ => s' = s
  end.

(** Neither a negative number nor minus infinity. *)
Definition not_negative (t : spec_float) : bool :=
  match t with
  | S754_finite true _ _ | S754_infinity true => false
  | _ => true
  end.

End Float.

(** ** Messages of the framework *)

(** A [NormalizedLandmark] message.  The calculators read [x] and [y]
    only. *)
Module NormalizedLandmark.
Record t : Type := Build { x : Float.float; y : Float.float }.
End NormalizedLandmark.

(** A [NormalizedRect] message. *)
Module NormalizedRect.
Record t : Type := Build {
  x_center : Float.float;
  y_center : Float.float;
  width : Float.float;
  height : Float.float
}.
End NormalizedRect.

(** ** The result of [Process]

    [Process] returns a [::mediapipe::Status].  [OkStatus a] is a frame
    processed, [a] being what it added to its output streams; [Error msg]
    is the status a failed [RET_CHECK] returns to the framework.
    [Undefined] is not a status: it marks a run that reads
    [landmarkList.landmark(i)] at an index outside the list, which the
    repeated field does not check. *)
Inductive Status (A : Type) : Type :=
| OkStatus (a : A)
| Error (msg : string)
| Undefined.

Arguments OkStatus {A} a.
Arguments Error {A} msg.
Arguments Undefined {A}.

Definition bind {A B : Type} (m : Status A) (k : A -> Status B) : Status B :=
  match m with
  | OkStatus a => k a
  | Error msg => Error msg
  | Undefined => Undefined
  end.

Declare Scope status_scope.
Delimit Scope status_scope with status.
Notation "x <- m ;; k" := (bind m (fun x => k))
  (at level 61, m at next level, right associativity) : status_scope.
Notation "' p <- m ;; k" := (bind m (fun p => k))
  (at level 61, p pattern, m at next level, right associativity) : status_scope.
Local Open Scope status_scope.

(** [a && b] of C++ on conditions that read landmarks: [b] is evaluated
    only when [a] is true. *)
Definition and_then (a b : Status bool) : Status bool :=
  v <- a ;; if v then b else OkStatus false.

(** [landmarkList.landmark(i)]. *)
Definition landmark (landmarkList : list NormalizedLandmark.t) (i : nat)
  : Status NormalizedLandmark.t :=
  match nth_error landmarkList i with
  | Some p => OkStatus p
  | None => Undefined
  end.

(** [RET_CHECK_GT(landmarkList.landmark_size(), 0) << "Input landmark vector is empty."] *)
Definition RET_CHECK_landmarks (landmarkList : list NormalizedLandmark.t)
  : Status unit :=
  if (0 <? Z.of_nat (List.length landmarkList))
  then OkStatus tt
  else Error "Input landmark vector is empty.".

(** ** HandGestureRecognitionCalculator *)

Module HandGestureRecognitionCalculator.
Import Float.

Inductive FingerState : Type := UNKNOW | OPEN | CLOSE.

Definition FingerState_eqb (a b : FingerState) : bool :=
  match a, b with
  | UNKNOW, UNKNOW | OPEN, OPEN | CLOSE, CLOSE => true
  | _, _ => false
  end.

Definition get_Euclidean_DistanceAB (a_x a_y b_x b_y : float) : float :=
  let dist :=
    to_float (dadd (pow2 (to_double (fsub a_x b_x)))
                   (pow2 (to_double (fsub a_y b_y)))) in
  fsqrt dist.

Definition isThumbNearFirstFinger (point1 point2 : NormalizedLandmark.t)
  : bool :=
  let distance :=
    get_Euclidean_DistanceAB
      (NormalizedLandmark.x point1) (NormalizedLandmark.y point1)
      (NormalizedLandmark.x point2) (NormalizedLandmark.y point2) in
  lt (to_double distance) (dlit 1 10).

(** [float threshold = 0.01; float closeFingerThreshold = 0.01;] *)
Definition threshold : float := flit 1 100.
Definition closeFingerThreshold : float := flit 1 100.

(** [if (width < 0.01 || height < 0.01)]: the operands are promoted to
    [double]. *)
Definition no_hand (rect : NormalizedRect.t) : bool :=
  lt (to_double (NormalizedRect.width rect)) (dlit 1 100)
  || lt (to_double (NormalizedRect.height rect)) (dlit 1 100).

(** [landmarkList.landmark(i).x()] and [.y()] through an accessor. *)
Definition coord_at (landmarkList : list NormalizedLandmark.t)
    (coord : NormalizedLandmark.t -> float) (i : nat) : Status float :=
  p <- landmark landmarkList i ;; OkStatus (coord p).

(** The block the source repeats for each finger, lines 111 to 158:
[[
  pseudoFixKeyPoint = landmark(p).c();
  if (landmark(m).c() + threshold < pseudoFixKeyPoint
      && landmark(t).c() + threshold < landmark(m).c())
    state = OPEN;
  else if (pseudoFixKeyPoint + closeFingerThreshold < landmark(m).c()
           && landmark(m).c() + closeFingerThreshold < landmark(t).c())
    state = CLOSE;
]]
    with [c] the coordinate and [p], [m], [t] the three indices; the
    state starts as [UNKNOW]. *)
Definition finger_state (landmarkList : list NormalizedLandmark.t)
    (coord : NormalizedLandmark.t -> float) (p m t : nat)
  : Status FingerState :=
  pseudoFixKeyPoint <- coord_at landmarkList coord p ;;
  is_open <-
    and_then
      (cm <- coord_at landmarkList coord m ;;
       OkStatus (lt (fadd cm threshold) pseudoFixKeyPoint))
      (ct <- coord_at landmarkList coord t ;;
       cm <- coord_at landmarkList coord m ;;
       OkStatus (lt (fadd ct threshold) cm)) ;;
  if is_open then OkStatus OPEN
  else
    is_close <-
      and_then
        (cm <- coord_at landmarkList coord m ;;
         OkStatus (lt (fadd pseudoFixKeyPoint closeFingerThreshold) cm))
        (cm <- coord_at landmarkList coord m ;;
         ct <- coord_at landmarkList coord t ;;
         OkStatus (lt (fadd cm closeFingerThreshold) ct)) ;;
    if is_close then OkStatus CLOSE else OkStatus UNKNOW.

(** The five finger states, in the order the source computes them. *)
Record FingerStates : Type := Build_FingerStates {
  thumbState : FingerState;
  firstFingerState : FingerState;
  secondFingerState : FingerState;
  thirdFingerState : FingerState;
  fourthFingerState : FingerState
}.

Definition finger_states (landmarkList : list NormalizedLandmark.t)
  : Status FingerStates :=
  thumb <- finger_state landmarkList NormalizedLandmark.x 2 3 4 ;;
  first <- finger_state landmarkList NormalizedLandmark.y 6 7 8 ;;
  second <- finger_state landmarkList NormalizedLandmark.y 10 11 12 ;;
  third <- finger_state landmarkList NormalizedLandmark.y 14 15 16 ;;
  fourth <- finger_state landmarkList NormalizedLandmark.y 18 19 20 ;;
  OkStatus (Build_FingerStates thumb first second third fourth).

Definition same (a b : FingerState) : bool := FingerState_eqb a b.

(** The chain of [if]/[else if] of lines 161 to 205.  [near] is the call
    [isThumbNearFirstFinger(landmark(4), landmark(8))], evaluated only
    when the four state tests before it hold. *)
Definition recognize (s : FingerStates) (near : Status bool)
  : Status string :=
  let th := thumbState s in
  let f1 := firstFingerState s in
  let f2 := secondFingerState s in
  let f3 := thirdFingerState s in
  let f4 := fourthFingerState s in
  if same th OPEN && same f1 OPEN && same f2 OPEN && same f3 OPEN && same f4 OPEN
  then OkStatus "FIVE"%string
  else if same th CLOSE && same f1 OPEN && same f2 OPEN && same f3 OPEN && same f4 OPEN
  then OkStatus "FOUR"%string
  else if same th OPEN && same f1 OPEN && same f2 OPEN && same f3 CLOSE && same f4 CLOSE
  then OkStatus "TREE"%string
  else if same th OPEN && same f1 OPEN && same f2 CLOSE && same f3 CLOSE && same f4 CLOSE
  then OkStatus "TWO"%string
  else if same th CLOSE && same f1 OPEN && same f2 CLOSE && same f3 CLOSE && same f4 CLOSE
  then OkStatus "ONE"%string
  else if same th CLOSE && same f1 OPEN && same f2 OPEN && same f3 CLOSE && same f4 CLOSE
  then OkStatus "YEAH"%string
  else if same th CLOSE && same f1 OPEN && same f2 CLOSE && same f3 CLOSE && same f4 OPEN
  then OkStatus "ROCK"%string
  else if same th OPEN && same f1 OPEN && same f2 CLOSE && same f3 CLOSE && same f4 OPEN
  then OkStatus "SPIDERMAN"%string
  else if same th CLOSE && same f1 CLOSE && same f2 CLOSE && same f3 CLOSE && same f4 CLOSE
  then OkStatus "FIST"%string
  else
    ok <- and_then
            (OkStatus (same f1 CLOSE && same f2 OPEN && same f3 OPEN && same f4 OPEN))
            near ;;
    if ok then OkStatus "OK"%string else OkStatus "___"%string.

Definition thumb_near (landmarkList : list NormalizedLandmark.t)
  : Status bool :=
  p4 <- landmark landmarkList 4 ;;
  p8 <- landmark landmarkList 8 ;;
  OkStatus (isThumbNearFirstFinger p4 p8).

(** [Process]: the string it adds to RECOGNIZED_HAND_GESTURE. *)
Definition Process (rect : NormalizedRect.t)
    (landmarkList : list NormalizedLandmark.t) : Status string :=
  if no_hand rect then OkStatus "___"%string
  else
    _ <- RET_CHECK_landmarks landmarkList ;;
    s <- finger_states landmarkList ;;
    recognize s (thumb_near landmarkList).

End HandGestureRecognitionCalculator.

(** ** HandMouvementRecognitionCalculator *)

Module HandMouvementRecognitionCalculator.
Import Float.

(** The private members of the calculator. *)
Record t : Type := Build {
  previous_x_center : float;
  previous_y_center : float;
  previous_angle : float;
  previous_rectangle_width : float;
  previous_rectangle_height : float
}.

(** What one call of [Process] adds to its three output streams. *)
Record Outputs : Type := Build_Outputs {
  recognized_hand_mouvement_scrolling : string;
  recognized_hand_mouvement_zooming : string;
  recognized_hand_mouvement_sliding : string
}.

Definition get_Euclidean_DistanceAB (a_x a_y b_x b_y : float) : float :=
  let dist :=
    to_float (dadd (pow2 (to_double (fsub a_x b_x)))
                   (pow2 (to_double (fsub a_y b_y)))) in
  fsqrt dist.

(** [this->previous_x_center + 0.1] and [wrist.x() + 0.1]: the sum is a
    [double], converted to the [float] parameter [c_x]. *)
Definition plus_0_1 (v : float) : float :=
  to_float (dadd (to_double v) (dlit 1 10)).

(** [(int)floor(radian * 180. / M_PI + 0.5)] *)
Definition radianToDegree (radian : float) : Z :=
  int_of_floor
    (dadd (ddiv (dmul (to_double radian) (int_to_double 180)) M_PI)
          (dlit 5 10)).

Section WithAtan2.

(** [std::atan2] on [float] arguments, a function of the C library. *)
Variable atan2 : float -> float -> float.

Definition getAngleABC (a_x a_y b_x b_y c_x c_y : float) : float :=
  let ab_x := fsub b_x a_x in
  let ab_y := fsub b_y a_y in
  let cb_x := fsub b_x c_x in
  let cb_y := fsub b_y c_y in
  let dot := fadd (fmul ab_x cb_x) (fmul ab_y cb_y) in
  let cross := fsub (fmul ab_x cb_y) (fmul ab_y cb_x) in
  let alpha := atan2 cross dot in
  alpha.

(** The label the chain of lines 146 to 161 gives to [angle]. *)
Definition scrolling_label (angle : float) : string :=
  if ge angle (int_to_float (-45)) && lt angle (int_to_float 45)
  then "Scrolling right"%string
  else if ge angle (int_to_float 45) && lt angle (int_to_float 135)
  then "Scrolling up"%string
  else if ge angle (int_to_float 135) || lt angle (int_to_float (-135))
  then "Scrolling left"%string
  else if ge angle (int_to_float (-135)) && lt angle (int_to_float (-45))
  then "Scrolling down"%string
  else "___"%string.

(** The locals of lines 134 to 144. *)
Definition mouvementDistance (this : t) (rect : NormalizedRect.t) : float :=
  get_Euclidean_DistanceAB
    (NormalizedRect.x_center rect) (NormalizedRect.y_center rect)
    (previous_x_center this) (previous_y_center this).

Definition mouvementDistanceThreshold (rect : NormalizedRect.t) : float :=
  let mouvementDistanceFactor := flit 2 100 in
  fmul mouvementDistanceFactor (NormalizedRect.height rect).

(** The value [radianToDegree] returns at line 144, before it is
    stored in the [float] variable [angle]. *)
Definition scrolling_angle (this : t) (rect : NormalizedRect.t) : Z :=
  radianToDegree
    (getAngleABC
       (NormalizedRect.x_center rect) (NormalizedRect.y_center rect)
       (previous_x_center this) (previous_y_center this)
       (plus_0_1 (previous_x_center this)) (previous_y_center this)).

(** 1. FEATURE - Scrolling, lines 132 to 165. *)
Definition scrolling (this : t) (rect : NormalizedRect.t) : string * t :=
  let x_center := NormalizedRect.x_center rect in
  let y_center := NormalizedRect.y_center rect in
  let recognized_hand_mouvement_scrolling :=
    if truthy (previous_x_center this) then
      if gt (mouvementDistance this rect) (mouvementDistanceThreshold rect)
      then
        let angle := int_to_float (scrolling_angle this rect) in
        scrolling_label angle
      else "___"%string
    else "___"%string in
  (recognized_hand_mouvement_scrolling,
   Build x_center y_center (previous_angle this)
         (previous_rectangle_width this) (previous_rectangle_height this)).

(** The local of line 174. *)
Definition heightDifferenceThreshold (rect : NormalizedRect.t) : float :=
  let heightDifferenceFactor := flit 3 100 in
  fmul (NormalizedRect.height rect) heightDifferenceFactor.

(** 2. FEATURE - Zoom in/out, lines 168 to 184. *)
Definition zooming (this : t) (rect : NormalizedRect.t) : string * t :=
  let height := NormalizedRect.height rect in
  let recognized_hand_mouvement_zooming :=
    if truthy (previous_rectangle_height this) then
      if lt height
            (fsub (previous_rectangle_height this)
                  (heightDifferenceThreshold rect))
      then "Zoom out"%string
      else if gt height
                (fadd (previous_rectangle_height this)
                      (heightDifferenceThreshold rect))
      then "Zoom in"%string
      else "___"%string
    else "___"%string in
  (recognized_hand_mouvement_zooming,
   Build (previous_x_center this) (previous_y_center this)
         (previous_angle this) (previous_rectangle_width this) height).

(** The wrist angle of lines 189 to 194. *)
Definition wrist_angle (wrist MCP_of_second_finger : NormalizedLandmark.t)
  : Z :=
  let ang_in_radian :=
    getAngleABC
      (NormalizedLandmark.x MCP_of_second_finger)
      (NormalizedLandmark.y MCP_of_second_finger)
      (NormalizedLandmark.x wrist) (NormalizedLandmark.y wrist)
      (plus_0_1 (NormalizedLandmark.x wrist))
      (NormalizedLandmark.y wrist) in
  radianToDegree ang_in_radian.

(** The label of lines 196 to 212; [ang_in_degree] is an [int],
    converted to [float] by each comparison. *)
Definition sliding_label (previous_angle : float) (ang_in_degree : Z)
  : string :=
  if truthy previous_angle then
    let angleDifferenceTreshold := int_to_float 12 in
    if ge previous_angle (int_to_float 80)
       && le previous_angle (int_to_float 100)
    then
      if gt (int_to_float ang_in_degree)
            (fadd previous_angle angleDifferenceTreshold)
      then "Slide left"%string
      else if lt (int_to_float ang_in_degree)
                 (fsub previous_angle angleDifferenceTreshold)
      then "Slide right"%string
      else "___"%string
    else "___"%string
  else "___"%string.

(** 3. FEATURE - Slide left / right, lines 187 to 214.  [frameCounter]
    is the value [frameCounter->Get()] returns. *)
Definition sliding (frameCounter : Z) (this : t)
    (landmarkList : list NormalizedLandmark.t) : Status (string * t) :=
  if Z.rem frameCounter 2 =? 0 then
    wrist <- landmark landmarkList 0 ;;
    MCP_of_second_finger <- landmark landmarkList 9 ;;
    let ang_in_degree := wrist_angle wrist MCP_of_second_finger in
    OkStatus
      (sliding_label (previous_angle this) ang_in_degree,
       Build (previous_x_center this) (previous_y_center this)
             (int_to_float ang_in_degree)
             (previous_rectangle_width this)
             (previous_rectangle_height this))
  else OkStatus ("___"%string, this).

(** [Process].  [frameCounter] is the value of the framework counter
    named "HandMouvementRecognitionCalculator" when the call starts;
    the first component of the result is its value when the call
    returns (a 64-bit counter, which the model does not bound).  On
    [OkStatus] the second component carries the three strings added to
    the output streams and the members after the call; on [Error] no
    member has been written. *)
Definition Process (frameCounter : Z) (this : t) (rect : NormalizedRect.t)
    (landmarkList : list NormalizedLandmark.t)
  : Z * Status (Outputs * t) :=
  let frameCounter := frameCounter + 1 in
  (frameCounter,
   _ <- RET_CHECK_landmarks landmarkList ;;
   let '(scroll, this) := scrolling this rect in
   let '(zoom, this) := zooming this rect in
   '(slide, this) <- sliding frameCounter this landmarkList ;;
   OkStatus (Build_Outputs scroll zoom slide, this)).

(** *** Sessions

    A session is a calculator object together with the frame counter
    of its node. *)
Record Session : Type := Build_Session {
  calculator : t;
  frameCounter : Z
}.

Definition zero : float := S754_zero false.

(** Modelled from the spec: the creation of the calculator and of its
    counter, which the framework does and the class leaves to it (it has
    no constructor and [Open] writes no member).  A fresh session has no
    history: every member is [+0], which the tests of lines 132, 168 and
    196 take for false, as value-initialisation of the object gives; the
    counter has not been incremented yet. *)
Definition new_session : Session :=
  Build_Session (Build zero zero zero zero zero) 0.

Definition Frame : Type := (NormalizedRect.t * list NormalizedLandmark.t)%type.

(** The session after a frame; [None] when the run is undefined. *)
Definition next (s : Session) (f : Frame) : option Session :=
  match Process (frameCounter s) (calculator s) (fst f) (snd f) with
  | (c, OkStatus (_, this)) => Some (Build_Session this c)
  | (c, Error _) => Some (Build_Session (calculator s) c)
  | (_, Undefined) => None
  end.

Inductive reachable : Session -> Prop :=
| reachable_new : reachable new_session
| reachable_next (s s' : Session) (f : Frame) :
    reachable s -> next s f = Some s' -> reachable s'.

(** A member is set when it is taken for true by the tests of lines
    132, 168 and 196. *)
Definition is_set (v : float) : bool := truthy v.

(** *** The tracker as the specification words it

    The three classifications are evaluated on the history the frame
    started with; the history is written once, at the end. *)
Definition Process_commit_at_end (frameCounter : Z) (this : t)
    (rect : NormalizedRect.t) (landmarkList : list NormalizedLandmark.t)
  : Z * Status (Outputs * t) :=
  let frameCounter := frameCounter + 1 in
  (frameCounter,
   _ <- RET_CHECK_landmarks landmarkList ;;
   let scroll := fst (scrolling this rect) in
   let zoom := fst (zooming this rect) in
   '(slide, after_slide) <- sliding frameCounter this landmarkList ;;
   OkStatus
     (Build_Outputs scroll zoom slide,
      Build (NormalizedRect.x_center rect) (NormalizedRect.y_center rect)
            (previous_angle after_slide)
            (previous_rectangle_width this)
            (NormalizedRect.height rect))).

End WithAtan2.

(** The values of [atan2] the C standard (Annex F) fixes when an
    argument is a zero and the other is zero or finite; the right-hand
    sides are the [float]s nearest to pi and pi/2.  For any other
    arguments the result depends on the C library and this table
    answers NaN; it serves to run [Process] on frames whose vectors lie
    on an axis. *)
Definition pi_f (s : bool) : float := S754_finite s 13176795 (-22).
Definition half_pi_f (s : bool) : float := S754_finite s 13176795 (-23).

Definition atan2_on_axes (y x : float) : float :=
  match y, x with
  | S754_zero sy, S754_zero false => S754_zero sy
  | S754_zero sy, S754_zero true => pi_f sy
  | S754_zero sy, S754_finite false _ _ => S754_zero sy
  | S754_zero sy, S754_finite true _ _ => pi_f sy
  | S754_finite sy _ _, S754_zero _ => half_pi_f sy
  | _, _ => S754_nan
  end.

End HandMouvementRecognitionCalculator.

(** ** Notions the properties are stated with *)

Module Spec.
Import Float.

(** The last index [landmarkList.landmark(i)] is read at, plus one. *)
Definition skeleton_size : nat := 21.

(** 0.01, the threshold of the finger classification. *)
Definition epsilon : float := flit 1 100.

(** A landmark whose coordinates are binary32 values. *)
Definition valid_landmark (p : NormalizedLandmark.t) : bool :=
  valid (NormalizedLandmark.x p) && valid (NormalizedLandmark.y p).

(** The conditions the specification gives for a finger with pivot,
    middle and tip coordinates [cP], [cM] and [cT]. *)
Definition open_condition (cP cM cT : float) : Prop :=
  lt (fadd cM epsilon) cP = true /\ lt (fadd cT epsilon) cM = true.

Definition closed_condition (cP cM cT : float) : Prop :=
  lt (fadd cP epsilon) cM = true /\ lt (fadd cM epsilon) cT = true.

(** [st] is the state the specification gives to the finger read on the
    coordinate [coord] of the landmarks [p], [m] and [t]. *)
Definition finger_classified
    (landmarkList : list NormalizedLandmark.t)
    (coord : NormalizedLandmark.t -> float) (p m t : nat)
    (st : HandGestureRecognitionCalculator.FingerState) : Prop :=
  exists lP lM lT,
    nth_error landmarkList p = Some lP /\
    nth_error landmarkList m = Some lM /\
    nth_error landmarkList t = Some lT /\
    (st = HandGestureRecognitionCalculator.OPEN
     <-> open_condition (coord lP) (coord lM) (coord lT)) /\
    (st = HandGestureRecognitionCalculator.CLOSE
     <-> closed_condition (coord lP) (coord lM) (coord lT)) /\
    (st = HandGestureRecognitionCalculator.UNKNOW
     <-> ~ open_condition (coord lP) (coord lM) (coord lT)
         /\ ~ closed_condition (coord lP) (coord lM) (coord lT)).

(** The strings [HandGestureRecognitionCalculator::Process] can add to
    its output stream. *)
Definition gesture_vocabulary : list string :=
  ["FIVE"; "FOUR"; "TREE"; "TWO"; "ONE"; "YEAH"; "ROCK"; "SPIDERMAN";
   "FIST"; "OK"; "___"]%string.

(** A frame the mouvement calculator processes to the end: the landmark
    list is not empty, and holds landmark 9 when the frame counter the
    call sees, [frameCounter + 1], is even. *)
Definition frame_ok (frameCounter : Z)
    (landmarkList : list NormalizedLandmark.t) : Prop :=
  landmarkList <> [] /\
  (Z.rem (frameCounter + 1) 2 = 0 -> (10 <= List.length landmarkList)%nat).

(** The scroll label of an angle in whole degrees, by the intervals of
    the specification. *)
Definition scroll_of_degrees (n : Z) : string :=
  if (-45 <=? n) && (n <? 45) then "Scrolling right"%string
  else if (45 <=? n) && (n <? 135) then "Scrolling up"%string
  else if ((135 <=? n) && (n <=? 180)) || ((-180 <=? n) && (n <? -135))
  then "Scrolling left"%string
  else if (-135 <=? n) && (n <? -45) then "Scrolling down"%string
  else "___"%string.

(** The slide label for a previous angle [p] and a new angle [n], both
    in whole degrees, by the rule of the specification. *)
Definition slide_of_degrees (p n : Z) : string :=
  if (p =? 0) then "___"%string
  else if (80 <=? p) && (p <=? 100) then
    if n >? p + 12 then "Slide left"%string
    else if n <? p - 12 then "Slide right"%string
    else "___"%string
  else "___"%string.

(** The slide label and the stored angle of a frame of the mouvement
    calculator that is processed to the end: on an even frame counter
    they come from the wrist angle, on an odd one nothing is computed. *)
Definition slide_of (atan2 : float -> float -> float) (frameCounter : Z)
    (this : HandMouvementRecognitionCalculator.t)
    (landmarkList : list NormalizedLandmark.t) : string :=
  if Z.rem (frameCounter + 1) 2 =? 0 then
    match nth_error landmarkList 0, nth_error landmarkList 9 with
    | Some wrist, Some mcp =>
        HandMouvementRecognitionCalculator.sliding_label
          (HandMouvementRecognitionCalculator.previous_angle this)
          (HandMouvementRecognitionCalculator.wrist_angle atan2 wrist mcp)
    | _, _ => "___"%string
    end
  else "___"%string.

Definition angle_after (atan2 : float -> float -> float) (frameCounter : Z)
    (this : HandMouvementRecognitionCalculator.t)
    (landmarkList : list NormalizedLandmark.t) : float :=
  if Z.rem (frameCounter + 1) 2 =? 0 then
    match nth_error landmarkList 0, nth_error landmarkList 9 with
    | Some wrist, Some mcp =>
        int_to_float
          (HandMouvementRecognitionCalculator.wrist_angle atan2 wrist mcp)
    | _, _ => HandMouvementRecognitionCalculator.previous_angle this
    end
  else HandMouvementRecognitionCalculator.previous_angle this.

(** The history all set, and all unset. *)
Definition all_set (this : HandMouvementRecognitionCalculator.t) : bool :=
  HandMouvementRecognitionCalculator.is_set
    (HandMouvementRecognitionCalculator.previous_x_center this)
  && HandMouvementRecognitionCalculator.is_set
       (HandMouvementRecognitionCalculator.previous_rectangle_height this)
  && HandMouvementRecognitionCalculator.is_set
       (HandMouvementRecognitionCalculator.previous_angle this).

Definition all_unset (this : HandMouvementRecognitionCalculator.t) : bool :=
  negb (HandMouvementRecognitionCalculator.is_set
          (HandMouvementRecognitionCalculator.previous_x_center this))
  && negb (HandMouvementRecognitionCalculator.is_set
             (HandMouvementRecognitionCalculator.previous_rectangle_height this))
  && negb (HandMouvementRecognitionCalculator.is_set
             (HandMouvementRecognitionCalculator.previous_angle this)).

(** The integers [lo], [lo + 1], ..., [lo + len - 1]. *)
Definition range (lo : Z) (len : nat) : list Z :=
  map (fun k => lo + Z.of_nat k) (seq 0 len).

End Spec.

(** ** Concrete frames *)

Module Examples.
Import Float.

Definition dec (n d : Z) : float := flit n d.

Definition lm (x y : float) : NormalizedLandmark.t :=
  NormalizedLandmark.Build x y.

Definition rect (x y w h : float) : NormalizedRect.t :=
  NormalizedRect.Build x y w h.

Definition half : float := dec 1 2.

(** A hand rectangle of width and height 0.2 centred in the frame, and
    one too small to hold a hand. *)
Definition hand_rect : NormalizedRect.t :=
  rect (dec 1 2) (dec 1 2) (dec 1 5) (dec 1 5).
Definition tiny_rect : NormalizedRect.t :=
  rect (dec 1 2) (dec 1 2) (dec 5 1000) (dec 1 5).

(** 21 landmarks whose coordinates grow along every finger by 0.025 per
    joint: a closed fist. *)
Definition fist : list NormalizedLandmark.t :=
  map (fun i => lm (dec (Z.of_nat i) 40) (dec (Z.of_nat i) 40)) (seq 0 21).

(** Thumb, index and middle finger extended, ring and little finger
    folded. *)
Definition three_fingers : list NormalizedLandmark.t :=
  map (fun i => if (i <? 13)%nat
                then lm (dec (40 - Z.of_nat i) 40) (dec (40 - Z.of_nat i) 40)
                else lm (dec (Z.of_nat i) 40) (dec (Z.of_nat i) 40))
      (seq 0 21).

(** Thumb tip and index tip both at (0.5, 0.5), the index finger folded,
    the other three fingers extended; the thumb itself is neither open
    nor closed. *)
Definition ok_sign : list NormalizedLandmark.t :=
  map (fun i =>
         if (i =? 6)%nat then lm half (dec 40 100)
         else if (i =? 7)%nat then lm half (dec 45 100)
         else if (i <? 10)%nat then lm half half
         else if (Nat.modulo i 4 =? 2)%nat then lm half half
         else if (Nat.modulo i 4 =? 3)%nat then lm half (dec 40 100)
         else if (Nat.modulo i 4 =? 0)%nat then lm half (dec 30 100)
         else lm half half)
      (seq 0 21).

(** 20 landmarks, all at the centre of the frame. *)
Definition twenty_landmarks : list NormalizedLandmark.t :=
  repeat (lm (dec 1 2) (dec 1 2)) 20.

(** Ten landmarks with the wrist at [(wx, wy)] and the MCP of the
    middle finger, landmark 9, at [(mx, my)]. *)
Definition wrist_and_mcp (wx wy mx my : float) : list NormalizedLandmark.t :=
  lm wx wy :: repeat (lm (S754_zero false) (S754_zero false)) 8 ++ [lm mx my].

(** Wrist under the MCP of the middle finger: the hand points up, at 90
    degrees.  MCP to the left of the wrist: 180 degrees.  MCP to the
    right of the wrist: 0 degrees. *)
Definition upright : list NormalizedLandmark.t :=
  wrist_and_mcp half (dec 9 10) half half.
Definition pointing_left : list NormalizedLandmark.t :=
  wrist_and_mcp half (dec 9 10) (dec 1 10) (dec 9 10).
Definition pointing_right : list NormalizedLandmark.t :=
  wrist_and_mcp half (dec 9 10) (dec 9 10) (dec 9 10).

(** A history with previous center (2^-7, 0.5) and previous height 0.5,
    and a rectangle of height 0.5 whose center is 0.01 to the right of
    it: 9563013 * 2^-29 is 2^-7 plus the [float] 0.01, exactly. *)
Definition history_small : HandMouvementRecognitionCalculator.t :=
  HandMouvementRecognitionCalculator.Build
    (S754_finite false 8388608 (-30)) half
    (S754_zero false) (S754_zero false) half.
Definition rect_moved_0_01 : NormalizedRect.t :=
  rect (S754_finite false 9563013 (-29)) half (dec 1 5) half.

(** A history with previous center (0.5, 0.5), previous height 0.2 and
    previous wrist angle 90 degrees. *)
Definition history_upright : HandMouvementRecognitionCalculator.t :=
  HandMouvementRecognitionCalculator.Build
    half half (int_to_float 90) (S754_zero false) (dec 1 5).

(** The same with previous wrist angle 50 degrees. *)
Definition history_50 : HandMouvementRecognitionCalculator.t :=
  HandMouvementRecognitionCalculator.Build
    half half (int_to_float 50) (S754_zero false) (dec 1 5).

(** The history a first frame with the hand at the left border of the
    frame leaves: the previous center is (0.0, 0.5), the previous
    height 0.2. *)
Definition history_left_border : HandMouvementRecognitionCalculator.t :=
  HandMouvementRecognitionCalculator.Build
    (S754_zero false) half (S754_zero false) (S754_zero false) (dec 1 5).

(** Rectangles: the hand moved to the right and came closer; the hand
    at the left border of the frame. *)
Definition rect_right_closer : NormalizedRect.t :=
  rect (dec 3 4) half (dec 1 5) (dec 3 10).
Definition rect_left_border : NormalizedRect.t :=
  rect (S754_zero false) half (dec 1 5) (dec 1 5).

(** The labels a session outputs frame after frame, with the table
    [atan2_on_axes] for [atan2]; a frame that fails outputs none, and
    the list ends where a run is undefined. *)
Fixpoint labels (s : HandMouvementRecognitionCalculator.Session)
    (frames : list HandMouvementRecognitionCalculator.Frame)
  : list (string * string * string) :=
  match frames with
  | [] => []
  | f :: frames' =>
      match HandMouvementRecognitionCalculator.Process
              HandMouvementRecognitionCalculator.atan2_on_axes
              (HandMouvementRecognitionCalculator.frameCounter s)
              (HandMouvementRecognitionCalculator.calculator s)
              (fst f) (snd f) with
      | (c, OkStatus (out, this)) =>
          (HandMouvementRecognitionCalculator.recognized_hand_mouvement_scrolling out,
           HandMouvementRecognitionCalculator.recognized_hand_mouvement_zooming out,
           HandMouvementRecognitionCalculator.recognized_hand_mouvement_sliding out)
          :: labels (HandMouvementRecognitionCalculator.Build_Session this c)
                    frames'
      | (c, Error _) =>
          labels (HandMouvementRecognitionCalculator.Build_Session
                    (HandMouvementRecognitionCalculator.calculator s) c)
                 frames'
      | (_, Undefined) => []
      end
  end.

End Examples.

(** ** Further notions, used to state what the two calculators do
       beyond the sentences of the specification *)

Module Notions.
Import Float.
Definition finite (x : spec_float) : bool :=
  match x with
  | S754_zero _ | S754_finite _ _ _ => true
  | _ => false
  end.
Definition is_nan (x : spec_float) : bool :=
  match x with S754_nan => true | _ => false end.

(** The nine gestures that lines 161 to 196 recognize from the finger
    states alone, each with the one tuple of states (thumb, first,
    second, third, fourth finger) it is given to. *)
Definition gesture_table
  : list (HandGestureRecognitionCalculator.FingerStates * string) :=
  let O := HandGestureRecognitionCalculator.OPEN in
  let C := HandGestureRecognitionCalculator.CLOSE in
  let st := HandGestureRecognitionCalculator.Build_FingerStates in
  [ (st O O O O O, "FIVE"); (st C O O O O, "FOUR"); (st O O O C C, "TREE");
    (st O O C C C, "TWO"); (st C O C C C, "ONE"); (st C O O C C, "YEAH");
    (st C O C C O, "ROCK"); (st O O C C O, "SPIDERMAN");
    (st C C C C C, "FIST") ]%string.

(** The four labels of lines 146 to 161. *)
Definition directions : list string :=
  ["Scrolling right"; "Scrolling up"; "Scrolling left"; "Scrolling down"]%string.

(** A landmark whose coordinates are neither NaN nor infinite, and one
    with a NaN coordinate. *)
Definition finite_landmark (p : NormalizedLandmark.t) : bool :=
  finite (NormalizedLandmark.x p) && finite (NormalizedLandmark.y p).
Definition nan_landmark (p : NormalizedLandmark.t) : bool :=
  is_nan (NormalizedLandmark.x p) || is_nan (NormalizedLandmark.y p).
(** The landmarks of the four fingers whose states the gestures are
    told apart by: base, middle joint and tip of the first, second,
    third and fourth finger. *)
Definition finger_landmarks : list nat :=
  [6; 7; 8; 10; 11; 12; 14; 15; 16; 18; 19; 20]%nat.

(** The landmarks whose x coordinate lines 111 to 205 read, those whose
    y coordinate they read, and two lists with the same coordinates
    there. *)
Definition x_read : list nat := [2; 3; 4; 8]%nat.
Definition y_read : list nat :=
  [4; 6; 7; 8; 10; 11; 12; 14; 15; 16; 18; 19; 20]%nat.
Definition agree (coord : NormalizedLandmark.t -> float) (indices : list nat)
    (l l' : list NormalizedLandmark.t) : Prop :=
  forall i, In i indices ->
            option_map coord (nth_error l i) = option_map coord (nth_error l' i).

(** The calls of [Process] the framework makes for a sequence of frames,
    each on the members and the counter the call before left; [None]
    when a call is undefined. *)
Fixpoint run (atan2 : float -> float -> float)
    (s : HandMouvementRecognitionCalculator.Session)
    (frames : list HandMouvementRecognitionCalculator.Frame)
  : option HandMouvementRecognitionCalculator.Session :=
  match frames with
  | [] => Some s
  | f :: frames' =>
      match HandMouvementRecognitionCalculator.next atan2 s f with
      | Some s' => run atan2 s' frames'
      | None => None
      end
  end.

(** What holds of the members and the counter between two calls: a
    member that reads as set was written by an earlier call, the
    previous angle by an earlier call with an even counter. *)
Definition written_before (s : HandMouvementRecognitionCalculator.Session)
  : Prop :=
  let this := HandMouvementRecognitionCalculator.calculator s in
  let c := HandMouvementRecognitionCalculator.frameCounter s in
  0 <= c
  /\ (truthy (HandMouvementRecognitionCalculator.previous_x_center this) = true
      -> 1 <= c)
  /\ (truthy (HandMouvementRecognitionCalculator.previous_rectangle_height this)
      = true -> 1 <= c)
  /\ (truthy (HandMouvementRecognitionCalculator.previous_angle this) = true
      -> 2 <= c).

(** [r] is a zero, or a number of sign [s] whose magnitude is at most
    [mb * 2^eb], written with an exponent that is at most [eb]. *)
Definition bounded (s : bool) (mb : positive) (eb : Z) (r : spec_float)
  : Prop :=
  match r with
  | S754_zero _ => True
  | S754_finite s' m e => s' = s /\ e <= eb /\ Zpos m <= Zpos mb * 2 ^ (eb - e)
  | _ => False
  end.

End Notions.

(** ** Further inputs *)

Module Inputs.
Import Float.

(** The fist of [Examples.fist] with a NaN for the y coordinate of the
    tip of the second finger. *)
Definition fist_with_nan : list NormalizedLandmark.t :=
  map (fun i => if (i =? 12)%nat then Examples.lm Examples.half S754_nan
                else Examples.lm (Examples.dec (Z.of_nat i) 40)
                                 (Examples.dec (Z.of_nat i) 40))
      (seq 0 21).

(** 21 landmarks at the centre of the frame: no finger is open, none is
    closed. *)
Definition flat : list NormalizedLandmark.t :=
  repeat (Examples.lm Examples.half Examples.half) 21.

(** The fist with the wrist, the first joint of the thumb and the bases
    of the four fingers moved to the origin. *)
Definition fist_bases_moved : list NormalizedLandmark.t :=
  map (fun i => if existsb (Nat.eqb i) [0; 1; 5; 9; 13; 17]%nat
                then Examples.lm (S754_zero false) (S754_zero false)
                else Examples.lm (Examples.dec (Z.of_nat i) 40)
                                 (Examples.dec (Z.of_nat i) 40))
      (seq 0 21).

(** The first three frames of a hand that moves right and closer, then
    up and away, the wrist upright; the rectangle of a fourth frame,
    further left. *)
Definition three_frames : list HandMouvementRecognitionCalculator.Frame :=
  [ (Examples.hand_rect, Examples.upright);
    (Examples.rect_right_closer, Examples.upright);
    (Examples.rect (Examples.dec 3 4) (Examples.dec 1 4)
       (Examples.dec 1 5) (Examples.dec 1 10), Examples.upright) ].
Definition rect_left : NormalizedRect.t :=
  Examples.rect (Examples.dec 1 4) (Examples.dec 1 4)
    (Examples.dec 1 5) (Examples.dec 1 10).

(** The members and the counter after [three_frames], and after the
    fourth frame. *)
Definition after_three_frames : HandMouvementRecognitionCalculator.Session :=
  HandMouvementRecognitionCalculator.Build_Session
    (HandMouvementRecognitionCalculator.Build
       (Examples.dec 3 4) (Examples.dec 1 4) (int_to_float 90)
       (S754_zero false) (Examples.dec 1 10)) 3.
Definition after_four_frames : HandMouvementRecognitionCalculator.t :=
  HandMouvementRecognitionCalculator.Build
    (Examples.dec 1 4) (Examples.dec 1 4) (int_to_float 180)
    (S754_zero false) (Examples.dec 1 10).

(** The history [Examples.history_upright] after a frame that turned
    the wrist to 180 degrees. *)
Definition history_turned_left : HandMouvementRecognitionCalculator.t :=
  HandMouvementRecognitionCalculator.Build
    Examples.half Examples.half (int_to_float 180) (S754_zero false)
    (Examples.dec 1 5).

End Inputs.

(** ** Facts on rounding and on the order of floating-point numbers *)

Module FloatFacts.
Import Float.

Lemma pow2_pos (k : Z) : 0 <= k -> 0 < 2 ^ k.
Proof. intros; apply Z.pow_pos_nonneg; lia. Qed.

Lemma pow2_split (a b : Z) : 0 <= a -> 0 <= b -> 2 ^ (a + b) = 2 ^ a * 2 ^ b.
Proof. intros; apply Z.pow_add_r; lia. Qed.

Lemma pow2_le (a b : Z) : 0 <= a <= b -> 2 ^ a <= 2 ^ b.
Proof. intros; apply Z.pow_le_mono_r; lia. Qed.

Lemma pow2_lt_inv (a b : Z) : 0 <= a -> 0 <= b -> 2 ^ a < 2 ^ b -> a < b.
Proof. intros Ha Hb H. apply (Z.pow_lt_mono_r_iff 2); lia. Qed.

Lemma D_pos (m : positive) : 0 < D m.
Proof. unfold D; lia. Qed.

Lemma D_bounds (m : positive) : 2 ^ (D m - 1) <= Zpos m < 2 ^ D m.
Proof.
  unfold D. induction m as [p IH | p IH | ]; simpl digits2_pos.
  - rewrite Pos2Z.inj_succ.
    replace (Z.succ (Zpos (digits2_pos p)) - 1) with (Z.succ (Zpos (digits2_pos p) - 1)) by lia.
    rewrite !Z.pow_succ_r by lia. lia.
  - rewrite Pos2Z.inj_succ.
    replace (Z.succ (Zpos (digits2_pos p)) - 1) with (Z.succ (Zpos (digits2_pos p) - 1)) by lia.
    rewrite !Z.pow_succ_r by lia. lia.
  - simpl. lia.
Qed.

Lemma D_le_of_lt_pow (m : positive) (k : Z) : 0 <= k -> Zpos m < 2 ^ k -> D m <= k.
Proof.
  intros Hk H. pose proof (D_bounds m) as [Hl _]. pose proof (D_pos m).
  assert (2 ^ (D m - 1) < 2 ^ k) by lia.
  apply pow2_lt_inv in H1; lia.
Qed.

Lemma D_gt_of_pow_le (m : positive) (k : Z) : 0 <= k -> 2 ^ k <= Zpos m -> k < D m.
Proof.
  intros Hk H. pose proof (D_bounds m) as [_ Hu]. pose proof (D_pos m).
  assert (2 ^ k < 2 ^ D m) by lia.
  apply pow2_lt_inv in H1; lia.
Qed.

Lemma D_mono (a b : positive) : Zpos a <= Zpos b -> D a <= D b.
Proof.
  intros H. pose proof (D_bounds b) as [_ Hu]. pose proof (D_pos b).
  apply D_le_of_lt_pow; lia.
Qed.

(** [m <= K * 2^k] bounds the size of [m]. *)
Lemma D_le_mul_pow (m K : positive) (k : Z) :
  0 <= k -> Zpos m <= Zpos K * 2 ^ k -> D m <= D K + k.
Proof.
  intros Hk H. pose proof (D_bounds K) as [_ Hu]. pose proof (D_pos K).
  pose proof (pow2_pos k Hk).
  apply D_le_of_lt_pow; [lia|].
  rewrite pow2_split by lia. nia.
Qed.

Lemma D_ge_mul_pow (m K : positive) (k : Z) :
  0 <= k -> Zpos K * 2 ^ k <= Zpos m -> D K + k <= D m.
Proof.
  intros Hk H. pose proof (D_bounds K) as [Hl _]. pose proof (D_pos K).
  pose proof (pow2_pos k Hk).
  assert (D K - 1 + k < D m); [|lia].
  apply D_gt_of_pow_le; [lia|].
  rewrite pow2_split by lia. nia.
Qed.

(** Iterating [f] a positive number of times carries an invariant indexed
    by the number of steps. *)
Lemma iter_pos_invariant {A : Type} (f : A -> A) (I : Z -> A -> Prop) :
  (forall k x, 0 <= k -> I k x -> I (k + 1) (f x)) ->
  forall p k x, 0 <= k -> I k x -> I (k + Zpos p) (iter_pos f p x).
Proof.
  intros Hstep. induction p as [p IH | p IH | ]; intros k x Hk Hx; simpl.
  - replace (k + Zpos p~1) with (k + 1 + Zpos p + Zpos p) by lia.
    apply IH; [lia|]. apply IH; [lia|]. apply Hstep; assumption.
  - replace (k + Zpos p~0) with (k + Zpos p + Zpos p) by lia.
    apply IH; [lia|]. apply IH; assumption.
  - apply Hstep; assumption.
Qed.

Lemma mod_pow2_succ (m0 k : Z) :
  0 <= k -> m0 mod 2 ^ (k + 1) = 0 ->
  m0 mod 2 ^ k = 0 /\ (m0 / 2 ^ k) mod 2 = 0.
Proof.
  intros Hk H. pose proof (pow2_pos k Hk) as Hp.
  rewrite pow2_split in H by lia. change (2 ^ 1) with 2 in H.
  apply Z.mod_divide in H; [|lia]. destruct H as [q Hq].
  subst m0. split.
  - replace (q * (2 ^ k * 2)) with ((q * 2) * 2 ^ k) by ring.
    apply Z.mod_mul; lia.
  - replace (q * (2 ^ k * 2)) with ((q * 2) * 2 ^ k) by ring.
    rewrite Z.div_mul by lia. apply Z.mod_mul; lia.
Qed.

Lemma div_pow2_succ (m0 k : Z) : 0 <= k -> m0 / 2 ^ (k + 1) = m0 / 2 ^ k / 2.
Proof.
  intros Hk. pose proof (pow2_pos k Hk).
  rewrite pow2_split by lia. change (2 ^ 1) with 2.
  rewrite Z.div_div; lia.
Qed.

Lemma shr_1_shifted (m0 k : Z) (mrs : shr_record) :
  0 <= m0 -> 0 <= k -> shifted m0 k mrs -> shifted m0 (k + 1) (shr_1 mrs).
Proof.
  intros Hm Hk [Hv Hx]. destruct mrs as [m r s]. simpl in Hv, Hx.
  pose proof (pow2_pos k Hk) as Hp.
  assert (Hm' : 0 <= m) by (subst m; apply Z.div_pos; lia).
  unfold shifted. rewrite div_pow2_succ by lia. rewrite <- Hv.
  assert (Hex : m0 mod 2 ^ (k + 1) = 0 -> r = false /\ s = false /\ m mod 2 = 0).
  { intros H. apply mod_pow2_succ in H; [|lia]. destruct H as [H1 H2].
    destruct (Hx H1). rewrite Hv. auto. }
  destruct m as [|[p|p|]|p]; try lia; simpl; split; try reflexivity.
  - intros H; destruct (Hex H) as (-> & -> & _); auto.
  - rewrite Pos2Z.inj_xI. apply Z.div_unique with 1; lia.
  - intros H; destruct (Hex H) as (_ & _ & H3). rewrite Pos2Z.inj_xI in H3.
    rewrite Z.add_comm, Z.mul_comm, Z.mod_add in H3 by lia. discriminate.
  - rewrite Pos2Z.inj_xO. apply Z.div_unique with 0; lia.
  - intros H; destruct (Hex H) as (-> & -> & _); auto.
  - intros H; destruct (Hex H) as (_ & _ & H3). discriminate.
Qed.

Lemma shr_shifted (m0 : Z) (p : positive) (e : Z) :
  0 <= m0 ->
  shifted m0 (Zpos p) (fst (shr (Build_shr_record m0 false false) e (Zpos p)))
  /\ snd (shr (Build_shr_record m0 false false) e (Zpos p)) = e + Zpos p.
Proof.
  intros Hm. simpl. split; [|reflexivity].
  change (Zpos p) with (0 + Zpos p) at 1.
  apply (iter_pos_invariant shr_1 (shifted m0)); [| lia |].
  - intros k x Hk. apply shr_1_shifted; assumption.
  - split; simpl; [rewrite Z.div_1_r; reflexivity | auto].
Qed.


Lemma round_nearest_even_shifted (m0 k : Z) (mrs : shr_record) :
  shifted m0 k mrs ->
  m0 / 2 ^ k <= round_nearest_even (shr_m mrs) (loc_of_shr_record mrs)
             <= m0 / 2 ^ k + 1
  /\ (m0 mod 2 ^ k = 0 ->
      round_nearest_even (shr_m mrs) (loc_of_shr_record mrs) = m0 / 2 ^ k).
Proof.
  intros [Hv Hx]. destruct mrs as [m r s]; simpl in *. rewrite <- Hv. split.
  - destruct r, s; simpl; try destruct (Z.even m); lia.
  - intros H. destruct (Hx H) as [-> ->]. reflexivity.
Qed.

Lemma Pos_iter_xO (d m : positive) : Zpos (Pos.iter xO m d) = Zpos m * 2 ^ Zpos d.
Proof.
  induction d as [|d IH] using Pos.peano_ind.
  - simpl. lia.
  - rewrite Pos.iter_succ, Pos2Z.inj_xO, IH, Pos2Z.inj_succ, Z.pow_succ_r by lia.
    ring.
Qed.

Section Rounding.

Variables prec emax : Z.
Hypothesis prec_pos : 0 < prec.

Local Abbreviation fexp := (fexp prec emax).
Local Abbreviation emin := (emin prec emax).

Lemma fexp_mono (a b : Z) : a <= b -> fexp a <= fexp b.
Proof. unfold SpecFloat.fexp; lia. Qed.

Lemma fexp_ge_emin (a : Z) : emin <= fexp a.
Proof. unfold SpecFloat.fexp; lia. Qed.

Lemma fexp_above_emin (a : Z) : emin < fexp a -> fexp a = a - prec.
Proof. unfold SpecFloat.fexp; lia. Qed.

(** One right shift to the exponent the format asks for. *)
Lemma shr_fexp_exact (m e : Z) :
  0 <= m ->
  let e' := Z.max e (fexp (Zdigits2 m + e)) in
  snd (shr_fexp prec emax m e loc_Exact) = e'
  /\ shifted m (e' - e) (fst (shr_fexp prec emax m e loc_Exact)).
Proof.
  intros Hm e'. unfold shr_fexp, shr_record_of_loc. subst e'.
  destruct (fexp (Zdigits2 m + e) - e) as [|p|p] eqn:Hn.
  - simpl. replace (Z.max e (fexp (Zdigits2 m + e)) - e) with 0 by lia.
    split; [lia|]. split; simpl; [rewrite Z.div_1_r; reflexivity | auto].
  - destruct (shr_shifted m p e Hm) as [H1 H2].
    replace (Z.max e (fexp (Zdigits2 m + e))) with (e + Zpos p) by lia.
    replace (e + Zpos p - e) with (Zpos p) by lia. split; assumption.
  - simpl. replace (Z.max e (fexp (Zdigits2 m + e)) - e) with 0 by lia.
    split; [lia|]. split; simpl; [rewrite Z.div_1_r; reflexivity | auto].
Qed.

(** The two stages of [binary_round_aux] on an exact positive mantissa:
    a shift to exponent [e1] with rounding to [m_r], then a shift to
    [e2] that absorbs a carry. *)
Lemma binary_round_aux_exact (s : bool) (P : positive) (ez : Z) :
  let e1 := Z.max ez (fexp (D P + ez)) in
  exists m_r : Z,
    Zpos P / 2 ^ (e1 - ez) <= m_r <= Zpos P / 2 ^ (e1 - ez) + 1
    /\ (Zpos P mod 2 ^ (e1 - ez) = 0 -> m_r = Zpos P / 2 ^ (e1 - ez))
    /\ let e2 := Z.max e1 (fexp (Zdigits2 m_r + e1)) in
       binary_round_aux prec emax s (Zpos P) ez loc_Exact =
       match m_r / 2 ^ (e2 - e1) with
       | Z0 => S754_zero s
       | Zpos m => if e2 <=? emax - prec then S754_finite s m e2
                   else S754_infinity s
       | Zneg _ => S754_nan
       end.
Proof.
  intros e1. unfold binary_round_aux.
  destruct (shr_fexp_exact (Zpos P) ez) as [He1 Hs1]; [lia|].
  change (Zdigits2 (Zpos P)) with (D P) in He1, Hs1. fold e1 in He1, Hs1.
  destruct (shr_fexp prec emax (Zpos P) ez loc_Exact) as [mrs1 e1'].
  simpl in He1, Hs1. subst e1'.
  destruct (round_nearest_even_shifted _ _ _ Hs1) as [Hb Hex].
  set (m_r := round_nearest_even (shr_m mrs1) (loc_of_shr_record mrs1)) in *.
  exists m_r. split; [exact Hb|]. split; [exact Hex|].
  assert (Hmr : 0 <= m_r).
  { assert (0 <= Zpos P / 2 ^ (e1 - ez)); [|lia].
    apply Z.div_pos; [lia|]. apply pow2_pos. lia. }
  destruct (shr_fexp_exact m_r e1 Hmr) as [He2 Hs2].
  destruct (shr_fexp prec emax m_r e1 loc_Exact) as [mrs2 e2'].
  simpl in He2, Hs2. subst e2'. destruct Hs2 as [Hv2 _]. rewrite Hv2.
  reflexivity.
Qed.

Lemma binary_round_aux_above (s : bool) (mx P : positive) (ex ez : Z) :
  fexp (D mx + ex) = ex -> ez <= ex ->
  Zpos mx * 2 ^ (ex - ez) <= Zpos P ->
  above s mx ex (binary_round_aux prec emax s (Zpos P) ez loc_Exact).
Proof.
  intros Hcan Hez HP.
  destruct (binary_round_aux_exact s P ez) as (m_r & Hb & _ & ->).
  set (e0 := fexp (D P + ez)) in *.
  assert (Hd : D mx + (ex - ez) <= D P) by (apply D_ge_mul_pow; lia).
  assert (He0 : ex <= e0).
  { rewrite <- Hcan. apply fexp_mono. lia. }
  replace (Z.max ez e0) with e0 in * by lia.
  pose proof (pow2_pos (e0 - ez) ltac:(lia)) as Hp0.
  pose proof (pow2_pos (prec - 1) ltac:(lia)) as Hpp.
  assert (Hm1 : 1 <= Zpos P / 2 ^ (e0 - ez)
                /\ (e0 = ex -> Zpos mx <= Zpos P / 2 ^ (e0 - ez))).
  { assert (Hcase : e0 = ex \/ ex < e0) by lia. destruct Hcase as [Heq|Hgt].
    - assert (Zpos mx <= Zpos P / 2 ^ (e0 - ez)).
      { apply Z.div_le_lower_bound; [lia|]. rewrite Heq. lia. }
      split; [lia|auto].
    - assert (Hf : e0 = D P + ez - prec).
      { apply fexp_above_emin. pose proof (fexp_ge_emin (D mx + ex)). lia. }
      split; [|lia].
      assert (2 ^ (prec - 1) <= Zpos P / 2 ^ (e0 - ez)); [|lia].
      apply Z.div_le_lower_bound; [lia|].
      rewrite <- pow2_split by lia.
      replace (e0 - ez + (prec - 1)) with (D P - 1) by lia.
      apply D_bounds. }
  destruct Hm1 as [Hm1 Hm1'].
  destruct m_r as [|q|q]; try lia.
  change (Zdigits2 (Zpos q)) with (D q).
  set (e2 := Z.max e0 (fexp (D q + e0))).
  assert (Hcase : e2 = e0 \/ e0 < e2) by lia. destruct Hcase as [Heq|Hgt].
  - rewrite Heq. replace (e0 - e0) with 0 by lia. rewrite Z.div_1_r.
    destruct (e0 <=? emax - prec); simpl; [|reflexivity].
    split; [reflexivity|]. destruct (Z.eq_dec e0 ex); [right|left]; lia.
  - assert (Hf : e2 = D q + e0 - prec).
    { unfold e2. replace (Z.max e0 (fexp (D q + e0))) with (fexp (D q + e0)) by lia.
      apply fexp_above_emin. pose proof (fexp_ge_emin (D P + ez)). fold e0 in H.
      lia. }
    assert (H2 : 2 ^ (prec - 1) <= Zpos q / 2 ^ (e2 - e0)).
    { pose proof (pow2_pos (e2 - e0) ltac:(lia)).
      apply Z.div_le_lower_bound; [lia|].
      rewrite <- pow2_split by lia.
      replace (e2 - e0 + (prec - 1)) with (D q - 1) by lia.
      apply D_bounds. }
    destruct (Zpos q / 2 ^ (e2 - e0)) as [|m|m]; try lia.
    destruct (e2 <=? emax - prec); simpl; [|reflexivity].
    split; [reflexivity|]. left; lia.
Qed.

Lemma binary_round_aux_below (s : bool) (mx P : positive) (ex ez : Z) :
  fexp (D mx + ex) = ex -> ex <= emax - prec -> ez <= ex ->
  Zpos P <= Zpos mx * 2 ^ (ex - ez) ->
  below s mx ex (binary_round_aux prec emax s (Zpos P) ez loc_Exact).
Proof.
  intros Hcan Hbnd Hez HP.
  destruct (binary_round_aux_exact s P ez) as (m_r & Hb & Hex & ->).
  set (e1 := Z.max ez (fexp (D P + ez))) in *.
  assert (Hd : D P <= D mx + (ex - ez)) by (apply D_le_mul_pow; lia).
  assert (He1 : e1 <= ex).
  { assert (fexp (D P + ez) <= ex); [|lia].
    rewrite <- Hcan. apply fexp_mono. lia. }
  pose proof (pow2_pos (e1 - ez) ltac:(lia)) as Hp1.
  pose proof (pow2_pos (ex - e1) ltac:(lia)) as Hp2.
  assert (Hsplit : 2 ^ (ex - ez) = 2 ^ (ex - e1) * 2 ^ (e1 - ez)).
  { rewrite <- pow2_split by lia. f_equal. lia. }
  assert (Hm1 : 0 <= Zpos P / 2 ^ (e1 - ez)) by (apply Z.div_pos; lia).
  assert (HK : m_r <= Zpos mx * 2 ^ (ex - e1)).
  { destruct (Z.eq_dec (Zpos P mod 2 ^ (e1 - ez)) 0) as [Hz|Hnz].
    - rewrite (Hex Hz). apply Z.div_le_upper_bound; [lia|]. rewrite Hsplit in HP. lia.
    - assert (Zpos P / 2 ^ (e1 - ez) < Zpos mx * 2 ^ (ex - e1)); [|lia].
      apply Z.div_lt_upper_bound; [lia|].
      assert (Zpos P <> Zpos mx * 2 ^ (ex - e1) * 2 ^ (e1 - ez)).
      { intros Heq. apply Hnz. rewrite Heq. apply Z.mod_mul. lia. }
      rewrite Hsplit in HP. lia. }
  destruct m_r as [|q|q]; try lia.
  - simpl. reflexivity.
  - change (Zdigits2 (Zpos q)) with (D q).
    set (e2 := Z.max e1 (fexp (D q + e1))).
    assert (Hdq : D q <= D mx + (ex - e1)) by (apply D_le_mul_pow; lia).
    assert (He2 : e2 <= ex).
    { assert (fexp (D q + e1) <= ex); [|lia].
      rewrite <- Hcan. apply fexp_mono. lia. }
    pose proof (pow2_pos (e2 - e1) ltac:(lia)) as Hp3.
    assert (Hm2 : 0 <= Zpos q / 2 ^ (e2 - e1)) by (apply Z.div_pos; lia).
    destruct (Zpos q / 2 ^ (e2 - e1)) as [|m|m] eqn:Hq; try lia.
    + reflexivity.
    + replace (e2 <=? emax - prec) with true by (symmetry; apply Z.leb_le; lia).
      simpl. split; [reflexivity|].
      destruct (Z.eq_dec e2 ex) as [Heq|Hne]; [right|left; lia].
      split; [assumption|]. rewrite <- Hq.
      apply Z.div_le_upper_bound; [lia|]. rewrite Heq. lia.
Qed.

Lemma shl_align_le (P : positive) (ez e0 : Z) :
  e0 <= ez -> Zpos (fst (shl_align P ez e0)) = Zpos P * 2 ^ (ez - e0).
Proof.
  intros H. unfold shl_align. destruct (e0 - ez) as [|d|d] eqn:Hd; cbn [fst].
  - replace (ez - e0) with 0 by lia. simpl. lia.
  - lia.
  - assert (He : e0 - ez = - Zpos d) by (rewrite Hd; reflexivity).
    rewrite Pos_iter_xO. f_equal. f_equal. lia.
Qed.

Lemma shl_align_spec (P : positive) (ez e0 : Z) :
  snd (shl_align P ez e0) <= ez
  /\ Zpos (fst (shl_align P ez e0)) = Zpos P * 2 ^ (ez - snd (shl_align P ez e0)).
Proof.
  unfold shl_align. destruct (e0 - ez) as [|d|d] eqn:Hd; cbn [fst snd].
  - rewrite Z.sub_diag. simpl. lia.
  - rewrite Z.sub_diag. simpl. lia.
  - assert (He : e0 - ez = - Zpos d) by (rewrite Hd; reflexivity).
    split; [lia|]. rewrite Pos_iter_xO. f_equal. f_equal. lia.
Qed.

Lemma binary_round_above (s : bool) (mx P : positive) (ex ez : Z) :
  fexp (D mx + ex) = ex -> ez <= ex ->
  Zpos mx * 2 ^ (ex - ez) <= Zpos P ->
  above s mx ex (binary_round prec emax s P ez).
Proof.
  intros Hcan Hez HP. unfold binary_round.
  destruct (shl_align_spec P ez (fexp (Zpos (digits2_pos P) + ez))) as [H1 H2].
  destruct (shl_align P ez (fexp (Zpos (digits2_pos P) + ez))) as [mz ez'].
  cbn [fst snd] in H1, H2. apply binary_round_aux_above; try assumption; try lia.
  rewrite H2. replace (ex - ez') with ((ex - ez) + (ez - ez')) by lia.
  rewrite pow2_split by lia.
  pose proof (pow2_pos (ez - ez') ltac:(lia)). nia.
Qed.

Lemma binary_round_below (s : bool) (mx P : positive) (ex ez : Z) :
  fexp (D mx + ex) = ex -> ex <= emax - prec -> ez <= ex ->
  Zpos P <= Zpos mx * 2 ^ (ex - ez) ->
  below s mx ex (binary_round prec emax s P ez).
Proof.
  intros Hcan Hbnd Hez HP. unfold binary_round.
  destruct (shl_align_spec P ez (fexp (Zpos (digits2_pos P) + ez))) as [H1 H2].
  destruct (shl_align P ez (fexp (Zpos (digits2_pos P) + ez))) as [mz ez'].
  cbn [fst snd] in H1, H2. apply binary_round_aux_below; try assumption; try lia.
  rewrite H2. replace (ex - ez') with ((ex - ez) + (ez - ez')) by lia.
  rewrite pow2_split by lia.
  pose proof (pow2_pos (ez - ez') ltac:(lia)). nia.
Qed.


Ltac lex_order :=
  unfold SFleb, SFltb; simpl;
  repeat match goal with
  | |- context [Pos.compare_cont Eq ?a ?b] =>
      change (Pos.compare_cont Eq a b) with (Pos.compare a b)
  end;
  repeat match goal with
  | |- context [Z.compare ?a ?b] => destruct (Z.compare_spec a b)
  | |- context [Pos.compare ?a ?b] => destruct (Pos.compare_spec a b)
  end; simpl; try reflexivity; try lia.

Lemma binary_round_aux_signed (s : bool) (m e : Z) (l : location) :
  signed s (binary_round_aux prec emax s m e l).
Proof.
  unfold binary_round_aux.
  destruct (shr_fexp prec emax m e l) as [mrs1 e1].
  destruct (shr_fexp prec emax _ e1 loc_Exact) as [mrs2 e2].
  destruct (shr_m mrs2); simpl; auto.
  destruct (e2 <=? emax - prec); simpl; auto.
Qed.

Lemma binary_round_signed (s : bool) (P : positive) (e : Z) :
  signed s (binary_round prec emax s P e).
Proof.
  unfold binary_round. destruct (shl_align P e _) as [mz ez].
  apply binary_round_aux_signed.
Qed.

Lemma SFmul_not_negative (a b : spec_float) :
  not_negative a = true -> not_negative b = true ->
  not_negative (SFmul prec emax a b) = true.
Proof.
  destruct a as [sa|[|]| |[|] ma ea], b as [sb|[|]| |[|] mb eb];
    simpl; try discriminate; try reflexivity; intros _ _.
  pose proof (binary_round_aux_signed false (Zpos (ma * mb)) (ea + eb) loc_Exact) as H.
  destruct (binary_round_aux prec emax false _ _ _) as [s|s| |s m e];
    simpl in *; subst; reflexivity.
Qed.

Lemma above_pos_leb (mx : positive) (ex : Z) (r : spec_float) :
  above false mx ex r ->
  r = S754_nan \/ SFleb (S754_finite false mx ex) r = true.
Proof.
  destruct r as [s|s| |s m e]; simpl; try tauto; intros H;
    try match type of H with _ /\ _ => destruct H as [Hs H] end;
    subst; right; try reflexivity; lex_order.
Qed.

Lemma below_neg_leb (mx : positive) (ex : Z) (r : spec_float) :
  below true mx ex r ->
  r = S754_nan \/ SFleb (S754_finite true mx ex) r = true.
Proof.
  destruct r as [s|s| |s m e]; simpl; try tauto; intros H;
    try match type of H with _ /\ _ => destruct H as [Hs H] end;
    subst; right; try reflexivity; lex_order.
Qed.

Lemma below_pos_geb (mx : positive) (ex : Z) (r : spec_float) :
  below false mx ex r ->
  r = S754_nan \/ SFleb r (S754_finite false mx ex) = true.
Proof.
  destruct r as [s|s| |s m e]; simpl; try tauto; intros H;
    try match type of H with _ /\ _ => destruct H as [Hs H] end;
    subst; right; try reflexivity; lex_order.
Qed.

Lemma above_neg_geb (mx : positive) (ex : Z) (r : spec_float) :
  above true mx ex r ->
  r = S754_nan \/ SFleb r (S754_finite true mx ex) = true.
Proof.
  destruct r as [s|s| |s m e]; simpl; try tauto; intros H;
    try match type of H with _ /\ _ => destruct H as [Hs H] end;
    subst; right; try reflexivity; lex_order.
Qed.

Lemma signed_pos_above_neg (s : bool) (mx : positive) (ex : Z) (r : spec_float) :
  signed false r ->
  r = S754_nan \/ SFleb (S754_finite true mx ex) r = true.
Proof.
  destruct r as [s'|s'| |s' m e]; simpl; try tauto; intros H; subst; right; reflexivity.
Qed.

Lemma signed_neg_below_pos (mx : positive) (ex : Z) (r : spec_float) :
  signed true r ->
  r = S754_nan \/ SFleb r (S754_finite false mx ex) = true.
Proof.
  destruct r as [s'|s'| |s' m e]; simpl; try tauto; intros H; subst; right; reflexivity.
Qed.

Lemma SFleb_refl_finite (s : bool) (m : positive) (e : Z) :
  SFleb (S754_finite s m e) (S754_finite s m e) = true.
Proof.
  unfold SFleb. simpl. rewrite Z.compare_refl.
  change (Pos.compare_cont Eq m m) with (Pos.compare m m).
  rewrite Pos.compare_refl. destruct s; reflexivity.
Qed.

Lemma valid_finite (s : bool) (m : positive) (e : Z) :
  valid_binary prec emax (S754_finite s m e) = true ->
  fexp (D m + e) = e /\ e <= emax - prec.
Proof.
  simpl. unfold bounded, canonical_mantissa. intros H.
  apply andb_prop in H. destruct H as [H1 H2].
  apply Z.eqb_eq in H1. apply Z.leb_le in H2. auto.
Qed.

(** Adding a value that is not negative to a value of the format gives a
    NaN or a result no smaller. *)
Ltac easy_cases sx st :=
  try discriminate;
  try (left; reflexivity);
  try (right; reflexivity);
  try (right; simpl; apply SFleb_refl_finite);
  try (destruct sx; try discriminate; (left; reflexivity) || (right; reflexivity));
  try (destruct st; try discriminate; (left; reflexivity) || (right; reflexivity));
  try (destruct sx, st; try discriminate; (left; reflexivity) || (right; reflexivity)).

Lemma SFadd_not_negative (x t : spec_float) :
  valid_binary prec emax x = true -> not_negative t = true ->
  SFadd prec emax x t = S754_nan \/ SFleb x (SFadd prec emax x t) = true.
Proof.
  intros Hx Ht.
  destruct x as [sx|sx| |sx mx ex], t as [st|st| |st mt et]; easy_cases sx st.
  destruct st; [discriminate|].
  apply valid_finite in Hx. destruct Hx as [Hcan Hbnd].
  unfold SFadd.
  pose proof (shl_align_le mx ex (Z.min ex et) ltac:(lia)) as HA.
  pose proof (shl_align_le mt et (Z.min ex et) ltac:(lia)) as HT.
  set (A := fst (shl_align mx ex (Z.min ex et))) in *.
  set (T := fst (shl_align mt et (Z.min ex et))) in *.
  pose proof (pow2_pos (et - Z.min ex et) ltac:(lia)) as HpT.
  destruct sx; cbn [cond_Zopp].
  - destruct (- Zpos A + Zpos T) as [|P|P] eqn:HS; cbn [binary_normalize].
    + right. reflexivity.
    + apply (signed_pos_above_neg false). apply binary_round_signed.
    + apply below_neg_leb. apply binary_round_below; try assumption; lia.
  - change (Zpos A + Zpos T) with (Zpos (A + T)). cbn [binary_normalize].
    apply above_pos_leb. apply binary_round_above; try assumption; lia.
Qed.

(** Subtracting a value that is not negative gives a NaN or a result no
    larger. *)
Lemma SFsub_not_negative (x t : spec_float) :
  valid_binary prec emax x = true -> not_negative t = true ->
  SFsub prec emax x t = S754_nan \/ SFleb (SFsub prec emax x t) x = true.
Proof.
  intros Hx Ht.
  destruct x as [sx|sx| |sx mx ex], t as [st|st| |st mt et]; easy_cases sx st.
  destruct st; [discriminate|].
  apply valid_finite in Hx. destruct Hx as [Hcan Hbnd].
  unfold SFsub.
  pose proof (shl_align_le mx ex (Z.min ex et) ltac:(lia)) as HA.
  pose proof (shl_align_le mt et (Z.min ex et) ltac:(lia)) as HT.
  set (A := fst (shl_align mx ex (Z.min ex et))) in *.
  set (T := fst (shl_align mt et (Z.min ex et))) in *.
  pose proof (pow2_pos (et - Z.min ex et) ltac:(lia)) as HpT.
  destruct sx; cbn [cond_Zopp].
  - change (- Zpos A - Zpos T) with (Zneg (A + T)). cbn [binary_normalize].
    apply above_neg_geb. apply binary_round_above; try assumption; lia.
  - destruct (Zpos A - Zpos T) as [|P|P] eqn:HS; cbn [binary_normalize].
    + right. reflexivity.
    + apply below_pos_geb. apply binary_round_below; try assumption; lia.
    + apply signed_neg_below_pos. apply binary_round_signed.
Qed.

End Rounding.


(** The order of [SFcompare] is lexicographic on sign, exponent and
    mantissa; these facts hold for every [spec_float]. *)
Ltac order_cases :=
  unfold SFleb, SFltb; simpl;
  repeat match goal with
  | |- context [Pos.compare_cont Eq ?a ?b] =>
      change (Pos.compare_cont Eq a b) with (Pos.compare a b)
  end;
  repeat match goal with
  | |- context [Z.compare ?a ?b] => destruct (Z.compare_spec a b)
  | |- context [Pos.compare ?a ?b] => destruct (Pos.compare_spec a b)
  end; simpl; intros; subst; try discriminate; try reflexivity; try lia.

Lemma SFleb_SFltb_trans (a b c : spec_float) :
  SFleb a b = true -> SFltb b c = true -> SFltb a c = true.
Proof.
  destruct a as [[|]|[|]| |[|] ma ea], b as [[|]|[|]| |[|] mb eb],
           c as [[|]|[|]| |[|] mc ec];
    try (intros; discriminate); try (intros; reflexivity); order_cases.
Qed.

Lemma SFltb_SFleb_trans (a b c : spec_float) :
  SFltb a b = true -> SFleb b c = true -> SFltb a c = true.
Proof.
  destruct a as [[|]|[|]| |[|] ma ea], b as [[|]|[|]| |[|] mb eb],
           c as [[|]|[|]| |[|] mc ec];
    try (intros; discriminate); try (intros; reflexivity); order_cases.
Qed.

Lemma SFltb_irrefl (a : spec_float) : SFltb a a = false.
Proof. destruct a as [[|]|[|]| |[|] ma ea]; try reflexivity; order_cases. Qed.

Lemma SFltb_SFleb (a b : spec_float) : SFltb a b = true -> SFleb a b = true.
Proof.
  unfold SFltb, SFleb. destruct (SFcompare a b) as [[| |]|]; auto.
Qed.

Lemma SFltb_nan_r (a : spec_float) : SFltb a S754_nan = false.
Proof. destruct a; reflexivity. Qed.

Section Exclusion.

Variables prec emax : Z.
Hypothesis prec_pos : 0 < prec.

(** [x + t < y] and [y + u < x] cannot both hold when [t] and [u] are
    not negative. *)
Lemma SFadd_lt_exclusive (x y t u : spec_float) :
  valid_binary prec emax x = true -> valid_binary prec emax y = true ->
  not_negative t = true -> not_negative u = true ->
  SFltb (SFadd prec emax x t) y = true ->
  SFltb (SFadd prec emax y u) x = true -> False.
Proof.
  intros Hx Hy Ht Hu H1 H2.
  destruct (SFadd_not_negative prec emax prec_pos x t Hx Ht) as [E|L1];
    [rewrite E in H1; discriminate|].
  destruct (SFadd_not_negative prec emax prec_pos y u Hy Hu) as [E|L2];
    [rewrite E in H2; discriminate|].
  pose proof (SFleb_SFltb_trans _ _ _ L1 H1) as Hxy.
  pose proof (SFleb_SFltb_trans _ _ _ L2 H2) as Hyx.
  pose proof (SFltb_SFleb_trans _ _ _ Hxy (SFltb_SFleb _ _ Hyx)) as Hxx.
  rewrite SFltb_irrefl in Hxx. discriminate.
Qed.

(** [h < p - t] and [p + t < h] cannot both hold when [t] is not
    negative. *)
Lemma SFsub_SFadd_exclusive (p h t : spec_float) :
  valid_binary prec emax p = true -> not_negative t = true ->
  SFltb h (SFsub prec emax p t) = true ->
  SFltb (SFadd prec emax p t) h = true -> False.
Proof.
  intros Hp Ht H1 H2.
  destruct (SFadd_not_negative prec emax prec_pos p t Hp Ht) as [E|L1];
    [rewrite E in H2; discriminate|].
  destruct (SFsub_not_negative prec emax prec_pos p t Hp Ht) as [E|L2];
    [rewrite E, SFltb_nan_r in H1; discriminate|].
  pose proof (SFleb_SFltb_trans _ _ _ L1 H2) as Hph.
  pose proof (SFltb_SFleb_trans _ _ _ H1 L2) as Hhp.
  pose proof (SFltb_SFleb_trans _ _ _ Hph (SFltb_SFleb _ _ Hhp)) as Hpp.
  rewrite SFltb_irrefl in Hpp. discriminate.
Qed.

End Exclusion.

End FloatFacts.

(** ** HandGestureRecognitionCalculator: properties *)

Module GestureProperties.
Import Float Spec HandGestureRecognitionCalculator.
Local Open Scope string_scope.

Lemma landmark_nth (l : list NormalizedLandmark.t) (i : nat)
    (p : NormalizedLandmark.t) :
  nth_error l i = Some p -> landmark l i = OkStatus p.
Proof. unfold landmark. intros ->. reflexivity. Qed.

Lemma nth_error_below (l : list NormalizedLandmark.t) (i : nat) :
  (i < List.length l)%nat -> exists p, nth_error l i = Some p.
Proof.
  intros H. destruct (nth_error l i) as [p|] eqn:E; [eauto|].
  apply nth_error_None in E. lia.
Qed.

Lemma nth_error_valid (l : list NormalizedLandmark.t) (i : nat)
    (p : NormalizedLandmark.t) :
  forallb valid_landmark l = true -> nth_error l i = Some p ->
  valid (NormalizedLandmark.x p) = true /\ valid (NormalizedLandmark.y p) = true.
Proof.
  intros Hall Hn. apply nth_error_In in Hn.
  rewrite forallb_forall in Hall. specialize (Hall p Hn).
  unfold valid_landmark in Hall. apply andb_prop in Hall. exact Hall.
Qed.

Lemma RET_CHECK_nonempty (l : list NormalizedLandmark.t) :
  l <> [] -> RET_CHECK_landmarks l = OkStatus tt.
Proof. destruct l; [congruence | reflexivity]. Qed.

Lemma RET_CHECK_empty :
  RET_CHECK_landmarks [] = Error "Input landmark vector is empty.".
Proof. reflexivity. Qed.

(** The state a finger gets when its three landmarks are in the list. *)
Lemma finger_state_value (l : list NormalizedLandmark.t)
    (coord : NormalizedLandmark.t -> float) (p m t : nat)
    (lP lM lT : NormalizedLandmark.t) :
  nth_error l p = Some lP -> nth_error l m = Some lM ->
  nth_error l t = Some lT ->
  finger_state l coord p m t =
  OkStatus
    (if lt (fadd (coord lM) threshold) (coord lP)
        && lt (fadd (coord lT) threshold) (coord lM)
     then OPEN
     else if lt (fadd (coord lP) closeFingerThreshold) (coord lM)
             && lt (fadd (coord lM) closeFingerThreshold) (coord lT)
     then CLOSE
     else UNKNOW).
Proof.
  intros HP HM HT. unfold finger_state, coord_at, and_then.
  rewrite (landmark_nth _ _ _ HP), (landmark_nth _ _ _ HM),
    (landmark_nth _ _ _ HT). simpl.
  destruct (lt (fadd (coord lM) threshold) (coord lP)); simpl;
    [destruct (lt (fadd (coord lT) threshold) (coord lM)); simpl;
     [reflexivity|] |];
    (destruct (lt (fadd (coord lP) closeFingerThreshold) (coord lM)); simpl;
     [destruct (lt (fadd (coord lM) closeFingerThreshold) (coord lT));
      reflexivity | reflexivity]).
Qed.

Lemma epsilon_not_negative : not_negative epsilon = true.
Proof. reflexivity. Qed.

(** The open and the closed condition exclude each other. *)
Lemma open_closed_exclusive (cP cM cT : float) :
  valid cP = true -> valid cM = true ->
  open_condition cP cM cT -> closed_condition cP cM cT -> False.
Proof.
  intros HvP HvM [Ho _] [Hc _].
  apply (FloatFacts.SFadd_lt_exclusive 24 128 ltac:(lia) cM cP epsilon epsilon);
    auto using epsilon_not_negative.
Qed.

Lemma finger_state_classified (l : list NormalizedLandmark.t)
    (coord : NormalizedLandmark.t -> float) (p m t : nat) :
  (p < List.length l)%nat -> (m < List.length l)%nat ->
  (t < List.length l)%nat ->
  (forall i q, nth_error l i = Some q -> valid (coord q) = true) ->
  exists st, finger_state l coord p m t = OkStatus st
             /\ finger_classified l coord p m t st.
Proof.
  intros Hp Hm Ht Hv.
  destruct (nth_error_below l p Hp) as [lP HP].
  destruct (nth_error_below l m Hm) as [lM HM].
  destruct (nth_error_below l t Ht) as [lT HT].
  rewrite (finger_state_value l coord p m t lP lM lT HP HM HT).
  eexists; split; [reflexivity|].
  exists lP, lM, lT. repeat (split; [assumption|]).
  pose proof (open_closed_exclusive (coord lP) (coord lM) (coord lT)
                (Hv _ _ HP) (Hv _ _ HM)) as Hex.
  unfold open_condition, closed_condition in *.
  change closeFingerThreshold with epsilon. change threshold with epsilon.
  destruct (lt (fadd (coord lM) epsilon) (coord lP)),
           (lt (fadd (coord lT) epsilon) (coord lM)),
           (lt (fadd (coord lP) epsilon) (coord lM)),
           (lt (fadd (coord lM) epsilon) (coord lT)); simpl;
    repeat split; intros; try discriminate; try tauto;
    try (exfalso; apply Hex; split; reflexivity);
    intuition discriminate.
Qed.

(** C1.  When the rectangle has a width below 0.01 or a height below
    0.01, [Process] adds the sentinel "___" to its output and returns
    [OkStatus] whatever the landmark list is, the empty list and lists
    shorter than a skeleton included: no landmark is read. *)
Theorem absent_hand_gives_sentinel (rect : NormalizedRect.t) :
  lt (to_double (NormalizedRect.width rect)) (dlit 1 100) = true
  \/ lt (to_double (NormalizedRect.height rect)) (dlit 1 100) = true ->
  forall landmarkList : list NormalizedLandmark.t,
    Process rect landmarkList = OkStatus "___".
Proof.
  intros H landmarkList. unfold Process, no_hand.
  destruct H as [-> | ->]; [reflexivity|].
  rewrite orb_true_r. reflexivity.
Qed.

Lemma absent_hand_gives_sentinel_witness :
  Process Examples.tiny_rect [] = OkStatus "___"
  /\ Process Examples.tiny_rect Examples.fist = OkStatus "___".
Proof.
  split; apply absent_hand_gives_sentinel; left; vm_compute; reflexivity.
Defined.

(** C2.  Past the presence gate, on a list of at least 21 landmarks whose
    coordinates are binary32 values, as every [float] is, the five
    finger states are computed, and each is OPEN exactly when [coord M + 0.01 < coord P] and [coord T + 0.01 < coord M],
    CLOSE exactly when [coord P + 0.01 < coord M] and
    [coord M + 0.01 < coord T], UNKNOW otherwise; the thumb is read on x
    at landmarks 2, 3, 4 and the other fingers on y at (6,7,8),
    (10,11,12), (14,15,16), (18,19,20).  [Process] recognizes the
    gesture from these states. *)
Theorem finger_states_classified (rect : NormalizedRect.t)
    (landmarkList : list NormalizedLandmark.t) :
  no_hand rect = false ->
  (skeleton_size <= List.length landmarkList)%nat ->
  forallb valid_landmark landmarkList = true ->
  exists s : FingerStates,
    finger_states landmarkList = OkStatus s
    /\ Process rect landmarkList = recognize s (thumb_near landmarkList)
    /\ finger_classified landmarkList NormalizedLandmark.x 2 3 4 (thumbState s)
    /\ finger_classified landmarkList NormalizedLandmark.y 6 7 8 (firstFingerState s)
    /\ finger_classified landmarkList NormalizedLandmark.y 10 11 12 (secondFingerState s)
    /\ finger_classified landmarkList NormalizedLandmark.y 14 15 16 (thirdFingerState s)
    /\ finger_classified landmarkList NormalizedLandmark.y 18 19 20 (fourthFingerState s).
Proof.
  intros Hgate Hlen Hvalid. unfold skeleton_size in Hlen.
  assert (Hx : forall i q, nth_error landmarkList i = Some q ->
                           valid (NormalizedLandmark.x q) = true)
    by (intros i q Hq; apply (nth_error_valid _ _ _ Hvalid Hq)).
  assert (Hy : forall i q, nth_error landmarkList i = Some q ->
                           valid (NormalizedLandmark.y q) = true)
    by (intros i q Hq; apply (nth_error_valid _ _ _ Hvalid Hq)).
  destruct (finger_state_classified landmarkList NormalizedLandmark.x 2 3 4)
    as (s0 & E0 & C0); try lia; try assumption.
  destruct (finger_state_classified landmarkList NormalizedLandmark.y 6 7 8)
    as (s1 & E1 & C1); try lia; try assumption.
  destruct (finger_state_classified landmarkList NormalizedLandmark.y 10 11 12)
    as (s2 & E2 & C2); try lia; try assumption.
  destruct (finger_state_classified landmarkList NormalizedLandmark.y 14 15 16)
    as (s3 & E3 & C3); try lia; try assumption.
  destruct (finger_state_classified landmarkList NormalizedLandmark.y 18 19 20)
    as (s4 & E4 & C4); try lia; try assumption.
  exists (Build_FingerStates s0 s1 s2 s3 s4).
  assert (Hs : finger_states landmarkList
               = OkStatus (Build_FingerStates s0 s1 s2 s3 s4)).
  { unfold finger_states. rewrite E0, E1, E2, E3, E4. reflexivity. }
  split; [exact Hs|]. split.
  - unfold Process. rewrite Hgate, RET_CHECK_nonempty, Hs; [reflexivity|].
    intros ->. discriminate.
  - simpl. auto.
Qed.

Lemma finger_states_classified_witness :
  exists s : FingerStates,
    finger_states Examples.fist = OkStatus s
    /\ Process Examples.hand_rect Examples.fist
       = recognize s (thumb_near Examples.fist)
    /\ finger_classified Examples.fist NormalizedLandmark.x 2 3 4 (thumbState s)
    /\ finger_classified Examples.fist NormalizedLandmark.y 6 7 8 (firstFingerState s)
    /\ finger_classified Examples.fist NormalizedLandmark.y 10 11 12 (secondFingerState s)
    /\ finger_classified Examples.fist NormalizedLandmark.y 14 15 16 (thirdFingerState s)
    /\ finger_classified Examples.fist NormalizedLandmark.y 18 19 20 (fourthFingerState s).
Proof.
  apply (finger_states_classified Examples.hand_rect Examples.fist);
    vm_compute; reflexivity.
Defined.

(** A status that is not an error of the framework. *)
Lemma landmark_not_Error (l : list NormalizedLandmark.t) (i : nat) (msg : string) :
  landmark l i <> Error msg.
Proof. unfold landmark. destruct (nth_error l i); discriminate. Qed.

Lemma bind_not_Error {A B : Type} (m : Status A) (k : A -> Status B) :
  (forall msg, m <> Error msg) ->
  (forall a msg, k a <> Error msg) ->
  forall msg, bind m k <> Error msg.
Proof.
  intros Hm Hk msg. destruct m as [a|msg'|]; simpl.
  - apply Hk.
  - exfalso. apply (Hm msg'). reflexivity.
  - discriminate.
Qed.

Ltac not_Error :=
  repeat first
    [ apply landmark_not_Error
    | progress intros
    | apply bind_not_Error
    | match goal with
      | |- (if ?b then _ else _) <> _ => destruct b
      | |- OkStatus _ <> Error _ => discriminate
      end ].

Lemma finger_states_not_Error (l : list NormalizedLandmark.t) (msg : string) :
  finger_states l <> Error msg.
Proof.
  revert msg. unfold finger_states, finger_state, coord_at, and_then.
  not_Error.
Qed.

Lemma recognize_not_Error (s : FingerStates) (l : list NormalizedLandmark.t)
    (msg : string) :
  recognize s (thumb_near l) <> Error msg.
Proof.
  revert msg. unfold recognize, thumb_near, and_then. not_Error.
Qed.

Lemma recognize_vocabulary (s : FingerStates) (near : Status bool) (g : string) :
  recognize s near = OkStatus g -> In g gesture_vocabulary.
Proof.
  destruct s as [[| |] [| |] [| |] [| |] [| |]], near as [[|]|msg|];
    simpl; intros H; try discriminate; injection H as <-; tauto.
Qed.

(** C3.  For thumb, index and middle finger OPEN and ring and little
    finger CLOSE the classifier answers "TREE", not "THREE"; the frame
    [three_fingers] is one where [Process] does so.  Every string
    [Process] outputs is in [gesture_vocabulary], which holds "TREE"
    and does not hold "THREE". *)
Theorem three_fingers_is_spelled_TREE :
  (forall near : Status bool,
      recognize (Build_FingerStates OPEN OPEN OPEN CLOSE CLOSE) near
      = OkStatus "TREE")
  /\ Process Examples.hand_rect Examples.three_fingers = OkStatus "TREE"
  /\ (forall rect landmarkList,
         match Process rect landmarkList with
         | OkStatus g => In g gesture_vocabulary
         | _ => True
         end)
  /\ ~ In "THREE" gesture_vocabulary.
Proof.
  split; [reflexivity|]. split; [vm_compute; reflexivity|]. split.
  - intros rect landmarkList.
    destruct (Process rect landmarkList) as [g|msg|] eqn:E; [|exact I|exact I].
    unfold Process in E. destruct (no_hand rect).
    + injection E as <-. simpl. tauto.
    + destruct (RET_CHECK_landmarks landmarkList); simpl in E; try discriminate.
      destruct (finger_states landmarkList) as [s| |]; simpl in E;
        try discriminate.
      apply (recognize_vocabulary _ _ _ E).
  - simpl. intros H.
    repeat (destruct H as [H|H]; [discriminate|]). exact H.
Qed.

End GestureProperties.

(** ** HandMouvementRecognitionCalculator: properties *)

Module MouvementProperties.
Import Float Spec HandMouvementRecognitionCalculator.
Local Open Scope string_scope.
Local Open Scope Z_scope.

Lemma range_forall (P : Z -> bool) (lo : Z) (len : nat) :
  forallb P (range lo len) = true ->
  forall n, lo <= n < lo + Z.of_nat len -> P n = true.
Proof.
  intros H n Hn. rewrite forallb_forall in H. apply H.
  unfold range. apply in_map_iff. exists (Z.to_nat (n - lo)). split.
  - lia.
  - apply in_seq. lia.
Qed.

(** On whole degrees from -180 to 180 the chain of [float] comparisons
    of [scrolling_label] picks the interval the angle lies in. *)
Lemma scrolling_label_degrees (n : Z) :
  -180 <= n <= 180 ->
  scrolling_label (int_to_float n) = scroll_of_degrees n.
Proof.
  intros Hn. apply String.eqb_eq.
  apply (range_forall
           (fun n => String.eqb (scrolling_label (int_to_float n))
                                (scroll_of_degrees n))
           (-180) 361); [vm_compute; reflexivity | lia].
Qed.

(** The same for [sliding_label], on previous angles from 80 to 100. *)
Lemma sliding_label_degrees (p n : Z) :
  80 <= p <= 100 -> -180 <= n <= 180 ->
  sliding_label (int_to_float p) n = slide_of_degrees p n.
Proof.
  intros Hp Hn. apply String.eqb_eq.
  apply (range_forall
           (fun n => String.eqb (sliding_label (int_to_float p) n)
                                (slide_of_degrees p n))
           (-180) 361); [|lia].
  apply (range_forall
           (fun p => forallb
                       (fun n => String.eqb (sliding_label (int_to_float p) n)
                                            (slide_of_degrees p n))
                       (range (-180) 361))
           80 21); [vm_compute; reflexivity | lia].
Qed.

(** What [Process] returns on a frame it processes to the end. *)
Lemma Process_frame_ok (atan2 : float -> float -> float) (c : Z) (this : t)
    (rect : NormalizedRect.t) (landmarkList : list NormalizedLandmark.t) :
  frame_ok c landmarkList ->
  Process atan2 c this rect landmarkList =
  (c + 1,
   OkStatus
     (Build_Outputs (fst (scrolling atan2 this rect))
                    (fst (zooming this rect))
                    (slide_of atan2 c this landmarkList),
      Build (NormalizedRect.x_center rect) (NormalizedRect.y_center rect)
            (angle_after atan2 c this landmarkList)
            (previous_rectangle_width this)
            (NormalizedRect.height rect))).
Proof.
  intros [Hne Hlen]. unfold Process.
  rewrite (GestureProperties.RET_CHECK_nonempty _ Hne). cbn [bind].
  unfold scrolling, zooming, sliding, slide_of, angle_after.
  cbn [fst snd previous_x_center previous_y_center previous_angle
       previous_rectangle_width previous_rectangle_height].
  destruct (Z.rem (c + 1) 2 =? 0) eqn:Hpar; [|reflexivity].
  apply Z.eqb_eq in Hpar. specialize (Hlen Hpar).
  destruct (GestureProperties.nth_error_below landmarkList 0) as [w Hw]; [lia|].
  destruct (GestureProperties.nth_error_below landmarkList 9) as [m Hm]; [lia|].
  rewrite (GestureProperties.landmark_nth _ _ _ Hw),
    (GestureProperties.landmark_nth _ _ _ Hm), Hw, Hm.
  reflexivity.
Qed.

(** [Process] returns [OkStatus] on the frames of [frame_ok] only. *)
Lemma Process_OkStatus_frame_ok (atan2 : float -> float -> float) (c : Z)
    (this : t) (rect : NormalizedRect.t)
    (landmarkList : list NormalizedLandmark.t) (r : Outputs * t) :
  snd (Process atan2 c this rect landmarkList) = OkStatus r ->
  frame_ok c landmarkList.
Proof.
  unfold Process, frame_ok. cbn [snd]. intros H.
  destruct landmarkList as [|w l]; [discriminate|].
  split; [discriminate|]. intros Hpar.
  rewrite GestureProperties.RET_CHECK_nonempty in H by discriminate.
  cbn [bind] in H. unfold scrolling, zooming, sliding in H.
  rewrite Hpar in H. cbn [Z.eqb bind] in H.
  unfold landmark in H.
  change (nth_error (w :: l) 0) with (Some w) in H. cbn [bind] in H.
  destruct (nth_error (w :: l) 9) eqn:E; cbn [bind] in H; [|discriminate].
  assert (9 < List.length (w :: l))%nat by (apply nth_error_Some; congruence).
  lia.
Qed.

Lemma Process_Error_iff (atan2 : float -> float -> float) (c : Z) (this : t)
    (rect : NormalizedRect.t) (landmarkList : list NormalizedLandmark.t) :
  (exists msg, snd (Process atan2 c this rect landmarkList) = Error msg)
  <-> landmarkList = [].
Proof.
  unfold Process. cbn [snd]. split.
  - intros [msg H]. destruct landmarkList as [|w l]; [reflexivity|].
    exfalso.
    rewrite GestureProperties.RET_CHECK_nonempty in H by discriminate.
    cbn [bind] in H. unfold scrolling, zooming, sliding in H.
    destruct (Z.rem (c + 1) 2 =? 0); [|discriminate].
    unfold landmark in H.
    change (nth_error (w :: l) 0) with (Some w) in H. cbn [bind] in H.
    destruct (nth_error (w :: l) 9); cbn [bind] in H; discriminate.
  - intros ->. eexists. reflexivity.
Qed.

Lemma zero_not_truthy (v : float) :
  SFeqb v (S754_zero false) = true -> truthy v = false.
Proof. unfold truthy. intros ->. reflexivity. Qed.

Lemma Process_commit_at_end_eq (atan2 : float -> float -> float) (c : Z)
    (this : t) (rect : NormalizedRect.t)
    (landmarkList : list NormalizedLandmark.t) :
  Process atan2 c this rect landmarkList
  = Process_commit_at_end atan2 c this rect landmarkList.
Proof.
  unfold Process, Process_commit_at_end. f_equal.
  generalize (RET_CHECK_landmarks landmarkList).
  intros [[]|msg|]; cbn [bind]; try reflexivity.
  unfold scrolling, zooming, sliding. cbn [fst snd previous_angle
    previous_x_center previous_y_center previous_rectangle_width
    previous_rectangle_height].
  destruct (Z.rem (c + 1) 2 =? 0); [|reflexivity].
  generalize (landmark landmarkList 0). intros [w|msg|]; try reflexivity.
  generalize (landmark landmarkList 9). intros [m|msg|]; reflexivity.
Qed.

(** C4, as the code has it.  [Process] of the gesture calculator returns
    an error status exactly when the presence gate lets the frame
    through and the landmark list is empty; [Process] of the mouvement
    calculator, which has no presence gate, exactly when the landmark
    list is empty. *)
Theorem failure_iff_empty_landmark_list (rect : NormalizedRect.t)
    (landmarkList : list NormalizedLandmark.t) :
  ((exists msg, HandGestureRecognitionCalculator.Process rect landmarkList
                = Error msg)
   <-> HandGestureRecognitionCalculator.no_hand rect = false
       /\ landmarkList = [])
  /\ (forall (atan2 : float -> float -> float) (c : Z) (this : t),
         (exists msg, snd (Process atan2 c this rect landmarkList) = Error msg)
         <-> landmarkList = []).
Proof.
  split; [|intros; apply Process_Error_iff].
  unfold HandGestureRecognitionCalculator.Process. split.
  - intros [msg H].
    destruct (HandGestureRecognitionCalculator.no_hand rect); [discriminate|].
    split; [reflexivity|].
    destruct landmarkList as [|w l]; [reflexivity|]. exfalso.
    simpl in H.
    destruct (HandGestureRecognitionCalculator.finger_states (w :: l))
      as [s|msg'|] eqn:E; simpl in H; try discriminate.
    + apply (GestureProperties.recognize_not_Error _ _ _ H).
    + apply (GestureProperties.finger_states_not_Error _ _ E).
  - intros [-> ->]. eexists. reflexivity.
Qed.

(** C4, counterexample.  A frame with 20 landmarks passes the presence
    gate and is processed without an error: the claimed equivalence
    fails on it. *)
Lemma twenty_landmarks_do_not_fail :
  ~ ((exists msg,
         HandGestureRecognitionCalculator.Process
           Examples.hand_rect Examples.twenty_landmarks = Error msg)
     <-> (List.length Examples.twenty_landmarks < skeleton_size)%nat
         /\ HandGestureRecognitionCalculator.no_hand Examples.hand_rect = false).
Proof.
  intros [_ H]. destruct H as [msg H].
  - split; [vm_compute; lia | vm_compute; reflexivity].
  - vm_compute in H. discriminate.
Qed.

(** C5, as the code has it.  A processed frame sets the previous center
    and the previous rectangle height to those of its rectangle and
    writes the previous angle only when the frame counter is even; the
    writes are interleaved with the three classifications, and the
    outputs and the members are those of a frame that writes them
    together at its end. *)
Theorem history_written_per_frame (atan2 : float -> float -> float) (c : Z)
    (this : t) (rect : NormalizedRect.t)
    (landmarkList : list NormalizedLandmark.t) :
  frame_ok c landmarkList ->
  exists out this',
    Process atan2 c this rect landmarkList = (c + 1, OkStatus (out, this'))
    /\ Process_commit_at_end atan2 c this rect landmarkList
       = (c + 1, OkStatus (out, this'))
    /\ previous_x_center this' = NormalizedRect.x_center rect
    /\ previous_y_center this' = NormalizedRect.y_center rect
    /\ previous_rectangle_height this' = NormalizedRect.height rect
    /\ (Z.rem (c + 1) 2 <> 0 -> previous_angle this' = previous_angle this)
    /\ (Z.rem (c + 1) 2 = 0 ->
        exists wrist mcp,
          nth_error landmarkList 0 = Some wrist
          /\ nth_error landmarkList 9 = Some mcp
          /\ previous_angle this' = int_to_float (wrist_angle atan2 wrist mcp)).
Proof.
  intros Hok. pose proof (Process_frame_ok atan2 c this rect _ Hok) as HP.
  eexists. eexists. split; [exact HP|].
  split; [rewrite <- Process_commit_at_end_eq; exact HP|].
  simpl. repeat (split; [reflexivity|]). unfold angle_after. split.
  - intros Hodd. apply Z.eqb_neq in Hodd. rewrite Hodd. reflexivity.
  - intros Heven. destruct Hok as [_ Hlen]. specialize (Hlen Heven).
    apply Z.eqb_eq in Heven. rewrite Heven.
    destruct (GestureProperties.nth_error_below landmarkList 0) as [w Hw]; [lia|].
    destruct (GestureProperties.nth_error_below landmarkList 9) as [m Hm]; [lia|].
    exists w, m. rewrite Hw, Hm. auto.
Qed.

Lemma history_written_per_frame_witness :
  exists out this',
    Process atan2_on_axes 1 Examples.history_small Examples.hand_rect
      Examples.upright = (1 + 1, OkStatus (out, this'))
    /\ Process_commit_at_end atan2_on_axes 1 Examples.history_small
         Examples.hand_rect Examples.upright = (1 + 1, OkStatus (out, this'))
    /\ previous_x_center this' = NormalizedRect.x_center Examples.hand_rect
    /\ previous_y_center this' = NormalizedRect.y_center Examples.hand_rect
    /\ previous_rectangle_height this' = NormalizedRect.height Examples.hand_rect
    /\ (Z.rem (1 + 1) 2 <> 0 ->
        previous_angle this' = previous_angle Examples.history_small)
    /\ (Z.rem (1 + 1) 2 = 0 ->
        exists wrist mcp,
          nth_error Examples.upright 0 = Some wrist
          /\ nth_error Examples.upright 9 = Some mcp
          /\ previous_angle this'
             = int_to_float (wrist_angle atan2_on_axes wrist mcp)).
Proof.
  apply (history_written_per_frame atan2_on_axes 1 Examples.history_small
           Examples.hand_rect Examples.upright).
  split; [discriminate | intros _; vm_compute; lia].
Defined.

(** C5, counterexample.  After the first frame of a session the previous
    center and height are set and the previous angle is not. *)
Lemma history_partly_set_is_reachable :
  ~ (forall s : Session,
        reachable atan2_on_axes s ->
        all_unset (calculator s) = true \/ all_set (calculator s) = true).
Proof.
  intros H.
  assert (R : reachable atan2_on_axes
                (Build_Session
                   (Build Examples.half Examples.half zero zero
                      (Examples.dec 1 5)) 1)).
  { apply (reachable_next atan2_on_axes new_session _
             (Examples.hand_rect, Examples.upright)).
    - apply reachable_new.
    - vm_compute. reflexivity. }
  destruct (H _ R) as [E|E]; vm_compute in E; discriminate.
Qed.

(** C6, as the code has it.  On the first frame of a session, whose
    history is that of [new_session], the three outputs are "___" and
    the previous center and height become those of the frame's
    rectangle.  The previous angle is written only when the frame counter
    is even on that frame; with the counter of [new_session] it is 1 and
    the previous angle stays unset. *)
Theorem first_frame_of_session (atan2 : float -> float -> float) (c : Z)
    (rect : NormalizedRect.t) (landmarkList : list NormalizedLandmark.t) :
  frame_ok c landmarkList ->
  exists out this',
    Process atan2 c (calculator new_session) rect landmarkList
    = (c + 1, OkStatus (out, this'))
    /\ recognized_hand_mouvement_scrolling out = "___"
    /\ recognized_hand_mouvement_zooming out = "___"
    /\ recognized_hand_mouvement_sliding out = "___"
    /\ previous_x_center this' = NormalizedRect.x_center rect
    /\ previous_y_center this' = NormalizedRect.y_center rect
    /\ previous_rectangle_height this' = NormalizedRect.height rect
    /\ (Z.rem (c + 1) 2 <> 0 -> is_set (previous_angle this') = false)
    /\ (c = frameCounter new_session -> is_set (previous_angle this') = false)
    /\ (Z.rem (c + 1) 2 = 0 ->
        exists wrist mcp,
          nth_error landmarkList 0 = Some wrist
          /\ nth_error landmarkList 9 = Some mcp
          /\ previous_angle this' = int_to_float (wrist_angle atan2 wrist mcp)).
Proof.
  intros Hok. eexists. eexists.
  split; [apply Process_frame_ok; assumption|].
  cbn [recognized_hand_mouvement_scrolling recognized_hand_mouvement_zooming
       recognized_hand_mouvement_sliding previous_x_center previous_y_center
       previous_rectangle_height previous_angle].
  assert (Hodd : Z.rem (c + 1) 2 <> 0 ->
                 is_set (angle_after atan2 c (calculator new_session)
                           landmarkList) = false).
  { intros H. apply Z.eqb_neq in H. unfold angle_after. rewrite H.
    reflexivity. }
  split; [reflexivity|]. split; [reflexivity|]. split.
  - unfold slide_of.
    destruct (Z.rem (c + 1) 2 =? 0); [|reflexivity].
    destruct (nth_error landmarkList 0); [|reflexivity].
    destruct (nth_error landmarkList 9); reflexivity.
  - repeat (split; [reflexivity|]). split; [exact Hodd|]. split.
    + intros ->. apply Hodd. discriminate.
    + intros Heven. destruct Hok as [_ Hlen]. specialize (Hlen Heven).
      apply Z.eqb_eq in Heven. unfold angle_after. rewrite Heven.
      destruct (GestureProperties.nth_error_below landmarkList 0) as [w Hw]; [lia|].
      destruct (GestureProperties.nth_error_below landmarkList 9) as [m Hm]; [lia|].
      exists w, m. rewrite Hw, Hm. auto.
Qed.

Lemma first_frame_of_session_witness :
  exists out this',
    Process atan2_on_axes (frameCounter new_session) (calculator new_session)
      Examples.hand_rect Examples.upright = (1, OkStatus (out, this'))
    /\ recognized_hand_mouvement_scrolling out = "___"
    /\ recognized_hand_mouvement_zooming out = "___"
    /\ recognized_hand_mouvement_sliding out = "___"
    /\ previous_x_center this' = NormalizedRect.x_center Examples.hand_rect
    /\ previous_y_center this' = NormalizedRect.y_center Examples.hand_rect
    /\ previous_rectangle_height this' = NormalizedRect.height Examples.hand_rect
    /\ is_set (previous_angle this') = false.
Proof.
  destruct (first_frame_of_session atan2_on_axes (frameCounter new_session)
              Examples.hand_rect Examples.upright)
    as (out & this' & HP & H1 & H2 & H3 & H4 & H5 & H6 & _ & H7 & _).
  - split; [discriminate | intros H; vm_compute in H; discriminate].
  - exists out, this'. repeat (split; [assumption|]). apply H7. reflexivity.
Defined.

(** C6, counterexample.  After the first frame of a session the history
    is not fully populated: the previous wrist angle is not set. *)
Lemma first_frame_leaves_angle_unset :
  ~ (forall out this',
        Process atan2_on_axes (frameCounter new_session)
          (calculator new_session) Examples.hand_rect Examples.upright
        = (1, OkStatus (out, this')) ->
        all_set this' = true).
Proof.
  intros H.
  specialize (H (Build_Outputs "___" "___" "___")
                (Build Examples.half Examples.half zero zero
                   (Examples.dec 1 5))).
  assert (E : all_set (Build Examples.half Examples.half zero zero
                         (Examples.dec 1 5)) = true)
    by (apply H; vm_compute; reflexivity).
  vm_compute in E. discriminate.
Qed.

Lemma not_negative_of_le_zero (h : float) :
  le zero h = true -> not_negative h = true.
Proof. destruct h as [s|[|]| |[|] m e]; simpl; auto. Qed.

(** C7.  With a previous center in the history (a previous x center the
    test of line 132 takes for true), a processed frame whose center
    lies further from it than 0.02 times the rectangle height outputs
    "Scrolling right" for an angle in [-45,45), "Scrolling up" for
    [45,135), "Scrolling left" for [135,180] or [-180,-135) and
    "Scrolling down" for [-135,-45), the angle being the one at the
    previous center between the ray to the current center and the
    horizontal ray, in whole degrees; a frame that does not lie further
    outputs "___"; both set the previous center to the current one.
    These strings are the code's text for the labels right, up, left,
    down and none of the specification. *)
Theorem scroll_classification (atan2 : float -> float -> float) (c : Z)
    (this : t) (rect : NormalizedRect.t)
    (landmarkList : list NormalizedLandmark.t) :
  frame_ok c landmarkList ->
  truthy (previous_x_center this) = true ->
  exists out this',
    Process atan2 c this rect landmarkList = (c + 1, OkStatus (out, this'))
    /\ (gt (mouvementDistance this rect) (mouvementDistanceThreshold rect) = true ->
        let angle := scrolling_angle atan2 this rect in
        (-45 <= angle < 45 ->
         recognized_hand_mouvement_scrolling out = "Scrolling right")
        /\ (45 <= angle < 135 ->
            recognized_hand_mouvement_scrolling out = "Scrolling up")
        /\ (135 <= angle <= 180 \/ -180 <= angle < -135 ->
            recognized_hand_mouvement_scrolling out = "Scrolling left")
        /\ (-135 <= angle < -45 ->
            recognized_hand_mouvement_scrolling out = "Scrolling down"))
    /\ (gt (mouvementDistance this rect) (mouvementDistanceThreshold rect) = false ->
        recognized_hand_mouvement_scrolling out = "___")
    /\ previous_x_center this' = NormalizedRect.x_center rect
    /\ previous_y_center this' = NormalizedRect.y_center rect.
Proof.
  intros Hok Hset. eexists. eexists.
  split; [apply Process_frame_ok; assumption|].
  cbn [recognized_hand_mouvement_scrolling previous_x_center previous_y_center].
  unfold scrolling. cbn [fst]. rewrite Hset.
  split; [|split; [intros ->; reflexivity | split; reflexivity]].
  intros ->. set (angle := scrolling_angle atan2 this rect).
  assert (Hdeg : -180 <= angle <= 180 ->
                 scrolling_label (int_to_float angle) = scroll_of_degrees angle)
    by apply scrolling_label_degrees.
  unfold scroll_of_degrees in Hdeg.
  repeat split; intros Hangle; rewrite Hdeg by lia.
  - replace (-45 <=? angle) with true by lia.
    replace (angle <? 45) with true by lia. reflexivity.
  - replace (-45 <=? angle) with true by lia.
    replace (angle <? 45) with false by lia.
    replace (45 <=? angle) with true by lia.
    replace (angle <? 135) with true by lia. reflexivity.
  - destruct Hangle as [Hangle|Hangle].
    + replace (angle <? 45) with false by lia.
      replace (angle <? 135) with false by lia.
      replace (135 <=? angle) with true by lia.
      replace (angle <=? 180) with true by lia.
      rewrite !andb_false_r. reflexivity.
    + replace (-45 <=? angle) with false by lia.
      replace (45 <=? angle) with false by lia.
      replace (135 <=? angle) with false by lia.
      replace (-180 <=? angle) with true by lia.
      replace (angle <? -135) with true by lia. reflexivity.
  - replace (-45 <=? angle) with false by lia.
    replace (45 <=? angle) with false by lia.
    replace (135 <=? angle) with false by lia.
    replace (angle <? -135) with false by lia.
    replace (-135 <=? angle) with true by lia.
    replace (angle <? -45) with true by lia.
    rewrite !andb_false_r. reflexivity.
Qed.

(** The witness is the boundary case of the specification: the
    rectangle height is 0.5 and the center has moved by 0.01 exactly,
    which is the threshold and not above it. *)
Lemma scroll_classification_witness :
  mouvementDistance Examples.history_small Examples.rect_moved_0_01 = flit 1 100
  /\ mouvementDistanceThreshold Examples.rect_moved_0_01 = flit 1 100
  /\ exists out this',
    Process atan2_on_axes 0 Examples.history_small Examples.rect_moved_0_01
      Examples.upright = (0 + 1, OkStatus (out, this'))
    /\ recognized_hand_mouvement_scrolling out = "___"
    /\ previous_x_center this' = NormalizedRect.x_center Examples.rect_moved_0_01
    /\ previous_y_center this' = NormalizedRect.y_center Examples.rect_moved_0_01.
Proof.
  split; [vm_compute; reflexivity|]. split; [vm_compute; reflexivity|].
  destruct (scroll_classification atan2_on_axes 0 Examples.history_small
              Examples.rect_moved_0_01 Examples.upright)
    as (out & this' & HP & _ & Hnone & Hx & Hy).
  - split; [discriminate | intros H; vm_compute in H; discriminate].
  - vm_compute. reflexivity.
  - exists out, this'. split; [exact HP|]. split; [|split; assumption].
    apply Hnone. vm_compute. reflexivity.
Defined.

Lemma heightDifferenceThreshold_not_negative (rect : NormalizedRect.t) :
  le zero (NormalizedRect.height rect) = true ->
  not_negative (heightDifferenceThreshold rect) = true.
Proof.
  intros H. unfold heightDifferenceThreshold, fmul.
  apply FloatFacts.SFmul_not_negative;
    [apply not_negative_of_le_zero; assumption | reflexivity].
Qed.

(** C8.  With a previous rectangle height in the history and the
    threshold 0.03 times the current height, a processed frame outputs
    "Zoom out" when the current height is below the previous height
    minus the threshold, "Zoom in" when it is above the previous height
    plus the threshold, "___" otherwise, and sets the previous height
    to the current one.  The two conditions exclude each other when
    the previous height is a binary32 value and the current height is
    not negative; the code tests the first one first.  "Zoom out",
    "Zoom in" and "___" are the code's text for the labels zoom out,
    zoom in and none of the specification. *)
Theorem zoom_classification (atan2 : float -> float -> float) (c : Z)
    (this : t) (rect : NormalizedRect.t)
    (landmarkList : list NormalizedLandmark.t) :
  frame_ok c landmarkList ->
  truthy (previous_rectangle_height this) = true ->
  exists out this',
    Process atan2 c this rect landmarkList = (c + 1, OkStatus (out, this'))
    /\ let height := NormalizedRect.height rect in
       let previous := previous_rectangle_height this in
       let threshold := heightDifferenceThreshold rect in
       threshold = fmul height (flit 3 100)
       /\ (lt height (fsub previous threshold) = true ->
           recognized_hand_mouvement_zooming out = "Zoom out")
       /\ (gt height (fadd previous threshold) = true ->
           lt height (fsub previous threshold) = false ->
           recognized_hand_mouvement_zooming out = "Zoom in")
       /\ (gt height (fadd previous threshold) = true ->
           valid previous = true -> le zero height = true ->
           recognized_hand_mouvement_zooming out = "Zoom in")
       /\ (lt height (fsub previous threshold) = false ->
           gt height (fadd previous threshold) = false ->
           recognized_hand_mouvement_zooming out = "___")
       /\ previous_rectangle_height this' = height.
Proof.
  intros Hok Hset. eexists. eexists.
  split; [apply Process_frame_ok; assumption|].
  cbn [recognized_hand_mouvement_zooming previous_rectangle_height].
  unfold zooming. cbn [fst]. rewrite Hset.
  split; [reflexivity|]. split; [intros ->; reflexivity|].
  split; [intros H1 H2; rewrite H2, H1; reflexivity|].
  split; [|split; [intros H1 H2; rewrite H1, H2; reflexivity | reflexivity]].
  intros Hin Hvalid Hpos.
  destruct (lt (NormalizedRect.height rect)
               (fsub (previous_rectangle_height this)
                     (heightDifferenceThreshold rect))) eqn:Hout.
  - exfalso.
    apply (FloatFacts.SFsub_SFadd_exclusive 24 128 ltac:(lia)
             (previous_rectangle_height this) (NormalizedRect.height rect)
             (heightDifferenceThreshold rect));
      auto using heightDifferenceThreshold_not_negative.
  - rewrite Hin. reflexivity.
Qed.

Lemma zoom_classification_witness :
  exists out this',
    Process atan2_on_axes 1 Examples.history_upright
      Examples.rect_right_closer Examples.upright
    = (1 + 1, OkStatus (out, this'))
    /\ recognized_hand_mouvement_zooming out = "Zoom in"
    /\ previous_rectangle_height this'
       = NormalizedRect.height Examples.rect_right_closer.
Proof.
  destruct (zoom_classification atan2_on_axes 1 Examples.history_upright
              Examples.rect_right_closer Examples.upright)
    as (out & this' & HP & _ & _ & _ & Hin & _ & Hh).
  - split; [discriminate | intros _; vm_compute; lia].
  - vm_compute. reflexivity.
  - exists out, this'. split; [exact HP|]. split; [|exact Hh].
    apply Hin; vm_compute; reflexivity.
Defined.

(** The three cases of [sliding_label] when a previous angle is set and
    lies in [80,100]. *)
Lemma sliding_label_cases (previous : float) (angle : Z) :
  truthy previous = true ->
  ge previous (int_to_float 80) = true ->
  le previous (int_to_float 100) = true ->
  (gt (int_to_float angle) (fadd previous (int_to_float 12)) = true ->
   sliding_label previous angle = "Slide left")
  /\ (gt (int_to_float angle) (fadd previous (int_to_float 12)) = false ->
      lt (int_to_float angle) (fsub previous (int_to_float 12)) = true ->
      sliding_label previous angle = "Slide right")
  /\ (gt (int_to_float angle) (fadd previous (int_to_float 12)) = false ->
      lt (int_to_float angle) (fsub previous (int_to_float 12)) = false ->
      sliding_label previous angle = "___").
Proof.
  intros Hset Hge Hle. unfold sliding_label. rewrite Hset, Hge, Hle. simpl.
  repeat split.
  - intros ->. reflexivity.
  - intros -> ->. reflexivity.
  - intros -> ->. reflexivity.
Qed.

Lemma sliding_label_gated (previous : float) (angle : Z) :
  truthy previous = false
  \/ ge previous (int_to_float 80) = false
  \/ le previous (int_to_float 100) = false ->
  sliding_label previous angle = "___".
Proof.
  unfold sliding_label. intros [-> | [-> | ->]]; try reflexivity.
  - destruct (truthy previous); reflexivity.
  - destruct (truthy previous); [|reflexivity].
    rewrite andb_false_r. reflexivity.
Qed.

(** C9.  Slide is evaluated on the frames whose counter, incremented
    once per call, is even.  On such a frame the wrist angle is
    computed and stored as the previous angle, and when a previous
    angle is set and lies in [80,100] the output is "Slide left" when
    the new angle exceeds the previous one by more than 12, "Slide
    right" when it is more than 12 below it, "___" otherwise; without a
    previous angle in [80,100], 50 for one, the output is "___".  On
    an odd frame the output is "___" and the previous angle is left as
    it was.  "Slide left", "Slide right" and "___" are the code's text
    for the labels slide left, slide right and none of the
    specification. *)
Theorem slide_classification (atan2 : float -> float -> float) (c : Z)
    (this : t) (rect : NormalizedRect.t)
    (landmarkList : list NormalizedLandmark.t) :
  frame_ok c landmarkList ->
  exists out this',
    Process atan2 c this rect landmarkList = (c + 1, OkStatus (out, this'))
    /\ (Z.rem (c + 1) 2 <> 0 ->
        recognized_hand_mouvement_sliding out = "___"
        /\ previous_angle this' = previous_angle this)
    /\ (Z.rem (c + 1) 2 = 0 ->
        exists wrist mcp,
          nth_error landmarkList 0 = Some wrist
          /\ nth_error landmarkList 9 = Some mcp
          /\ let angle := wrist_angle atan2 wrist mcp in
             let previous := previous_angle this in
             let twelve := int_to_float 12 in
             previous_angle this' = int_to_float angle
             /\ (truthy previous = true ->
                 ge previous (int_to_float 80) = true ->
                 le previous (int_to_float 100) = true ->
                 (gt (int_to_float angle) (fadd previous twelve) = true ->
                  recognized_hand_mouvement_sliding out = "Slide left")
                 /\ (gt (int_to_float angle) (fadd previous twelve) = false ->
                     lt (int_to_float angle) (fsub previous twelve) = true ->
                     recognized_hand_mouvement_sliding out = "Slide right")
                 /\ (gt (int_to_float angle) (fadd previous twelve) = false ->
                     lt (int_to_float angle) (fsub previous twelve) = false ->
                     recognized_hand_mouvement_sliding out = "___"))
             /\ (truthy previous = false
                 \/ ge previous (int_to_float 80) = false
                 \/ le previous (int_to_float 100) = false ->
                 recognized_hand_mouvement_sliding out = "___")
             /\ (forall p : Z,
                    previous = int_to_float p -> 80 <= p <= 100 ->
                    -180 <= angle <= 180 ->
                    (angle > p + 12 ->
                     recognized_hand_mouvement_sliding out = "Slide left")
                    /\ (angle < p - 12 ->
                        recognized_hand_mouvement_sliding out = "Slide right")
                    /\ (p - 12 <= angle <= p + 12 ->
                        recognized_hand_mouvement_sliding out = "___")))
    /\ (previous_angle this = int_to_float 50 ->
        recognized_hand_mouvement_sliding out = "___").
Proof.
  intros Hok. eexists. eexists.
  split; [apply Process_frame_ok; assumption|].
  cbn [recognized_hand_mouvement_sliding previous_angle].
  unfold slide_of, angle_after. split; [|split].
  - intros Hodd. apply Z.eqb_neq in Hodd. rewrite Hodd. auto.
  - intros Heven. destruct Hok as [_ Hlen]. specialize (Hlen Heven).
    apply Z.eqb_eq in Heven. rewrite Heven.
    destruct (GestureProperties.nth_error_below landmarkList 0) as [w Hw]; [lia|].
    destruct (GestureProperties.nth_error_below landmarkList 9) as [m Hm]; [lia|].
    exists w, m. rewrite Hw, Hm. repeat (split; [reflexivity|]).
    split; [apply sliding_label_cases|].
    split; [apply sliding_label_gated|].
    intros p Hp Hrange Hangle. rewrite Hp.
    rewrite (sliding_label_degrees p _ Hrange Hangle). unfold slide_of_degrees.
    replace (p =? 0) with false by lia.
    replace (80 <=? p) with true by lia.
    replace (p <=? 100) with true by lia. simpl.
    repeat split; intros Hcmp.
    + replace (wrist_angle atan2 w m >? p + 12) with true by lia. reflexivity.
    + replace (wrist_angle atan2 w m >? p + 12) with false by lia.
      replace (wrist_angle atan2 w m <? p - 12) with true by lia. reflexivity.
    + replace (wrist_angle atan2 w m >? p + 12) with false by lia.
      replace (wrist_angle atan2 w m <? p - 12) with false by lia. reflexivity.
  - intros H50. rewrite H50.
    destruct (Z.rem (c + 1) 2 =? 0); [|reflexivity].
    destruct (nth_error landmarkList 0); [|reflexivity].
    destruct (nth_error landmarkList 9); [|reflexivity].
    apply sliding_label_gated. right. left. vm_compute. reflexivity.
Qed.

Lemma slide_classification_witness :
  exists out this',
    Process atan2_on_axes 1 Examples.history_upright Examples.hand_rect
      Examples.pointing_left = (1 + 1, OkStatus (out, this'))
    /\ recognized_hand_mouvement_sliding out = "Slide left"
    /\ previous_angle this' = int_to_float 180.
Proof.
  destruct (slide_classification atan2_on_axes 1 Examples.history_upright
              Examples.hand_rect Examples.pointing_left)
    as (out & this' & HP & _ & Heven & _).
  - split; [discriminate | intros _; vm_compute; lia].
  - exists out, this'. split; [exact HP|].
    destruct (Heven eq_refl) as (wrist & mcp & Hw & Hm & Hprev & _ & _ & Hdeg).
    assert (E : wrist_angle atan2_on_axes wrist mcp = 180).
    { vm_compute in Hw, Hm. injection Hw as <-. injection Hm as <-.
      vm_compute. reflexivity. }
    rewrite E in Hprev, Hdeg. split; [|exact Hprev].
    destruct (Hdeg 90) as (Hleft & _ & _); [reflexivity | lia | lia |].
    apply Hleft. lia.
Defined.

(** C10.  A stored value equal to 0.0 reads as no history: on a
    processed frame the scroll output is "___" when the previous x
    center is 0.0, whatever the previous y center is, the zoom output
    is "___" when the previous rectangle height is 0.0, and the slide
    output is "___" when the previous angle is 0. *)
Theorem zero_reads_as_no_history (atan2 : float -> float -> float) (c : Z)
    (this : t) (rect : NormalizedRect.t)
    (landmarkList : list NormalizedLandmark.t) :
  frame_ok c landmarkList ->
  exists out this',
    Process atan2 c this rect landmarkList = (c + 1, OkStatus (out, this'))
    /\ (SFeqb (previous_x_center this) zero = true ->
        recognized_hand_mouvement_scrolling out = "___")
    /\ (SFeqb (previous_rectangle_height this) zero = true ->
        recognized_hand_mouvement_zooming out = "___")
    /\ (SFeqb (previous_angle this) zero = true ->
        recognized_hand_mouvement_sliding out = "___").
Proof.
  intros Hok. eexists. eexists.
  split; [apply Process_frame_ok; assumption|].
  cbn [recognized_hand_mouvement_scrolling recognized_hand_mouvement_zooming
       recognized_hand_mouvement_sliding].
  repeat split; intros Hz; apply zero_not_truthy in Hz.
  - unfold scrolling. cbn [fst]. rewrite Hz. reflexivity.
  - unfold zooming. cbn [fst]. rewrite Hz. reflexivity.
  - unfold slide_of.
    destruct (Z.rem (c + 1) 2 =? 0); [|reflexivity].
    destruct (nth_error landmarkList 0); [|reflexivity].
    destruct (nth_error landmarkList 9); [|reflexivity].
    apply sliding_label_gated. left. exact Hz.
Qed.

(** The witness is a session whose first frame has the hand at the left
    border of the frame, which stores the x center 0.0; on the second
    frame the hand is at x = 0.75 and no scroll is output. *)
Lemma zero_reads_as_no_history_witness :
  next atan2_on_axes new_session (Examples.rect_left_border, Examples.upright)
  = Some (Build_Session Examples.history_left_border 1)
  /\ exists out this',
    Process atan2_on_axes 1 Examples.history_left_border
      Examples.rect_right_closer Examples.upright
    = (1 + 1, OkStatus (out, this'))
    /\ recognized_hand_mouvement_scrolling out = "___".
Proof.
  split; [vm_compute; reflexivity|].
  destruct (zero_reads_as_no_history atan2_on_axes 1
              Examples.history_left_border Examples.rect_right_closer
              Examples.upright)
    as (out & this' & HP & Hscroll & _ & _).
  - split; [discriminate | intros _; vm_compute; lia].
  - exists out, this'. split; [exact HP|]. apply Hscroll. reflexivity.
Defined.

End MouvementProperties.


(** ** Runs of the two calculators on concrete frames *)

Module Runs.
Import Float Spec.
Local Open Scope string_scope.
Local Open Scope Z_scope.

Module G := HandGestureRecognitionCalculator.
Module M := HandMouvementRecognitionCalculator.

(** The constants of the source, as binary32 and binary64 numbers. *)
Example constants :
  flit 1 100 = S754_finite false 10737418 (-30)
  /\ flit 2 100 = S754_finite false 10737418 (-29)
  /\ flit 3 100 = S754_finite false 16106127 (-29)
  /\ dlit 1 100 = S754_finite false 5764607523034235 (-59)
  /\ dlit 1 10 = S754_finite false 7205759403792794 (-56)
  /\ int_to_float 12 = S754_finite false 12582912 (-20).
Proof. repeat split; vm_compute; reflexivity. Qed.

(** A closed fist in a rectangle of width and height 0.2: "FIST", and
    "___" three times from the mouvement calculator on the first frame
    of a session. *)
Example fist_on_first_frame :
  G.Process Examples.hand_rect Examples.fist = OkStatus "FIST"
  /\ fst (M.Process M.atan2_on_axes 0 (M.calculator M.new_session)
            Examples.hand_rect Examples.fist) = 1
  /\ exists this',
      snd (M.Process M.atan2_on_axes 0 (M.calculator M.new_session)
             Examples.hand_rect Examples.fist)
      = OkStatus (M.Build_Outputs "___" "___" "___", this').
Proof.
  split; [vm_compute; reflexivity|]. split; [reflexivity|].
  eexists. vm_compute. reflexivity.
Qed.

(** Thumb tip on index tip, index folded, three fingers extended. *)
Example ok_sign_is_OK :
  G.finger_states Examples.ok_sign
  = OkStatus (G.Build_FingerStates G.UNKNOW G.CLOSE G.OPEN G.OPEN G.OPEN)
  /\ G.Process Examples.hand_rect Examples.ok_sign = OkStatus "OK".
Proof. split; vm_compute; reflexivity. Qed.

(** An open hand, and the empty landmark list. *)
Example empty_list_fails :
  G.Process Examples.hand_rect []
  = Error "Input landmark vector is empty."
  /\ G.Process Examples.tiny_rect [] = OkStatus "___"
  /\ snd (M.Process M.atan2_on_axes 0 (M.calculator M.new_session)
            Examples.tiny_rect [])
     = Error "Input landmark vector is empty.".
Proof. repeat split; vm_compute; reflexivity. Qed.

(** A hand that moves right and closer, then up and away, then left with
    the wrist turning from 90 to 180 degrees, then down. *)
Example session :
  Examples.labels M.new_session
    [ (Examples.hand_rect, Examples.upright);
      (Examples.rect_right_closer, Examples.upright);
      (Examples.rect (Examples.dec 3 4) (Examples.dec 1 4)
         (Examples.dec 1 5) (Examples.dec 1 10), Examples.upright);
      (Examples.rect (Examples.dec 1 4) (Examples.dec 1 4)
         (Examples.dec 1 5) (Examples.dec 1 10), Examples.pointing_left);
      (Examples.rect (Examples.dec 1 4) (Examples.dec 3 4)
         (Examples.dec 1 5) (Examples.dec 1 10), Examples.pointing_left) ]
  = [ ("___", "___", "___");
      ("Scrolling right", "Zoom in", "___");
      ("Scrolling up", "Zoom out", "___");
      ("Scrolling left", "___", "Slide left");
      ("Scrolling down", "___", "___") ].
Proof. vm_compute. reflexivity. Qed.

(** From 90 degrees the wrist turns to 0 degrees: "Slide right".  From
    50 degrees, outside [80,100], nothing is output. *)
Example slide_right_and_gate :
  Examples.labels (M.Build_Session Examples.history_upright 1)
    [ (Examples.hand_rect, Examples.pointing_right) ]
  = [ ("___", "___", "Slide right") ]
  /\ Examples.labels (M.Build_Session Examples.history_50 1)
       [ (Examples.hand_rect, Examples.pointing_left) ]
     = [ ("___", "___", "___") ].
Proof. split; vm_compute; reflexivity. Qed.

End Runs.


(** ** Further properties of the two calculators *)

Module FloatSigns.
Import Float Notions.

Lemma SFabs_binary_round_aux (prec emax : Z) (s : bool) (m e : Z) (l : location) :
  SFabs (binary_round_aux prec emax s m e l) = binary_round_aux prec emax false m e l.
Proof.
  unfold binary_round_aux.
  destruct (shr_fexp prec emax m e l) as [mrs1 e1].
  destruct (shr_fexp prec emax _ e1 loc_Exact) as [mrs2 e2].
  destruct (shr_m mrs2); try reflexivity.
  destruct (e2 <=? emax - prec); reflexivity.
Qed.

Lemma SFabs_binary_round (prec emax : Z) (s : bool) (m : positive) (e : Z) :
  SFabs (binary_round prec emax s m e) = binary_round prec emax false m e.
Proof.
  unfold binary_round. destruct (shl_align m e _) as [mz ez].
  apply SFabs_binary_round_aux.
Qed.

Lemma SFabs_binary_normalize_opp (prec emax z e : Z) :
  SFabs (binary_normalize prec emax (- z) e false)
  = SFabs (binary_normalize prec emax z e false).
Proof.
  destruct z as [|p|p]; simpl; try reflexivity;
    rewrite !SFabs_binary_round; reflexivity.
Qed.

(** Swapping the operands of a subtraction changes the sign only. *)
Lemma SFabs_SFsub_swap (prec emax : Z) (a b : spec_float) :
  SFabs (SFsub prec emax a b) = SFabs (SFsub prec emax b a).
Proof.
  destruct a as [sa|sa| |sa ma ea], b as [sb|sb| |sb mb eb];
    try reflexivity; try (destruct sa, sb; reflexivity).
  unfold SFsub. rewrite (Z.min_comm eb ea).
  rewrite <- SFabs_binary_normalize_opp. f_equal. f_equal. lia.
Qed.

Lemma SFmul_SFabs (prec emax : Z) (x : spec_float) :
  SFmul prec emax (SFabs x) (SFabs x) = SFmul prec emax x x.
Proof. destruct x as [[|]|[|]| |[|] m e]; reflexivity. Qed.

Lemma SFabs_convert (prec emax : Z) (x : spec_float) :
  SFabs (convert prec emax x) = convert prec emax (SFabs x).
Proof.
  destruct x as [s|s| |s m e]; try reflexivity.
  simpl. apply SFabs_binary_round.
Qed.

(** The square of the promoted value depends on the magnitude only. *)
Lemma pow2_to_double_SFabs (x : float) :
  pow2 (to_double x) = pow2 (to_double (SFabs x)).
Proof.
  unfold pow2, dmul, to_double.
  rewrite <- (SFmul_SFabs 53 1024 (convert 53 1024 x)).
  rewrite SFabs_convert.
  rewrite <- (SFmul_SFabs 53 1024 (convert 53 1024 (SFabs x))).
  rewrite SFabs_convert. destruct x; reflexivity.
Qed.

Lemma pow2_fsub_swap (a b : float) :
  pow2 (to_double (fsub a b)) = pow2 (to_double (fsub b a)).
Proof.
  rewrite pow2_to_double_SFabs, (pow2_to_double_SFabs (fsub b a)).
  unfold fsub. rewrite (SFabs_SFsub_swap 24 128 a b). reflexivity.
Qed.

Lemma fsub_diag (x : float) : finite x = true -> fsub x x = S754_zero false.
Proof.
  destruct x as [[|]|s| |s m e]; try discriminate; try reflexivity.
  intros _. unfold fsub, SFsub. rewrite Z.sub_diag. reflexivity.
Qed.

Lemma pow2_signed (x : double) : signed false (pow2 x).
Proof.
  unfold pow2, dmul. destruct x as [[|]|[|]| |s m e]; simpl; auto.
  replace (xorb s s) with false by (destruct s; reflexivity).
  apply FloatFacts.binary_round_aux_signed.
Qed.

Lemma dadd_signed (p q : double) :
  signed false p -> signed false q -> signed false (dadd p q).
Proof.
  unfold dadd.
  destruct p as [sp|sp| |sp mp ep], q as [sq|sq| |sq mq eq];
    cbn [signed]; intros Hp Hq; subst; try exact I; try reflexivity.
  unfold SFadd. cbn [cond_Zopp].
  match goal with
  | |- context [Zpos ?a + Zpos ?b] => change (Zpos a + Zpos b) with (Zpos (a + b))
  end.
  cbn [binary_normalize]. apply FloatFacts.binary_round_signed.
Qed.

Lemma convert_signed (prec emax : Z) (s : bool) (x : spec_float) :
  signed s x -> signed s (convert prec emax x).
Proof.
  destruct x as [sx|sx| |sx m e]; cbn [signed convert]; auto.
  intros H; subst. apply FloatFacts.binary_round_signed.
Qed.

Lemma fsqrt_signed (d : float) : signed false d -> signed false (fsqrt d).
Proof.
  unfold fsqrt.
  destruct d as [[|]|[|]| |[|] m e]; cbn [signed]; intros H;
    try discriminate; try exact I; try reflexivity.
  unfold SFsqrt.
  destruct (SFsqrt_core_binary 24 128 (Z.pos m) e) as [[mz ez] lz].
  apply FloatFacts.binary_round_aux_signed.
Qed.


Lemma binary_round_aux_not_nan (prec emax : Z) (s : bool) (P : positive) (e : Z) :
  binary_round_aux prec emax s (Zpos P) e loc_Exact <> S754_nan.
Proof.
  destruct (FloatFacts.binary_round_aux_exact prec emax s P e)
    as (m_r & Hb & _ & ->).
  set (e1 := Z.max e (fexp prec emax (D P + e))) in *.
  set (e2 := Z.max e1 (fexp prec emax (Zdigits2 m_r + e1))).
  pose proof (FloatFacts.pow2_pos (e1 - e) ltac:(lia)) as H1.
  pose proof (FloatFacts.pow2_pos (e2 - e1) ltac:(lia)) as H2.
  assert (0 <= Zpos P / 2 ^ (e1 - e)) by (apply Z.div_pos; lia).
  assert (0 <= m_r / 2 ^ (e2 - e1)) by (apply Z.div_pos; lia).
  destruct (m_r / 2 ^ (e2 - e1)); try lia; try discriminate.
  destruct (e2 <=? emax - prec); discriminate.
Qed.

Lemma binary_normalize_not_nan (prec emax n e : Z) (s : bool) :
  binary_normalize prec emax n e s <> S754_nan.
Proof.
  destruct n as [|p|p]; simpl; try discriminate;
    unfold binary_round; destruct (shl_align p e _) as [mz ez];
    apply binary_round_aux_not_nan.
Qed.

(** The conversion of an [int] is never a NaN. *)
Lemma int_to_float_not_nan (n : Z) : is_nan (int_to_float n) = false.
Proof.
  pose proof (binary_normalize_not_nan 24 128 n 0 false) as H.
  unfold int_to_float. destruct (binary_normalize 24 128 n 0 false);
    try reflexivity. congruence.
Qed.

(** The order is total on numbers that are not NaN. *)
Lemma SFltb_false_SFleb (a c : spec_float) :
  is_nan a = false -> is_nan c = false ->
  SFltb a c = false -> SFleb c a = true.
Proof.
  destruct a as [[|]|[|]| |[|] ma ea], c as [[|]|[|]| |[|] mc ec];
    try (intros; discriminate); try (intros; reflexivity);
    intros _ _; FloatFacts.order_cases.
Qed.

Lemma SFltb_nan_l (a : spec_float) : SFltb S754_nan a = false.
Proof. reflexivity. Qed.

Lemma SFltb_zero_r_not_negative (t : spec_float) (s : bool) :
  not_negative t = true -> SFltb t (S754_zero s) = false.
Proof. destruct t as [st|[|]| |[|] m e]; try discriminate; reflexivity. Qed.

(** What is no smaller than a value is not below it. *)
Lemma SFleb_not_SFltb (a b : spec_float) :
  SFleb a b = true -> SFltb b a = false.
Proof.
  intros H. destruct (SFltb b a) eqn:E; [|reflexivity].
  pose proof (FloatFacts.SFltb_SFleb_trans _ _ _ E H) as Hbb.
  rewrite FloatFacts.SFltb_irrefl in Hbb. discriminate.
Qed.

End FloatSigns.

Module GestureBehaviour.
Import Float Spec Notions HandGestureRecognitionCalculator.
Local Open Scope string_scope.
Local Open Scope Z_scope.

Lemma finger_state_pivot_missing (l : list NormalizedLandmark.t)
    (coord : NormalizedLandmark.t -> float) (p m t : nat) :
  nth_error l p = None \/ nth_error l m = None ->
  finger_state l coord p m t = Undefined.
Proof.
  unfold finger_state, coord_at, and_then, landmark. intros [H|H].
  - rewrite H. reflexivity.
  - rewrite H. destruct (nth_error l p); reflexivity.
Qed.

Lemma finger_state_tip_missing (l : list NormalizedLandmark.t)
    (coord : NormalizedLandmark.t -> float) (p m t : nat) :
  nth_error l t = None ->
  finger_state l coord p m t = Undefined
  \/ finger_state l coord p m t = OkStatus UNKNOW.
Proof.
  unfold finger_state, coord_at, and_then, landmark. intros H. rewrite H.
  destruct (nth_error l p) as [lP|]; cbn [bind]; [|auto].
  destruct (nth_error l m) as [lM|]; cbn [bind]; [|auto].
  destruct (lt (fadd (coord lM) threshold) (coord lP)); cbn [bind]; [auto|].
  destruct (lt (fadd (coord lP) closeFingerThreshold) (coord lM));
    cbn [bind]; auto.
Qed.

Lemma finger_state_not_Error (l : list NormalizedLandmark.t)
    (coord : NormalizedLandmark.t -> float) (p m t : nat) (msg : string) :
  finger_state l coord p m t <> Error msg.
Proof.
  unfold finger_state, coord_at, and_then, landmark.
  destruct (nth_error l p) as [lP|]; cbn [bind]; [|discriminate].
  destruct (nth_error l m) as [lM|]; cbn [bind]; [|discriminate].
  destruct (nth_error l t) as [lT|]; cbn [bind];
    repeat match goal with
    | |- context [if ?b then _ else _] => destruct b; cbn [bind]
    end; discriminate.
Qed.

Lemma finger_state_in_range (l : list NormalizedLandmark.t)
    (coord : NormalizedLandmark.t -> float) (p m t : nat) :
  (p < List.length l)%nat -> (m < List.length l)%nat ->
  (t < List.length l)%nat ->
  exists st, finger_state l coord p m t = OkStatus st.
Proof.
  intros Hp Hm Ht.
  destruct (GestureProperties.nth_error_below l p Hp) as [lP HP].
  destruct (GestureProperties.nth_error_below l m Hm) as [lM HM].
  destruct (GestureProperties.nth_error_below l t Ht) as [lT HT].
  rewrite (GestureProperties.finger_state_value l coord p m t lP lM lT HP HM HT).
  eauto.
Qed.

Lemma recognize_near_known (s : FingerStates) (b : bool) :
  exists g, recognize s (OkStatus b) = OkStatus g.
Proof.
  destruct s as [[| |] [| |] [| |] [| |] [| |]], b; eexists; reflexivity.
Qed.

Lemma recognize_fourth_UNKNOW (th f1 f2 f3 : FingerState) (near : Status bool) :
  recognize (Build_FingerStates th f1 f2 f3 UNKNOW) near = OkStatus "___".
Proof.
  destruct th, f1, f2, f3; reflexivity.
Qed.

(** X1.  Past the gate of line 86, a list of at least 21 landmarks is
    processed to the end whatever its coordinates are, NaN and
    infinities included: no landmark that is read is missing,
    [Process] returns [OkStatus] and the string it outputs is one of
    the eleven of the vocabulary. *)
Theorem skeleton_is_enough (rect : NormalizedRect.t)
    (landmarkList : list NormalizedLandmark.t) :
  no_hand rect = false ->
  (skeleton_size <= List.length landmarkList)%nat ->
  exists g, Process rect landmarkList = OkStatus g /\ In g gesture_vocabulary.
Proof.
  intros Hgate Hlen. unfold skeleton_size in Hlen.
  destruct (finger_state_in_range landmarkList NormalizedLandmark.x 2 3 4)
    as [s0 E0]; try lia.
  destruct (finger_state_in_range landmarkList NormalizedLandmark.y 6 7 8)
    as [s1 E1]; try lia.
  destruct (finger_state_in_range landmarkList NormalizedLandmark.y 10 11 12)
    as [s2 E2]; try lia.
  destruct (finger_state_in_range landmarkList NormalizedLandmark.y 14 15 16)
    as [s3 E3]; try lia.
  destruct (finger_state_in_range landmarkList NormalizedLandmark.y 18 19 20)
    as [s4 E4]; try lia.
  destruct (GestureProperties.nth_error_below landmarkList 4) as [p4 H4]; [lia|].
  destruct (GestureProperties.nth_error_below landmarkList 8) as [p8 H8]; [lia|].
  destruct (recognize_near_known (Build_FingerStates s0 s1 s2 s3 s4)
              (isThumbNearFirstFinger p4 p8)) as [g Hg].
  assert (HP : Process rect landmarkList = OkStatus g).
  { unfold Process. rewrite Hgate, GestureProperties.RET_CHECK_nonempty.
    - cbn [bind]. unfold finger_states. rewrite E0, E1, E2, E3, E4. cbn [bind].
      unfold thumb_near.
      rewrite (GestureProperties.landmark_nth _ _ _ H4),
        (GestureProperties.landmark_nth _ _ _ H8). cbn [bind]. exact Hg.
    - intros ->. simpl in Hlen. lia. }
  exists g. split; [exact HP|].
  apply (GestureProperties.recognize_vocabulary _ _ _ Hg).
Qed.

Lemma skeleton_is_enough_witness :
  exists g, Process Examples.hand_rect Examples.fist = OkStatus g
            /\ In g gesture_vocabulary.
Proof.
  apply (skeleton_is_enough Examples.hand_rect Examples.fist).
  - vm_compute. reflexivity.
  - vm_compute. lia.
Defined.

Lemma bind_Undefined {A B : Type} (m : Status A) (k : A -> Status B) :
  (forall msg, m <> Error msg) -> (forall a, k a = Undefined) ->
  bind m k = Undefined.
Proof.
  intros Hm Hk. destruct m as [a|msg|]; cbn [bind]; auto.
  exfalso. apply (Hm msg). reflexivity.
Qed.

(** X2.  Past the gate, no gesture is recognized on a list of 1 to 20
    landmarks: the call either reads a landmark that is not in the list,
    which is undefined, or outputs "___".  With fewer than 20 landmarks
    it always reads a missing one, landmark 19 being read whatever the
    coordinates are. *)
Theorem short_list_outcome (rect : NormalizedRect.t)
    (landmarkList : list NormalizedLandmark.t) :
  no_hand rect = false -> landmarkList <> [] ->
  (List.length landmarkList < skeleton_size)%nat ->
  (Process rect landmarkList = Undefined
   \/ Process rect landmarkList = OkStatus "___")
  /\ ((List.length landmarkList < 20)%nat ->
      Process rect landmarkList = Undefined).
Proof.
  intros Hgate Hne Hlen. unfold skeleton_size in Hlen.
  unfold Process. rewrite Hgate, (GestureProperties.RET_CHECK_nonempty _ Hne).
  cbn [bind]. unfold finger_states.
  assert (Hshort : (List.length landmarkList < 20)%nat ->
    (thumb <- finger_state landmarkList NormalizedLandmark.x 2 3 4 ;;
     first <- finger_state landmarkList NormalizedLandmark.y 6 7 8 ;;
     second <- finger_state landmarkList NormalizedLandmark.y 10 11 12 ;;
     third <- finger_state landmarkList NormalizedLandmark.y 14 15 16 ;;
     fourth <- finger_state landmarkList NormalizedLandmark.y 18 19 20 ;;
     OkStatus (Build_FingerStates thumb first second third fourth))%status
    = Undefined).
  { intros H19.
    do 4 (apply bind_Undefined;
          [intros msg; apply finger_state_not_Error | intros ?]).
    rewrite finger_state_pivot_missing; [reflexivity|].
    right. apply nth_error_None. lia. }
  split.
  - destruct (Nat.lt_ge_cases (List.length landmarkList) 20) as [H19|H20].
    + left. rewrite (Hshort H19). reflexivity.
    + destruct (finger_state_in_range landmarkList NormalizedLandmark.x 2 3 4)
        as [s0 E0]; try lia.
      destruct (finger_state_in_range landmarkList NormalizedLandmark.y 6 7 8)
        as [s1 E1]; try lia.
      destruct (finger_state_in_range landmarkList NormalizedLandmark.y 10 11 12)
        as [s2 E2]; try lia.
      destruct (finger_state_in_range landmarkList NormalizedLandmark.y 14 15 16)
        as [s3 E3]; try lia.
      rewrite E0, E1, E2, E3. cbn [bind].
      destruct (finger_state_tip_missing landmarkList NormalizedLandmark.y 18 19 20)
        as [E4|E4]; [apply nth_error_None; lia | | ];
        rewrite E4; cbn [bind]; [left; reflexivity|].
      right. apply recognize_fourth_UNKNOW.
  - intros H19. rewrite (Hshort H19). reflexivity.
Qed.

Lemma short_list_outcome_witness :
  (Process Examples.hand_rect Examples.twenty_landmarks = Undefined
   \/ Process Examples.hand_rect Examples.twenty_landmarks = OkStatus "___")
  /\ ((List.length Examples.twenty_landmarks < 20)%nat ->
      Process Examples.hand_rect Examples.twenty_landmarks = Undefined).
Proof.
  apply (short_list_outcome Examples.hand_rect Examples.twenty_landmarks).
  - vm_compute. reflexivity.
  - discriminate.
  - vm_compute. lia.
Defined.


Lemma fadd_nan_l (t : float) : fadd S754_nan t = S754_nan.
Proof. reflexivity. Qed.

Lemma lt_nan_l (a : float) : lt S754_nan a = false.
Proof. reflexivity. Qed.

Lemma lt_nan_r (a : float) : lt a S754_nan = false.
Proof. apply FloatFacts.SFltb_nan_r. Qed.

Lemma is_nan_eq (x : spec_float) : is_nan x = true -> x = S754_nan.
Proof. destruct x; try discriminate; reflexivity. Qed.

Lemma nan_coordinate_is_UNKNOW (landmarkList : list NormalizedLandmark.t)
    (coord : NormalizedLandmark.t -> float) (p m t : nat)
    (lP lM lT : NormalizedLandmark.t) :
  nth_error landmarkList p = Some lP ->
  nth_error landmarkList m = Some lM ->
  nth_error landmarkList t = Some lT ->
  is_nan (coord lP) || is_nan (coord lM) || is_nan (coord lT) = true ->
  finger_state landmarkList coord p m t = OkStatus UNKNOW.
Proof.
  intros HP HM HT Hnan.
  rewrite (GestureProperties.finger_state_value _ _ _ _ _ _ _ _ HP HM HT).
  apply orb_prop in Hnan. destruct Hnan as [Hnan|Hnan];
    [apply orb_prop in Hnan; destruct Hnan as [Hnan|Hnan]|];
    apply is_nan_eq in Hnan; rewrite Hnan;
    rewrite ?fadd_nan_l, ?lt_nan_l, ?lt_nan_r, ?andb_false_r;
    reflexivity.
Qed.

Lemma fadd_threshold_lt (a b : float) :
  valid a = true -> lt (fadd a threshold) b = true -> lt a b = true.
Proof.
  intros Hv H.
  destruct (FloatFacts.SFadd_not_negative 24 128 ltac:(lia) a threshold Hv
              ltac:(reflexivity)) as [E|L].
  - unfold fadd in H. rewrite E in H. discriminate.
  - apply (FloatFacts.SFleb_SFltb_trans _ _ _ L H).
Qed.

(** X4.  The thresholds only narrow the order they test.  On binary32
    coordinates a finger found OPEN has its three landmarks in strictly
    decreasing order along the coordinate (tip below middle joint below
    base), and a finger found CLOSE has them in strictly increasing
    order: adding the threshold 0.01 never takes a rounded sum below the
    coordinate it is added to. *)
Theorem open_finger_is_monotone (landmarkList : list NormalizedLandmark.t)
    (coord : NormalizedLandmark.t -> float) (p m t : nat)
    (lP lM lT : NormalizedLandmark.t) :
  nth_error landmarkList p = Some lP ->
  nth_error landmarkList m = Some lM ->
  nth_error landmarkList t = Some lT ->
  valid (coord lP) = true -> valid (coord lM) = true ->
  valid (coord lT) = true ->
  (finger_state landmarkList coord p m t = OkStatus OPEN ->
   lt (coord lT) (coord lM) = true /\ lt (coord lM) (coord lP) = true)
  /\ (finger_state landmarkList coord p m t = OkStatus CLOSE ->
      lt (coord lP) (coord lM) = true /\ lt (coord lM) (coord lT) = true).
Proof.
  intros HP HM HT VP VM VT.
  rewrite (GestureProperties.finger_state_value _ _ _ _ _ _ _ _ HP HM HT).
  destruct (lt (fadd (coord lM) threshold) (coord lP)) eqn:A1;
    destruct (lt (fadd (coord lT) threshold) (coord lM)) eqn:A2;
    destruct (lt (fadd (coord lP) closeFingerThreshold) (coord lM)) eqn:B1;
    destruct (lt (fadd (coord lM) closeFingerThreshold) (coord lT)) eqn:B2;
    cbn [andb]; split; intros H; try discriminate;
    split; apply fadd_threshold_lt; assumption.
Qed.

Lemma open_finger_is_monotone_witness :
  (finger_state Examples.fist NormalizedLandmark.y 6 7 8 = OkStatus OPEN ->
   lt (Examples.dec 8 40) (Examples.dec 7 40) = true
   /\ lt (Examples.dec 7 40) (Examples.dec 6 40) = true)
  /\ (finger_state Examples.fist NormalizedLandmark.y 6 7 8 = OkStatus CLOSE ->
      lt (Examples.dec 6 40) (Examples.dec 7 40) = true
      /\ lt (Examples.dec 7 40) (Examples.dec 8 40) = true).
Proof.
  apply (open_finger_is_monotone Examples.fist NormalizedLandmark.y 6 7 8
           (Examples.lm (Examples.dec 6 40) (Examples.dec 6 40))
           (Examples.lm (Examples.dec 7 40) (Examples.dec 7 40))
           (Examples.lm (Examples.dec 8 40) (Examples.dec 8 40)));
    vm_compute; reflexivity.
Defined.

Lemma recognize_table (s t : FingerStates)
    (near : Status bool) (g : string) :
  In (t, g) gesture_table ->
  (recognize s near = OkStatus g <-> s = t).
Proof.
  intros Hin. simpl in Hin.
  repeat (destruct Hin as [Hin|Hin];
          [injection Hin as <- <-; split;
           [ destruct s as [[| |] [| |] [| |] [| |] [| |]],
               near as [[|]|msg|]; intros H; try reflexivity;
               exfalso; vm_compute in H; discriminate
           | intros ->; reflexivity ] | ]).
  contradiction.
Qed.

Lemma recognize_OK (s : FingerStates) (near : Status bool) :
  recognize s near = OkStatus "OK"
  <-> firstFingerState s = CLOSE /\ secondFingerState s = OPEN
      /\ thirdFingerState s = OPEN /\ fourthFingerState s = OPEN
      /\ near = OkStatus true.
Proof.
  split.
  - destruct s as [[| |] [| |] [| |] [| |] [| |]], near as [[|]|msg|];
      intros H; try (exfalso; vm_compute in H; discriminate);
      cbn; repeat split; reflexivity.
  - destruct s as [th f1 f2 f3 f4]. cbn. intros (-> & -> & -> & -> & ->).
    destruct th; reflexivity.
Qed.

Lemma recognize_UNKNOW (s : FingerStates) (near : Status bool) :
  firstFingerState s = UNKNOW \/ secondFingerState s = UNKNOW
  \/ thirdFingerState s = UNKNOW \/ fourthFingerState s = UNKNOW ->
  recognize s near = OkStatus "___".
Proof.
  destruct s as [th f1 f2 f3 f4]. cbn.
  intros [-> | [-> | [-> | ->]]];
    repeat match goal with
    | x : FingerState |- _ => destruct x
    end; reflexivity.
Qed.

Lemma finger_state_OkStatus_pivot (l : list NormalizedLandmark.t)
    (coord : NormalizedLandmark.t -> float) (p m t : nat) (st : FingerState) :
  finger_state l coord p m t = OkStatus st -> (m < List.length l)%nat.
Proof.
  intros H. destruct (nth_error l m) eqn:E.
  - apply nth_error_Some. congruence.
  - rewrite finger_state_pivot_missing in H by auto. discriminate.
Qed.

Lemma finger_states_inv (l : list NormalizedLandmark.t) (s : FingerStates) :
  finger_states l = OkStatus s ->
  finger_state l NormalizedLandmark.x 2 3 4 = OkStatus (thumbState s)
  /\ finger_state l NormalizedLandmark.y 6 7 8 = OkStatus (firstFingerState s)
  /\ finger_state l NormalizedLandmark.y 10 11 12
     = OkStatus (secondFingerState s)
  /\ finger_state l NormalizedLandmark.y 14 15 16
     = OkStatus (thirdFingerState s)
  /\ finger_state l NormalizedLandmark.y 18 19 20
     = OkStatus (fourthFingerState s).
Proof.
  unfold finger_states.
  destruct (finger_state l NormalizedLandmark.x 2 3 4) as [s0|?|];
    cbn [bind]; try discriminate.
  destruct (finger_state l NormalizedLandmark.y 6 7 8) as [s1|?|];
    cbn [bind]; try discriminate.
  destruct (finger_state l NormalizedLandmark.y 10 11 12) as [s2|?|];
    cbn [bind]; try discriminate.
  destruct (finger_state l NormalizedLandmark.y 14 15 16) as [s3|?|];
    cbn [bind]; try discriminate.
  destruct (finger_state l NormalizedLandmark.y 18 19 20) as [s4|?|];
    cbn [bind]; try discriminate.
  intros [= <-]. cbn. auto.
Qed.

(** Past the gate and with the five states computed, [Process] is the
    chain of tests on these states and on the distance between the tips
    of the thumb and of the first finger. *)
Lemma Process_recognize (rect : NormalizedRect.t)
    (l : list NormalizedLandmark.t) (s : FingerStates) :
  no_hand rect = false -> finger_states l = OkStatus s ->
  exists p4 p8,
    nth_error l 4 = Some p4 /\ nth_error l 8 = Some p8
    /\ Process rect l = recognize s (OkStatus (isThumbNearFirstFinger p4 p8)).
Proof.
  intros Hg Hs. destruct (finger_states_inv _ _ Hs) as (_ & _ & _ & _ & H4).
  apply finger_state_OkStatus_pivot in H4.
  destruct (GestureProperties.nth_error_below l 4) as [p4 E4]; [lia|].
  destruct (GestureProperties.nth_error_below l 8) as [p8 E8]; [lia|].
  exists p4, p8. split; [exact E4|]. split; [exact E8|].
  unfold Process. rewrite Hg, GestureProperties.RET_CHECK_nonempty.
  - cbn [bind]. rewrite Hs. cbn [bind]. unfold thumb_near.
    rewrite (GestureProperties.landmark_nth _ _ _ E4),
      (GestureProperties.landmark_nth _ _ _ E8). reflexivity.
  - intros ->. simpl in H4. lia.
Qed.

(** X5.  Each of the nine names of [gesture_table] stands for exactly
    one tuple of finger states: past the gate, when the five states are
    computed, [Process] outputs the name if and only if the states are
    the tuple of the table.  No tuple is shadowed by an earlier test of
    the chain of lines 161 to 196, and the test of line 197 for "OK"
    never yields one of the nine names. *)
Theorem gesture_name_identifies_states (rect : NormalizedRect.t)
    (landmarkList : list NormalizedLandmark.t) (s t : FingerStates)
    (g : string) :
  no_hand rect = false -> finger_states landmarkList = OkStatus s ->
  In (t, g) gesture_table ->
  (Process rect landmarkList = OkStatus g <-> s = t).
Proof.
  intros Hg Hs Hin.
  destruct (Process_recognize rect landmarkList s Hg Hs) as (p4 & p8 & _ & _ & ->).
  apply recognize_table. exact Hin.
Qed.

Lemma gesture_name_identifies_states_witness :
  Process Examples.hand_rect Examples.fist = OkStatus "FIST"
  <-> Build_FingerStates CLOSE CLOSE CLOSE CLOSE CLOSE
      = Build_FingerStates CLOSE CLOSE CLOSE CLOSE CLOSE.
Proof.
  apply (gesture_name_identifies_states Examples.hand_rect Examples.fist).
  - vm_compute. reflexivity.
  - vm_compute. reflexivity.
  - unfold gesture_table. simpl. do 8 right. left. reflexivity.
Defined.

(** X6.  Past the gate, when the five states are computed, [Process]
    outputs "OK" if and only if the first finger is CLOSE, the second,
    third and fourth are OPEN and the tip of the thumb is nearer than
    0.1 to the tip of the first finger.  The state of the thumb plays no
    part: none of the nine tests before line 197 holds on such a
    hand. *)
Theorem OK_whatever_the_thumb (rect : NormalizedRect.t)
    (landmarkList : list NormalizedLandmark.t) (s : FingerStates)
    (p4 p8 : NormalizedLandmark.t) :
  no_hand rect = false -> finger_states landmarkList = OkStatus s ->
  nth_error landmarkList 4 = Some p4 -> nth_error landmarkList 8 = Some p8 ->
  (Process rect landmarkList = OkStatus "OK"
   <-> firstFingerState s = CLOSE /\ secondFingerState s = OPEN
       /\ thirdFingerState s = OPEN /\ fourthFingerState s = OPEN
       /\ isThumbNearFirstFinger p4 p8 = true).
Proof.
  intros Hg Hs H4 H8.
  destruct (Process_recognize rect landmarkList s Hg Hs)
    as (q4 & q8 & E4 & E8 & ->).
  assert (q4 = p4) by congruence. assert (q8 = p8) by congruence. subst.
  rewrite recognize_OK. split.
  - intros (? & ? & ? & ? & [= ->]). auto.
  - intros (? & ? & ? & ? & ->). auto.
Qed.

Lemma OK_whatever_the_thumb_witness :
  Process Examples.hand_rect Examples.ok_sign = OkStatus "OK"
  <-> firstFingerState (Build_FingerStates UNKNOW CLOSE OPEN OPEN OPEN) = CLOSE
      /\ secondFingerState (Build_FingerStates UNKNOW CLOSE OPEN OPEN OPEN) = OPEN
      /\ thirdFingerState (Build_FingerStates UNKNOW CLOSE OPEN OPEN OPEN) = OPEN
      /\ fourthFingerState (Build_FingerStates UNKNOW CLOSE OPEN OPEN OPEN) = OPEN
      /\ isThumbNearFirstFinger (Examples.lm Examples.half Examples.half)
           (Examples.lm Examples.half Examples.half) = true.
Proof.
  apply (OK_whatever_the_thumb Examples.hand_rect Examples.ok_sign).
  - vm_compute. reflexivity.
  - vm_compute. reflexivity.
  - vm_compute. reflexivity.
  - vm_compute. reflexivity.
Defined.

(** X7.  Past the gate, when the five states are computed and one of
    the first to fourth finger is UNKNOW (neither extended nor folded
    by the thresholds), [Process] outputs "___", whatever the other
    fingers and the thumb do. *)
Theorem UNKNOW_finger_gives_sentinel (rect : NormalizedRect.t)
    (landmarkList : list NormalizedLandmark.t) (s : FingerStates) :
  no_hand rect = false -> finger_states landmarkList = OkStatus s ->
  firstFingerState s = UNKNOW \/ secondFingerState s = UNKNOW
  \/ thirdFingerState s = UNKNOW \/ fourthFingerState s = UNKNOW ->
  Process rect landmarkList = OkStatus "___".
Proof.
  intros Hg Hs HU.
  destruct (Process_recognize rect landmarkList s Hg Hs) as (p4 & p8 & _ & _ & ->).
  apply recognize_UNKNOW. exact HU.
Qed.

Lemma UNKNOW_finger_gives_sentinel_witness :
  Process Examples.hand_rect Inputs.flat = OkStatus "___".
Proof.
  apply (UNKNOW_finger_gives_sentinel Examples.hand_rect Inputs.flat
           (Build_FingerStates UNKNOW UNKNOW UNKNOW UNKNOW UNKNOW)).
  - vm_compute. reflexivity.
  - vm_compute. reflexivity.
  - left. reflexivity.
Defined.

Lemma finger_nan (l : list NormalizedLandmark.t)
    (coord : NormalizedLandmark.t -> float) (p m t i : nat)
    (q : NormalizedLandmark.t) :
  (p < List.length l)%nat -> (m < List.length l)%nat ->
  (t < List.length l)%nat -> i = p \/ i = m \/ i = t ->
  nth_error l i = Some q -> is_nan (coord q) = true ->
  finger_state l coord p m t = OkStatus UNKNOW.
Proof.
  intros Hp Hm Ht Hi Hq Hn.
  destruct (GestureProperties.nth_error_below l p Hp) as [lP HP].
  destruct (GestureProperties.nth_error_below l m Hm) as [lM HM].
  destruct (GestureProperties.nth_error_below l t Ht) as [lT HT].
  apply (nan_coordinate_is_UNKNOW l coord p m t lP lM lT HP HM HT).
  destruct Hi as [-> | [-> | ->]].
  - assert (lP = q) by congruence. subst. rewrite Hn. reflexivity.
  - assert (lM = q) by congruence. subst. rewrite Hn. apply orb_true_iff.
    left. apply orb_true_r.
  - assert (lT = q) by congruence. subst. rewrite Hn. apply orb_true_r.
Qed.

(** X3.  Past the gate and with a full skeleton, a NaN in the y
    coordinate of any of the twelve landmarks of the first to fourth
    finger makes [Process] output "___": every comparison with the NaN
    is false, the finger is neither OPEN nor CLOSE, and no gesture
    accepts it. *)
Theorem nan_in_a_finger_gives_sentinel (rect : NormalizedRect.t)
    (landmarkList : list NormalizedLandmark.t) (i : nat)
    (p : NormalizedLandmark.t) :
  no_hand rect = false ->
  (skeleton_size <= List.length landmarkList)%nat ->
  In i finger_landmarks -> nth_error landmarkList i = Some p ->
  is_nan (NormalizedLandmark.y p) = true ->
  Process rect landmarkList = OkStatus "___".
Proof.
  intros Hg Hlen Hin Hp Hn. unfold skeleton_size in Hlen.
  destruct (finger_state_in_range landmarkList NormalizedLandmark.x 2 3 4)
    as [s0 E0]; try lia.
  destruct (finger_state_in_range landmarkList NormalizedLandmark.y 6 7 8)
    as [s1 E1]; try lia.
  destruct (finger_state_in_range landmarkList NormalizedLandmark.y 10 11 12)
    as [s2 E2]; try lia.
  destruct (finger_state_in_range landmarkList NormalizedLandmark.y 14 15 16)
    as [s3 E3]; try lia.
  destruct (finger_state_in_range landmarkList NormalizedLandmark.y 18 19 20)
    as [s4 E4]; try lia.
  assert (Hs : finger_states landmarkList
               = OkStatus (Build_FingerStates s0 s1 s2 s3 s4)).
  { unfold finger_states. rewrite E0, E1, E2, E3, E4. reflexivity. }
  destruct (Process_recognize rect landmarkList _ Hg Hs) as (p4 & p8 & _ & _ & ->).
  apply recognize_UNKNOW. cbn [firstFingerState secondFingerState
    thirdFingerState fourthFingerState].
  unfold finger_landmarks in Hin. simpl in Hin.
  assert (Hcase : ((i = 6 \/ i = 7 \/ i = 8) \/ (i = 10 \/ i = 11 \/ i = 12)
                   \/ (i = 14 \/ i = 15 \/ i = 16)
                   \/ (i = 18 \/ i = 19 \/ i = 20))%nat) by lia.
  destruct Hcase as [H|[H|[H|H]]].
  - left.
    pose proof (finger_nan landmarkList NormalizedLandmark.y 6 7 8 i p
                  ltac:(lia) ltac:(lia) ltac:(lia) H Hp Hn) as U.
    congruence.
  - right; left.
    pose proof (finger_nan landmarkList NormalizedLandmark.y 10 11 12 i p
                  ltac:(lia) ltac:(lia) ltac:(lia) H Hp Hn) as U.
    congruence.
  - right; right; left.
    pose proof (finger_nan landmarkList NormalizedLandmark.y 14 15 16 i p
                  ltac:(lia) ltac:(lia) ltac:(lia) H Hp Hn) as U.
    congruence.
  - right; right; right.
    pose proof (finger_nan landmarkList NormalizedLandmark.y 18 19 20 i p
                  ltac:(lia) ltac:(lia) ltac:(lia) H Hp Hn) as U.
    congruence.
Qed.

Lemma nan_in_a_finger_gives_sentinel_witness :
  Process Examples.hand_rect Inputs.fist_with_nan = OkStatus "___".
Proof.
  apply (nan_in_a_finger_gives_sentinel Examples.hand_rect
           Inputs.fist_with_nan 12 (Examples.lm Examples.half S754_nan)).
  - vm_compute. reflexivity.
  - vm_compute. lia.
  - vm_compute. lia.
  - vm_compute. reflexivity.
  - reflexivity.
Defined.

Lemma coord_at_agree (l l' : list NormalizedLandmark.t)
    (coord : NormalizedLandmark.t -> float) (i : nat) :
  option_map coord (nth_error l i) = option_map coord (nth_error l' i) ->
  coord_at l coord i = coord_at l' coord i.
Proof.
  unfold coord_at, landmark.
  destruct (nth_error l i), (nth_error l' i); cbn [option_map bind];
    intros H; try discriminate; [|reflexivity].
  injection H as ->. reflexivity.
Qed.

Lemma finger_state_agree (l l' : list NormalizedLandmark.t)
    (coord : NormalizedLandmark.t -> float) (indices : list nat) (p m t : nat) :
  agree coord indices l l' -> In p indices -> In m indices -> In t indices ->
  finger_state l coord p m t = finger_state l' coord p m t.
Proof.
  intros H Hp Hm Ht. unfold finger_state.
  rewrite (coord_at_agree l l' coord p (H p Hp)),
    (coord_at_agree l l' coord m (H m Hm)),
    (coord_at_agree l l' coord t (H t Ht)).
  reflexivity.
Qed.

Lemma thumb_near_agree (l l' : list NormalizedLandmark.t) :
  agree NormalizedLandmark.x x_read l l' ->
  agree NormalizedLandmark.y y_read l l' ->
  thumb_near l = thumb_near l'.
Proof.
  intros Hx Hy. unfold thumb_near, landmark.
  pose proof (Hx 4%nat ltac:(simpl; tauto)) as X4.
  pose proof (Hx 8%nat ltac:(simpl; tauto)) as X8.
  pose proof (Hy 4%nat ltac:(simpl; tauto)) as Y4.
  pose proof (Hy 8%nat ltac:(simpl; tauto)) as Y8.
  destruct (nth_error l 4) as [[x4 y4]|], (nth_error l' 4) as [[x4' y4']|];
    cbn [option_map bind] in *; try discriminate; [|reflexivity].
  destruct (nth_error l 8) as [[x8 y8]|], (nth_error l' 8) as [[x8' y8']|];
    cbn [option_map bind] in *; try discriminate; [|reflexivity].
  cbn [NormalizedLandmark.x NormalizedLandmark.y] in *.
  congruence.
Qed.

(** X8.  [Process] reads the rectangle through the gate only, the x
    coordinate of landmarks 2, 3, 4 and 8 and the y coordinate of
    landmarks 4, 6, 7, 8, 10 to 12, 14 to 16 and 18 to 20.  Two calls
    whose rectangles are on the same side of the gate and whose lists
    have the same length and the same coordinates there give the same
    result: the wrist, the bases of the fingers, the y coordinates of
    the thumb joints and the position of the rectangle play no part. *)
Theorem unread_coordinates_do_not_matter (rect rect' : NormalizedRect.t)
    (landmarkList landmarkList' : list NormalizedLandmark.t) :
  no_hand rect = no_hand rect' ->
  List.length landmarkList = List.length landmarkList' ->
  agree NormalizedLandmark.x x_read landmarkList landmarkList' ->
  agree NormalizedLandmark.y y_read landmarkList landmarkList' ->
  Process rect landmarkList = Process rect' landmarkList'.
Proof.
  intros Hg Hlen Hx Hy. unfold Process. rewrite Hg.
  destruct (no_hand rect'); [reflexivity|].
  unfold RET_CHECK_landmarks. rewrite Hlen.
  destruct (0 <? Z.of_nat (List.length landmarkList'))%Z; [|reflexivity].
  cbn [bind]. unfold finger_states.
  rewrite (finger_state_agree _ _ _ _ 2 3 4 Hx)%nat by (simpl; tauto).
  rewrite (finger_state_agree _ _ _ _ 6 7 8 Hy)%nat by (simpl; tauto).
  rewrite (finger_state_agree _ _ _ _ 10 11 12 Hy)%nat by (simpl; tauto).
  rewrite (finger_state_agree _ _ _ _ 14 15 16 Hy)%nat by (simpl; tauto).
  rewrite (finger_state_agree _ _ _ _ 18 19 20 Hy)%nat by (simpl; tauto).
  rewrite (thumb_near_agree _ _ Hx Hy). reflexivity.
Qed.

Lemma unread_coordinates_do_not_matter_witness :
  Process Examples.hand_rect Examples.fist
  = Process Examples.rect_right_closer Inputs.fist_bases_moved.
Proof.
  apply (unread_coordinates_do_not_matter Examples.hand_rect
           Examples.rect_right_closer Examples.fist Inputs.fist_bases_moved).
  - vm_compute. reflexivity.
  - reflexivity.
  - intros i Hi. unfold x_read in Hi. simpl in Hi.
    repeat (destruct Hi as [<-|Hi]; [vm_compute; reflexivity|]).
    contradiction.
  - intros i Hi. unfold y_read in Hi. simpl in Hi.
    repeat (destruct Hi as [<-|Hi]; [vm_compute; reflexivity|]).
    contradiction.
Defined.

End GestureBehaviour.

Module DistanceBehaviour.
Import Float Spec Notions.
Local Open Scope Z_scope.

Module G := HandGestureRecognitionCalculator.
Module M := HandMouvementRecognitionCalculator.

(** X9.  [get_Euclidean_DistanceAB] is symmetric in its two points, in
    both calculators, which compute the same function; its result is
    never negative, a NaN apart; and [isThumbNearFirstFinger] is
    symmetric in its two landmarks.  The equalities hold bit for bit,
    for every [float], NaN and infinities included. *)
Theorem distance_symmetric_not_negative (a_x a_y b_x b_y : float) :
  G.get_Euclidean_DistanceAB a_x a_y b_x b_y
  = G.get_Euclidean_DistanceAB b_x b_y a_x a_y
  /\ M.get_Euclidean_DistanceAB a_x a_y b_x b_y
     = M.get_Euclidean_DistanceAB b_x b_y a_x a_y
  /\ M.get_Euclidean_DistanceAB a_x a_y b_x b_y
     = G.get_Euclidean_DistanceAB a_x a_y b_x b_y
  /\ signed false (G.get_Euclidean_DistanceAB a_x a_y b_x b_y)
  /\ (forall p q, G.isThumbNearFirstFinger p q = G.isThumbNearFirstFinger q p).
Proof.
  assert (Hsym : forall ax ay bx b_y',
             G.get_Euclidean_DistanceAB ax ay bx b_y'
             = G.get_Euclidean_DistanceAB bx b_y' ax ay).
  { intros. unfold G.get_Euclidean_DistanceAB.
    rewrite (FloatSigns.pow2_fsub_swap ax bx), (FloatSigns.pow2_fsub_swap ay b_y').
    reflexivity. }
  split; [apply Hsym|]. split; [apply Hsym|]. split; [reflexivity|]. split.
  - unfold G.get_Euclidean_DistanceAB.
    apply FloatSigns.fsqrt_signed. apply FloatSigns.convert_signed.
    apply FloatSigns.dadd_signed; apply FloatSigns.pow2_signed.
  - intros p q. unfold G.isThumbNearFirstFinger. rewrite Hsym. reflexivity.
Qed.

Lemma distance_diag (x y : float) :
  finite x = true -> finite y = true ->
  G.get_Euclidean_DistanceAB x y x y = S754_zero false.
Proof.
  intros Hx Hy. unfold G.get_Euclidean_DistanceAB.
  rewrite (FloatSigns.fsub_diag x Hx), (FloatSigns.fsub_diag y Hy). reflexivity.
Qed.

(** X10.  A landmark with finite coordinates is at distance +0 from
    itself and is near itself. *)
Theorem landmark_is_near_itself (p : NormalizedLandmark.t) :
  finite_landmark p = true ->
  G.get_Euclidean_DistanceAB
    (NormalizedLandmark.x p) (NormalizedLandmark.y p)
    (NormalizedLandmark.x p) (NormalizedLandmark.y p) = S754_zero false
  /\ G.isThumbNearFirstFinger p p = true.
Proof.
  intros H. apply andb_prop in H. destruct H as [Hx Hy].
  unfold G.isThumbNearFirstFinger. rewrite (distance_diag _ _ Hx Hy).
  split; vm_compute; reflexivity.
Qed.

Lemma landmark_is_near_itself_witness :
  G.get_Euclidean_DistanceAB Examples.half Examples.half
    Examples.half Examples.half = S754_zero false
  /\ G.isThumbNearFirstFinger (Examples.lm Examples.half Examples.half)
       (Examples.lm Examples.half Examples.half) = true.
Proof.
  apply (landmark_is_near_itself (Examples.lm Examples.half Examples.half)).
  vm_compute. reflexivity.
Defined.

Lemma fsub_nan (a b : float) :
  is_nan a || is_nan b = true -> fsub a b = S754_nan.
Proof.
  destruct a as [sa|sa| |sa ma ea], b as [sb|sb| |sb mb eb];
    try discriminate; reflexivity.
Qed.

Lemma dadd_nan (a b : double) :
  is_nan a || is_nan b = true -> dadd a b = S754_nan.
Proof.
  destruct a as [sa|sa| |sa ma ea], b as [sb|sb| |sb mb eb];
    try discriminate; reflexivity.
Qed.

(** X11.  When a coordinate of one of the two landmarks is a NaN, the
    distance is a NaN and [isThumbNearFirstFinger] is false: a thumb tip
    or index tip without a position never gives "OK". *)
Theorem nan_landmark_is_never_near (p q : NormalizedLandmark.t) :
  nan_landmark p || nan_landmark q = true ->
  G.get_Euclidean_DistanceAB
    (NormalizedLandmark.x p) (NormalizedLandmark.y p)
    (NormalizedLandmark.x q) (NormalizedLandmark.y q) = S754_nan
  /\ G.isThumbNearFirstFinger p q = false.
Proof.
  intros H.
  assert (E : G.get_Euclidean_DistanceAB
                (NormalizedLandmark.x p) (NormalizedLandmark.y p)
                (NormalizedLandmark.x q) (NormalizedLandmark.y q) = S754_nan).
  { unfold G.get_Euclidean_DistanceAB, nan_landmark in *.
    assert (Hc : is_nan (NormalizedLandmark.x p) || is_nan (NormalizedLandmark.x q) = true
                 \/ is_nan (NormalizedLandmark.y p) || is_nan (NormalizedLandmark.y q) = true).
    { destruct (is_nan (NormalizedLandmark.x p)), (is_nan (NormalizedLandmark.y p)),
        (is_nan (NormalizedLandmark.x q)), (is_nan (NormalizedLandmark.y q));
        simpl in *; auto; discriminate. }
    destruct Hc as [Hc|Hc]; rewrite (fsub_nan _ _ Hc).
    - reflexivity.
    - rewrite dadd_nan; [reflexivity|].
      change (pow2 (to_double S754_nan)) with S754_nan.
      apply orb_true_r. }
  split; [exact E|]. unfold G.isThumbNearFirstFinger. rewrite E. reflexivity.
Qed.

Lemma nan_landmark_is_never_near_witness :
  G.get_Euclidean_DistanceAB S754_nan Examples.half
    Examples.half Examples.half = S754_nan
  /\ G.isThumbNearFirstFinger (Examples.lm S754_nan Examples.half)
       (Examples.lm Examples.half Examples.half) = false.
Proof.
  apply (nan_landmark_is_never_near (Examples.lm S754_nan Examples.half)
           (Examples.lm Examples.half Examples.half)).
  vm_compute. reflexivity.
Defined.

End DistanceBehaviour.

Module MouvementBehaviour.
Import Float Spec Notions HandMouvementRecognitionCalculator.
Local Open Scope string_scope.
Local Open Scope Z_scope.

Lemma rem2_succ (n : Z) : Z.rem n 2 = 0 -> Z.rem (n + 1) 2 <> 0.
Proof.
  intros H H'.
  pose proof (Z.quot_rem' n 2) as E. pose proof (Z.quot_rem' (n + 1) 2) as E'.
  lia.
Qed.

Lemma rem2_even_ge_2 (n : Z) : 1 <= n -> Z.rem n 2 = 0 -> 2 <= n.
Proof.
  intros H1 H. destruct (Z.eq_dec n 1) as [->|]; [discriminate|lia].
Qed.

(** Every non-NaN angle gets one of the four directions. *)
Lemma scrolling_label_direction (angle : float) :
  is_nan angle = false -> In (scrolling_label angle) directions.
Proof.
  intros Hn. unfold scrolling_label, ge, lt.
  assert (T : forall n, SFltb angle (int_to_float n) = false ->
                        SFleb (int_to_float n) angle = true).
  { intros n. apply FloatSigns.SFltb_false_SFleb;
      [assumption | apply FloatSigns.int_to_float_not_nan]. }
  destruct (SFleb (int_to_float (-45)) angle) eqn:A1;
    destruct (SFltb angle (int_to_float 45)) eqn:A2; cbn [andb];
    try (simpl; tauto);
    destruct (SFleb (int_to_float 45) angle) eqn:B1;
    destruct (SFltb angle (int_to_float 135)) eqn:B2; cbn [andb];
    try (simpl; tauto);
    destruct (SFleb (int_to_float 135) angle) eqn:C1; cbn [orb];
    try (simpl; tauto);
    destruct (SFltb angle (int_to_float (-135))) eqn:C2;
    try (simpl; tauto);
    destruct (SFleb (int_to_float (-135)) angle) eqn:D1;
    destruct (SFltb angle (int_to_float (-45))) eqn:D2; cbn [andb];
    try (simpl; tauto); exfalso;
    repeat match goal with
    | H : SFltb angle (int_to_float _) = false |- _ => apply T in H
    end; congruence.
Qed.

(** X12.  The three outcomes of a call of [Process] of the mouvement
    calculator.  It returns [OkStatus] exactly on the frames of
    [frame_ok]; it is undefined, reading landmark 9 of a list that has
    none, exactly when the list is not empty, the incremented counter
    is even and the list has fewer than 10 landmarks; otherwise the list
    is empty and it returns the error.  In each case the counter has
    been incremented once. *)
Theorem Process_outcome (atan2 : float -> float -> float) (c : Z) (this : t)
    (rect : NormalizedRect.t) (landmarkList : list NormalizedLandmark.t) :
  ((exists r, snd (Process atan2 c this rect landmarkList) = OkStatus r)
   <-> frame_ok c landmarkList)
  /\ (snd (Process atan2 c this rect landmarkList) = Undefined
      <-> landmarkList <> [] /\ Z.rem (c + 1) 2 = 0
          /\ (List.length landmarkList < 10)%nat)
  /\ fst (Process atan2 c this rect landmarkList) = c + 1.
Proof.
  assert (Hok : (exists r, snd (Process atan2 c this rect landmarkList) = OkStatus r)
                <-> frame_ok c landmarkList).
  { split.
    - intros [r H]. apply (MouvementProperties.Process_OkStatus_frame_ok _ _ _ _ _ _ H).
    - intros H. rewrite (MouvementProperties.Process_frame_ok _ _ _ _ _ H).
      eexists. reflexivity. }
  split; [exact Hok|]. split; [|reflexivity].
  pose proof (MouvementProperties.Process_Error_iff atan2 c this rect landmarkList)
    as Herr.
  split.
  - intros HU. split; [|split].
    + intros ->. destruct Herr as [_ Herr]. destruct (Herr eq_refl) as [msg E].
      congruence.
    + destruct (Z.eq_dec (Z.rem (c + 1) 2) 0) as [E|E]; [exact E|]. exfalso.
      assert (Hf : frame_ok c landmarkList).
      { split; [|tauto]. intros ->. destruct Herr as [_ Herr].
        destruct (Herr eq_refl) as [msg E']. congruence. }
      apply Hok in Hf. destruct Hf as [r Hr]. congruence.
    + destruct (Nat.lt_ge_cases (List.length landmarkList) 10) as [H|H];
        [exact H|]. exfalso.
      assert (Hf : frame_ok c landmarkList).
      { split; [|auto]. intros ->. simpl in H. lia. }
      apply Hok in Hf. destruct Hf as [r Hr]. congruence.
  - intros (Hne & Heven & Hlen).
    destruct (snd (Process atan2 c this rect landmarkList)) as [r|msg|] eqn:E;
      [| |reflexivity]; exfalso.
    + assert (Hf : frame_ok c landmarkList) by (apply Hok; eauto).
      destruct Hf as [_ Hf]. specialize (Hf Heven). lia.
    + apply Hne. apply Herr. eauto.
Qed.

Lemma not_direction : ~ In "___" directions.
Proof. unfold directions. simpl. intuition discriminate. Qed.

(** X13.  On a processed frame the scroll output is one of the four
    directions exactly when a previous center is set and the center
    moved further than the threshold, and "___" otherwise.  The chain
    of lines 146 to 161 has no gap: whatever [atan2] returns, a NaN
    included, one of its four tests holds on the angle of line 144. *)
Theorem scroll_is_a_direction (atan2 : float -> float -> float) (c : Z)
    (this : t) (rect : NormalizedRect.t)
    (landmarkList : list NormalizedLandmark.t) :
  frame_ok c landmarkList ->
  exists out this',
    Process atan2 c this rect landmarkList = (c + 1, OkStatus (out, this'))
    /\ (In (recognized_hand_mouvement_scrolling out) directions
        <-> truthy (previous_x_center this) = true
            /\ gt (mouvementDistance this rect)
                  (mouvementDistanceThreshold rect) = true)
    /\ (~ In (recognized_hand_mouvement_scrolling out) directions ->
        recognized_hand_mouvement_scrolling out = "___").
Proof.
  intros Hok. eexists. eexists.
  split; [apply MouvementProperties.Process_frame_ok; assumption|].
  cbn [recognized_hand_mouvement_scrolling]. unfold scrolling. cbn [fst].
  pose proof not_direction as Hnd.
  destruct (truthy (previous_x_center this));
    [destruct (gt (mouvementDistance this rect)
                  (mouvementDistanceThreshold rect))|].
  - pose proof (scrolling_label_direction
                  (int_to_float (scrolling_angle atan2 this rect))
                  (FloatSigns.int_to_float_not_nan _)) as Hd.
    split; [tauto|]. intros H. contradiction.
  - split; [|reflexivity]. split; [contradiction|]. intros [_ H]. discriminate.
  - split; [|reflexivity]. split; [contradiction|]. intros [H _]. discriminate.
Qed.

Lemma scroll_is_a_direction_witness :
  exists out this',
    Process atan2_on_axes 0 Examples.history_upright
      Examples.rect_right_closer Examples.upright
    = (0 + 1, OkStatus (out, this'))
    /\ (In (recognized_hand_mouvement_scrolling out) directions
        <-> truthy (previous_x_center Examples.history_upright) = true
            /\ gt (mouvementDistance Examples.history_upright
                     Examples.rect_right_closer)
                  (mouvementDistanceThreshold Examples.rect_right_closer)
               = true)
    /\ (~ In (recognized_hand_mouvement_scrolling out) directions ->
        recognized_hand_mouvement_scrolling out = "___").
Proof.
  apply (scroll_is_a_direction atan2_on_axes 0 Examples.history_upright
           Examples.rect_right_closer Examples.upright).
  split; [discriminate | intros H; vm_compute in H; discriminate].
Defined.

Lemma zooming_label_cases (this : t) (rect : NormalizedRect.t) :
  (fst (zooming this rect) = "Zoom out" ->
   lt (NormalizedRect.height rect)
      (fsub (previous_rectangle_height this)
            (heightDifferenceThreshold rect)) = true)
  /\ (fst (zooming this rect) = "Zoom in" ->
      gt (NormalizedRect.height rect)
         (fadd (previous_rectangle_height this)
               (heightDifferenceThreshold rect)) = true).
Proof.
  unfold zooming. cbn [fst].
  destruct (truthy (previous_rectangle_height this));
    [|split; discriminate].
  destruct (lt (NormalizedRect.height rect) _);
    [split; [reflexivity|discriminate]|].
  destruct (gt (NormalizedRect.height rect) _); split;
    try discriminate; reflexivity.
Qed.

Lemma fadd_grows (p t h : float) :
  valid p = true -> not_negative t = true ->
  lt (fadd p t) h = true -> lt p h = true.
Proof.
  unfold valid, lt, fadd. intros Hp Ht H.
  destruct (FloatFacts.SFadd_not_negative 24 128 ltac:(lia) p t Hp Ht)
    as [E|L].
  - rewrite E in H. rewrite FloatSigns.SFltb_nan_l in H. discriminate.
  - exact (FloatFacts.SFleb_SFltb_trans _ _ _ L H).
Qed.

Lemma fsub_shrinks (p t h : float) :
  valid p = true -> not_negative t = true ->
  lt h (fsub p t) = true -> lt h p = true.
Proof.
  unfold valid, lt, fsub. intros Hp Ht H.
  destruct (FloatFacts.SFsub_not_negative 24 128 ltac:(lia) p t Hp Ht)
    as [E|L].
  - rewrite E in H. rewrite FloatFacts.SFltb_nan_r in H. discriminate.
  - exact (FloatFacts.SFltb_SFleb_trans _ _ _ H L).
Qed.

(** X14.  The zoom label agrees with the change of the height.  On a
    processed frame whose previous height is a binary32 value and whose
    height is not negative, "Zoom in" is output only when the height
    is above the previous one and "Zoom out" only when it is below
    it: the rounding of the threshold and of the sum and the difference
    of lines 175 and 179 never turns the order around. *)
Theorem zoom_follows_height (atan2 : float -> float -> float) (c : Z)
    (this : t) (rect : NormalizedRect.t)
    (landmarkList : list NormalizedLandmark.t) :
  frame_ok c landmarkList ->
  valid (previous_rectangle_height this) = true ->
  le zero (NormalizedRect.height rect) = true ->
  exists out this',
    Process atan2 c this rect landmarkList = (c + 1, OkStatus (out, this'))
    /\ (recognized_hand_mouvement_zooming out = "Zoom in" ->
        lt (previous_rectangle_height this) (NormalizedRect.height rect) = true)
    /\ (recognized_hand_mouvement_zooming out = "Zoom out" ->
        lt (NormalizedRect.height rect) (previous_rectangle_height this) = true).
Proof.
  intros Hok Hv Hh. eexists. eexists.
  split; [apply MouvementProperties.Process_frame_ok; assumption|].
  cbn [recognized_hand_mouvement_zooming].
  pose proof (MouvementProperties.heightDifferenceThreshold_not_negative rect Hh)
    as Ht.
  destruct (zooming_label_cases this rect) as [Hout Hin]. split.
  - intros H. apply (fadd_grows _ _ _ Hv Ht). apply Hin. exact H.
  - intros H. apply (fsub_shrinks _ _ _ Hv Ht). apply Hout. exact H.
Qed.

Lemma zoom_follows_height_witness :
  exists out this',
    Process atan2_on_axes 0 Examples.history_upright
      Examples.rect_right_closer Examples.upright
    = (0 + 1, OkStatus (out, this'))
    /\ (recognized_hand_mouvement_zooming out = "Zoom in" ->
        lt (previous_rectangle_height Examples.history_upright)
           (NormalizedRect.height Examples.rect_right_closer) = true)
    /\ (recognized_hand_mouvement_zooming out = "Zoom out" ->
        lt (NormalizedRect.height Examples.rect_right_closer)
           (previous_rectangle_height Examples.history_upright) = true).
Proof.
  apply (zoom_follows_height atan2_on_axes 0 Examples.history_upright
           Examples.rect_right_closer Examples.upright).
  - split; [discriminate | intros H; vm_compute in H; discriminate].
  - vm_compute. reflexivity.
  - vm_compute. reflexivity.
Defined.

Lemma sliding_label_inv (previous : float) (angle : Z) :
  (sliding_label previous angle = "Slide left" ->
   gt (int_to_float angle) (fadd previous (int_to_float 12)) = true)
  /\ (sliding_label previous angle = "Slide right" ->
      lt (int_to_float angle) (fsub previous (int_to_float 12)) = true)
  /\ (sliding_label previous angle <> "___" ->
      truthy previous = true
      /\ ge previous (int_to_float 80) = true
      /\ le previous (int_to_float 100) = true).
Proof.
  unfold sliding_label.
  destruct (truthy previous);
    [|repeat split; intros; try discriminate; congruence].
  destruct (ge previous (int_to_float 80)); cbn [andb];
    [|repeat split; intros; try discriminate; congruence].
  destruct (le previous (int_to_float 100)); cbn [andb];
    [|repeat split; intros; try discriminate; congruence].
  destruct (gt (int_to_float angle) _);
    [repeat split; intros; try discriminate; reflexivity|].
  destruct (lt (int_to_float angle) _);
    repeat split; intros; try discriminate; reflexivity.
Qed.

Lemma slide_of_inv (atan2 : float -> float -> float) (c : Z) (this : t)
    (landmarkList : list NormalizedLandmark.t) :
  slide_of atan2 c this landmarkList <> "___" ->
  Z.rem (c + 1) 2 = 0
  /\ exists angle,
       slide_of atan2 c this landmarkList
       = sliding_label (previous_angle this) angle
       /\ angle_after atan2 c this landmarkList = int_to_float angle.
Proof.
  unfold slide_of, angle_after.
  destruct (Z.rem (c + 1) 2 =? 0) eqn:E;
    [|intros H; contradiction H; reflexivity].
  apply Z.eqb_eq in E.
  destruct (nth_error landmarkList 0) as [w|];
    [|intros H; contradiction H; reflexivity].
  destruct (nth_error landmarkList 9) as [m|];
    [|intros H; contradiction H; reflexivity].
  intros _. split; [exact E|]. eexists. split; reflexivity.
Qed.

(** X15.  The slide label agrees with the change of the wrist angle.
    On a processed frame whose previous angle is a binary32 value,
    "Slide left" is output only when the angle the frame stores is
    above the previous one, and "Slide right" only when it is below
    it. *)
Theorem slide_follows_angle (atan2 : float -> float -> float) (c : Z)
    (this : t) (rect : NormalizedRect.t)
    (landmarkList : list NormalizedLandmark.t) :
  frame_ok c landmarkList ->
  valid (previous_angle this) = true ->
  exists out this',
    Process atan2 c this rect landmarkList = (c + 1, OkStatus (out, this'))
    /\ (recognized_hand_mouvement_sliding out = "Slide left" ->
        lt (previous_angle this) (previous_angle this') = true)
    /\ (recognized_hand_mouvement_sliding out = "Slide right" ->
        lt (previous_angle this') (previous_angle this) = true).
Proof.
  intros Hok Hv. eexists. eexists.
  split; [apply MouvementProperties.Process_frame_ok; assumption|].
  cbn [recognized_hand_mouvement_sliding previous_angle].
  split; intros H.
  - destruct (slide_of_inv atan2 c this landmarkList) as (_ & a & E1 & E2);
      [rewrite H; discriminate|].
    rewrite E2. rewrite E1 in H.
    apply (fadd_grows _ (int_to_float 12)); [assumption|reflexivity|].
    apply (sliding_label_inv (previous_angle this) a). exact H.
  - destruct (slide_of_inv atan2 c this landmarkList) as (_ & a & E1 & E2);
      [rewrite H; discriminate|].
    rewrite E2. rewrite E1 in H.
    apply (fsub_shrinks _ (int_to_float 12)); [assumption|reflexivity|].
    apply (sliding_label_inv (previous_angle this) a). exact H.
Qed.

Lemma slide_follows_angle_witness :
  exists out this',
    Process atan2_on_axes 1 Examples.history_upright Examples.hand_rect
      Examples.pointing_left = (1 + 1, OkStatus (out, this'))
    /\ (recognized_hand_mouvement_sliding out = "Slide left" ->
        lt (previous_angle Examples.history_upright) (previous_angle this')
        = true)
    /\ (recognized_hand_mouvement_sliding out = "Slide right" ->
        lt (previous_angle this') (previous_angle Examples.history_upright)
        = true).
Proof.
  apply (slide_follows_angle atan2_on_axes 1 Examples.history_upright
           Examples.hand_rect Examples.pointing_left).
  - split; [discriminate | intros _; vm_compute; lia].
  - vm_compute. reflexivity.
Defined.

(** X16.  Of two calls in a row that both return [OkStatus], one
    outputs "___" for the slide and leaves the previous angle as it
    was: the slide is evaluated on every other call, so a slide label
    is never output twice in a row and the angle it compares with is
    at least two calls old. *)
Theorem slide_never_twice_in_a_row (atan2 : float -> float -> float) (c : Z)
    (this : t) (rect rect' : NormalizedRect.t)
    (landmarkList landmarkList' : list NormalizedLandmark.t)
    (c1 c2 : Z) (out1 out2 : Outputs) (this1 this2 : t) :
  Process atan2 c this rect landmarkList = (c1, OkStatus (out1, this1)) ->
  Process atan2 c1 this1 rect' landmarkList' = (c2, OkStatus (out2, this2)) ->
  (recognized_hand_mouvement_sliding out1 = "___"
   /\ previous_angle this1 = previous_angle this)
  \/ (recognized_hand_mouvement_sliding out2 = "___"
      /\ previous_angle this2 = previous_angle this1).
Proof.
  intros H1 H2.
  assert (F1 : frame_ok c landmarkList).
  { apply (MouvementProperties.Process_OkStatus_frame_ok atan2 c this rect
             landmarkList (out1, this1)). rewrite H1. reflexivity. }
  assert (F2 : frame_ok c1 landmarkList').
  { apply (MouvementProperties.Process_OkStatus_frame_ok atan2 c1 this1 rect'
             landmarkList' (out2, this2)). rewrite H2. reflexivity. }
  rewrite (MouvementProperties.Process_frame_ok atan2 c this rect _ F1) in H1.
  rewrite (MouvementProperties.Process_frame_ok atan2 c1 this1 rect' _ F2) in H2.
  injection H1 as Ec1 Eo1 Et1. injection H2 as Ec2 Eo2 Et2.
  subst out1 out2. cbn [recognized_hand_mouvement_sliding].
  rewrite <- Et1 at 1. rewrite <- Et2 at 1. cbn [previous_angle].
  unfold slide_of, angle_after.
  destruct (Z.rem (c + 1) 2 =? 0) eqn:E; [|left; split; reflexivity].
  right. apply Z.eqb_eq in E. apply rem2_succ in E. rewrite <- Ec1.
  apply Z.eqb_neq in E. rewrite E. split; reflexivity.
Qed.

Lemma slide_never_twice_in_a_row_witness :
  (recognized_hand_mouvement_sliding (Build_Outputs "___" "___" "___") = "___"
   /\ previous_angle Examples.history_upright
      = previous_angle Examples.history_upright)
  \/ (recognized_hand_mouvement_sliding
        (Build_Outputs "___" "___" "Slide left") = "___"
      /\ previous_angle Inputs.history_turned_left
         = previous_angle Examples.history_upright).
Proof.
  apply (slide_never_twice_in_a_row atan2_on_axes 0 Examples.history_upright
           Examples.hand_rect Examples.hand_rect
           Examples.pointing_left Examples.pointing_left 1 2).
  - vm_compute. reflexivity.
  - vm_compute. reflexivity.
Defined.

Lemma mouvement_distance_diag (x y : float) :
  finite x = true -> finite y = true ->
  get_Euclidean_DistanceAB x y x y = S754_zero false.
Proof.
  intros Hx Hy. unfold get_Euclidean_DistanceAB.
  rewrite (FloatSigns.fsub_diag x Hx), (FloatSigns.fsub_diag y Hy). reflexivity.
Qed.

Lemma scrolling_still (atan2 : float -> float -> float) (this : t)
    (rect : NormalizedRect.t) :
  previous_x_center this = NormalizedRect.x_center rect ->
  previous_y_center this = NormalizedRect.y_center rect ->
  finite (NormalizedRect.x_center rect) = true ->
  finite (NormalizedRect.y_center rect) = true ->
  le zero (NormalizedRect.height rect) = true ->
  fst (scrolling atan2 this rect) = "___".
Proof.
  intros Ex Ey Hx Hy Hh. unfold scrolling. cbn [fst].
  destruct (truthy (previous_x_center this)); [|reflexivity].
  unfold mouvementDistance. rewrite Ex, Ey, (mouvement_distance_diag _ _ Hx Hy).
  unfold gt, mouvementDistanceThreshold, fmul.
  rewrite FloatSigns.SFltb_zero_r_not_negative; [reflexivity|].
  apply FloatFacts.SFmul_not_negative;
    [reflexivity | apply MouvementProperties.not_negative_of_le_zero; assumption].
Qed.

Lemma zooming_still (this : t) (rect : NormalizedRect.t) :
  previous_rectangle_height this = NormalizedRect.height rect ->
  valid (NormalizedRect.height rect) = true ->
  le zero (NormalizedRect.height rect) = true ->
  fst (zooming this rect) = "___".
Proof.
  intros E Hv Hh. unfold zooming. cbn [fst]. rewrite E.
  pose proof (MouvementProperties.heightDifferenceThreshold_not_negative rect Hh)
    as Ht.
  destruct (truthy (NormalizedRect.height rect)); [|reflexivity].
  unfold lt, gt, fsub, fadd.
  destruct (FloatFacts.SFsub_not_negative 24 128 ltac:(lia) _ _ Hv Ht) as [-> | L].
  - rewrite FloatFacts.SFltb_nan_r.
    destruct (FloatFacts.SFadd_not_negative 24 128 ltac:(lia) _ _ Hv Ht)
      as [-> | L'].
    + reflexivity.
    + rewrite (FloatSigns.SFleb_not_SFltb _ _ L'). reflexivity.
  - rewrite (FloatSigns.SFleb_not_SFltb _ _ L).
    destruct (FloatFacts.SFadd_not_negative 24 128 ltac:(lia) _ _ Hv Ht)
      as [-> | L'].
    + reflexivity.
    + rewrite (FloatSigns.SFleb_not_SFltb _ _ L'). reflexivity.
Qed.

(** X17.  A hand that does not move gives no scroll and no zoom.  When
    two processed frames in a row carry the same rectangle, with a
    finite center and a binary32 height that is not negative, the
    second one outputs "___" for the scroll and for the zoom, whatever
    the history before the first one was. *)
Theorem still_hand_is_silent (atan2 : float -> float -> float) (c : Z)
    (this : t) (rect : NormalizedRect.t)
    (landmarkList landmarkList' : list NormalizedLandmark.t) :
  frame_ok c landmarkList -> frame_ok (c + 1) landmarkList' ->
  finite (NormalizedRect.x_center rect) = true ->
  finite (NormalizedRect.y_center rect) = true ->
  valid (NormalizedRect.height rect) = true ->
  le zero (NormalizedRect.height rect) = true ->
  exists out this' out' this'',
    Process atan2 c this rect landmarkList = (c + 1, OkStatus (out, this'))
    /\ Process atan2 (c + 1) this' rect landmarkList'
       = (c + 1 + 1, OkStatus (out', this''))
    /\ recognized_hand_mouvement_scrolling out' = "___"
    /\ recognized_hand_mouvement_zooming out' = "___".
Proof.
  intros Hok Hok' Hx Hy Hv Hh. eexists. eexists. eexists. eexists.
  split; [apply MouvementProperties.Process_frame_ok; assumption|].
  split; [apply MouvementProperties.Process_frame_ok; assumption|].
  cbn [recognized_hand_mouvement_scrolling recognized_hand_mouvement_zooming].
  split.
  - apply scrolling_still; auto.
  - apply zooming_still; auto.
Qed.

Lemma still_hand_is_silent_witness :
  exists out this' out' this'',
    Process atan2_on_axes 0 Examples.history_small Examples.hand_rect
      Examples.upright = (0 + 1, OkStatus (out, this'))
    /\ Process atan2_on_axes (0 + 1) this' Examples.hand_rect Examples.upright
       = (0 + 1 + 1, OkStatus (out', this''))
    /\ recognized_hand_mouvement_scrolling out' = "___"
    /\ recognized_hand_mouvement_zooming out' = "___".
Proof.
  apply (still_hand_is_silent atan2_on_axes 0 Examples.history_small
           Examples.hand_rect Examples.upright Examples.upright).
  - split; [discriminate | intros H; vm_compute in H; discriminate].
  - split; [discriminate | intros _; vm_compute; lia].
  - vm_compute. reflexivity.
  - vm_compute. reflexivity.
  - vm_compute. reflexivity.
  - vm_compute. reflexivity.
Defined.

Lemma angle_after_not_nan (atan2 : float -> float -> float) (c : Z) (this : t)
    (landmarkList : list NormalizedLandmark.t) :
  is_nan (previous_angle this) = false ->
  is_nan (angle_after atan2 c this landmarkList) = false.
Proof.
  intros H. unfold angle_after.
  destruct (Z.rem (c + 1) 2 =? 0); [|exact H].
  destruct (nth_error landmarkList 0); [|exact H].
  destruct (nth_error landmarkList 9); [|exact H].
  apply FloatSigns.int_to_float_not_nan.
Qed.

Lemma angle_after_set (atan2 : float -> float -> float) (c : Z) (this : t)
    (landmarkList : list NormalizedLandmark.t) :
  0 <= c ->
  (truthy (previous_angle this) = true -> 2 <= c) ->
  truthy (angle_after atan2 c this landmarkList) = true -> 2 <= c + 1.
Proof.
  intros Hc H. unfold angle_after.
  destruct (Z.rem (c + 1) 2 =? 0) eqn:E; [|intros H'; specialize (H H'); lia].
  apply Z.eqb_eq in E. intros _. apply rem2_even_ge_2; [lia|exact E].
Qed.

(** One call: what [next] does to a session. *)
Lemma next_cases (atan2 : float -> float -> float) (s s' : Session) (f : Frame) :
  next atan2 s f = Some s' ->
  frameCounter s' = frameCounter s + 1
  /\ (calculator s' = calculator s
      \/ (frame_ok (frameCounter s) (snd f)
          /\ calculator s'
             = Build (NormalizedRect.x_center (fst f))
                     (NormalizedRect.y_center (fst f))
                     (angle_after atan2 (frameCounter s) (calculator s) (snd f))
                     (previous_rectangle_width (calculator s))
                     (NormalizedRect.height (fst f)))).
Proof.
  unfold next.
  destruct (Process atan2 (frameCounter s) (calculator s) (fst f) (snd f))
    as [c' [[o th]|msg|]] eqn:E; [| |discriminate].
  - assert (F : frame_ok (frameCounter s) (snd f)).
    { apply (MouvementProperties.Process_OkStatus_frame_ok atan2 _
               (calculator s) (fst f) _ (o, th)). rewrite E. reflexivity. }
    rewrite (MouvementProperties.Process_frame_ok atan2 _ (calculator s)
               (fst f) _ F) in E.
    injection E as Ec _ Et. intros [= <-]. cbn [frameCounter calculator].
    split; [auto|]. right. split; [exact F|]. auto.
  - unfold Process in E. injection E as Ec _. intros [= <-].
    cbn [frameCounter calculator]. auto.
Qed.

(** X18.  Over any sequence of calls none of which is undefined, the
    counter grows by one per call, the calls that return the error
    included, so a frame with an empty landmark list shifts the parity
    on which the slide is evaluated; the member
    [previous_rectangle_width] is never written; and the previous
    angle, once not a NaN, never becomes one, whatever [atan2]
    returns. *)
Theorem run_counts_every_call (atan2 : float -> float -> float)
    (frames : list Frame) (s s' : Session) :
  run atan2 s frames = Some s' ->
  frameCounter s' = frameCounter s + Z.of_nat (List.length frames)
  /\ previous_rectangle_width (calculator s')
     = previous_rectangle_width (calculator s)
  /\ (is_nan (previous_angle (calculator s)) = false ->
      is_nan (previous_angle (calculator s')) = false).
Proof.
  revert s. induction frames as [|f frames IH]; intros s H.
  - injection H as <-. cbn [List.length]. split; [lia|]. split; auto.
  - cbn [run] in H. destruct (next atan2 s f) as [s1|] eqn:E; [|discriminate].
    destruct (IH _ H) as (Hc & Hw & Hn).
    destruct (next_cases atan2 s s1 f E) as [Ec Et].
    cbn [List.length]. split; [lia|].
    destruct Et as [Et | [_ Et]]; rewrite Et in Hw, Hn.
    + split; assumption.
    + cbn [previous_rectangle_width previous_angle] in Hw, Hn.
      split; [exact Hw|]. intros H0. apply Hn.
      apply angle_after_not_nan. exact H0.
Qed.

Lemma run_counts_every_call_witness :
  frameCounter
    (Build_Session (Build Examples.half Examples.half zero zero
                      (Examples.dec 1 5)) 2)
  = frameCounter new_session
    + Z.of_nat (List.length [(Examples.hand_rect, Examples.upright);
                             (Examples.tiny_rect, [])])
  /\ previous_rectangle_width
       (calculator (Build_Session (Build Examples.half Examples.half zero zero
                                     (Examples.dec 1 5)) 2))
     = previous_rectangle_width (calculator new_session)
  /\ (is_nan (previous_angle (calculator new_session)) = false ->
      is_nan (previous_angle
                (calculator (Build_Session
                               (Build Examples.half Examples.half zero zero
                                  (Examples.dec 1 5)) 2))) = false).
Proof.
  apply (run_counts_every_call atan2_on_axes
           [(Examples.hand_rect, Examples.upright); (Examples.tiny_rect, [])]
           new_session).
  vm_compute. reflexivity.
Defined.

Lemma written_before_next (atan2 : float -> float -> float) (s s' : Session)
    (f : Frame) :
  written_before s -> next atan2 s f = Some s' -> written_before s'.
Proof.
  unfold written_before. intros (H0 & Hx & Hh & Ha) E.
  destruct (next_cases atan2 s s' f E) as [Ec Et]. rewrite Ec.
  destruct Et as [-> | [_ ->]].
  - repeat split; intros; try lia;
      match goal with
      | H : truthy _ = true |- _ =>
          first [specialize (Hx H) | specialize (Hh H) | specialize (Ha H)]; lia
      end.
  - cbn [previous_x_center previous_rectangle_height previous_angle].
    repeat split; intros; try lia.
    apply (angle_after_set atan2 _ (calculator s) (snd f)); assumption.
Qed.

Lemma written_before_run (atan2 : float -> float -> float)
    (frames : list Frame) (s s' : Session) :
  written_before s -> run atan2 s frames = Some s' -> written_before s'.
Proof.
  revert s. induction frames as [|f frames IH]; intros s Hs H.
  - injection H as <-. exact Hs.
  - cbn [run] in H. destruct (next atan2 s f) as [s1|] eqn:E; [|discriminate].
    apply (IH s1); [|exact H]. apply (written_before_next atan2 s s1 f Hs E).
Qed.

Lemma run_counter (atan2 : float -> float -> float)
    (frames : list Frame) (s s' : Session) :
  run atan2 s frames = Some s' ->
  frameCounter s' = frameCounter s + Z.of_nat (List.length frames).
Proof.
  revert s. induction frames as [|f frames IH]; intros s H.
  - injection H as <-. cbn [List.length]. lia.
  - cbn [run] in H. destruct (next atan2 s f) as [s1|] eqn:E; [|discriminate].
    rewrite (IH _ H). destruct (next_cases atan2 s s1 f E) as [-> _].
    cbn [List.length]. lia.
Qed.

Lemma written_before_new : written_before new_session.
Proof.
  unfold written_before, new_session. cbn [calculator frameCounter
    previous_x_center previous_rectangle_height previous_angle].
  split; [lia|]. repeat split; intros H; vm_compute in H; discriminate.
Qed.

(** X19.  In a session that starts from [new_session], a call outputs
    a scroll or a zoom label only when at least one call came before
    it, and a slide label only when at least three did, on a call whose
    counter is even: the fourth call is the first that can output a
    slide.  Calls that returned the error count. *)
Theorem no_slide_before_fourth_call (atan2 : float -> float -> float)
    (frames : list Frame) (s : Session) (rect : NormalizedRect.t)
    (landmarkList : list NormalizedLandmark.t) (c' : Z) (out : Outputs)
    (this' : t) :
  run atan2 new_session frames = Some s ->
  Process atan2 (frameCounter s) (calculator s) rect landmarkList
  = (c', OkStatus (out, this')) ->
  c' = Z.of_nat (List.length frames) + 1
  /\ (recognized_hand_mouvement_scrolling out <> "___" ->
      (1 <= List.length frames)%nat)
  /\ (recognized_hand_mouvement_zooming out <> "___" ->
      (1 <= List.length frames)%nat)
  /\ (recognized_hand_mouvement_sliding out <> "___" ->
      (3 <= List.length frames)%nat /\ Z.rem c' 2 = 0).
Proof.
  intros Hrun HP.
  pose proof (written_before_run atan2 frames _ _ written_before_new Hrun)
    as (H0 & Hx & Hh & Ha).
  pose proof (run_counter atan2 frames _ _ Hrun) as Hc.
  change (frameCounter new_session) with 0 in Hc.
  assert (F : frame_ok (frameCounter s) landmarkList).
  { apply (MouvementProperties.Process_OkStatus_frame_ok atan2 _
             (calculator s) rect _ (out, this')). rewrite HP. reflexivity. }
  rewrite (MouvementProperties.Process_frame_ok atan2 _ (calculator s) rect _ F)
    in HP.
  injection HP as Ec Eo Et. subst out.
  cbn [recognized_hand_mouvement_scrolling recognized_hand_mouvement_zooming
       recognized_hand_mouvement_sliding].
  split; [lia|]. split; [|split].
  - unfold scrolling. cbn [fst]. intros H.
    destruct (truthy (previous_x_center (calculator s)));
      [specialize (Hx eq_refl); lia | contradiction H; reflexivity].
  - unfold zooming. cbn [fst]. intros H.
    destruct (truthy (previous_rectangle_height (calculator s)));
      [specialize (Hh eq_refl); lia | contradiction H; reflexivity].
  - intros H.
    destruct (slide_of_inv atan2 _ (calculator s) landmarkList H)
      as (Heven & a & E1 & _).
    rewrite E1 in H.
    destruct (sliding_label_inv (previous_angle (calculator s)) a)
      as (_ & _ & Hset).
    destruct (Hset H) as (Hset' & _). specialize (Ha Hset').
    rewrite <- Ec. split; [|exact Heven].
    pose proof (Z.quot_rem' (frameCounter s + 1) 2) as Hq. lia.
Qed.

Lemma no_slide_before_fourth_call_witness :
  4 = Z.of_nat (List.length Inputs.three_frames) + 1
  /\ (recognized_hand_mouvement_scrolling
        (Build_Outputs "Scrolling left" "___" "Slide left") <> "___" ->
      (1 <= List.length Inputs.three_frames)%nat)
  /\ (recognized_hand_mouvement_zooming
        (Build_Outputs "Scrolling left" "___" "Slide left") <> "___" ->
      (1 <= List.length Inputs.three_frames)%nat)
  /\ (recognized_hand_mouvement_sliding
        (Build_Outputs "Scrolling left" "___" "Slide left") <> "___" ->
      (3 <= List.length Inputs.three_frames)%nat /\ Z.rem 4 2 = 0).
Proof.
  apply (no_slide_before_fourth_call atan2_on_axes Inputs.three_frames
           Inputs.after_three_frames Inputs.rect_left Examples.pointing_left
           4 (Build_Outputs "Scrolling left" "___" "Slide left")
           Inputs.after_four_frames).
  - vm_compute. reflexivity.
  - vm_compute. reflexivity.
Defined.

(** X20.  [Process] of the mouvement calculator reads the center and the
    height of the rectangle and landmarks 0 and 9 only.  Two calls on
    the same members and counter whose rectangles have the same center
    and height and whose lists have the same landmarks 0 and 9 (both
    having none, or one, included) give the same outputs, members and
    status: the width of the rectangle and the other landmarks play no
    part. *)
Theorem Process_reads_only (atan2 : float -> float -> float) (c : Z)
    (this : t) (rect rect' : NormalizedRect.t)
    (landmarkList landmarkList' : list NormalizedLandmark.t) :
  NormalizedRect.x_center rect = NormalizedRect.x_center rect' ->
  NormalizedRect.y_center rect = NormalizedRect.y_center rect' ->
  NormalizedRect.height rect = NormalizedRect.height rect' ->
  nth_error landmarkList 0 = nth_error landmarkList' 0 ->
  nth_error landmarkList 9 = nth_error landmarkList' 9 ->
  Process atan2 c this rect landmarkList
  = Process atan2 c this rect' landmarkList'.
Proof.
  intros Ex Ey Eh E0 E9.
  assert (Hr : RET_CHECK_landmarks landmarkList
               = RET_CHECK_landmarks landmarkList').
  { destruct landmarkList, landmarkList'; try discriminate; reflexivity. }
  unfold Process. rewrite Hr. f_equal.
  destruct (RET_CHECK_landmarks landmarkList') as [[]|msg|]; cbn [bind];
    try reflexivity.
  unfold scrolling, zooming, sliding, mouvementDistance,
    mouvementDistanceThreshold, scrolling_angle, heightDifferenceThreshold,
    landmark.
  rewrite Ex, Ey, Eh, E0, E9. reflexivity.
Qed.

Lemma Process_reads_only_witness :
  Process atan2_on_axes 1 Examples.history_upright Examples.hand_rect
    Examples.pointing_left
  = Process atan2_on_axes 1 Examples.history_upright Examples.tiny_rect
      (Examples.pointing_left ++ [Examples.lm Examples.half Examples.half]).
Proof.
  apply (Process_reads_only atan2_on_axes 1 Examples.history_upright
           Examples.hand_rect Examples.tiny_rect Examples.pointing_left
           (Examples.pointing_left ++ [Examples.lm Examples.half Examples.half]));
    vm_compute; reflexivity.
Defined.

End MouvementBehaviour.


(** ** The range of [radianToDegree] *)

Module FloatBounds.
Import Float Notions FloatFacts.

(** Inequalities between [m * 2^(e - z)] and [mb * 2^(eb - z)] do not
    depend on the exponent [z] they are written at. *)
Lemma rescale_down (a b ea eb z z' : Z) :
  z' <= z -> z <= ea -> z <= eb ->
  a * 2 ^ (ea - z) <= b * 2 ^ (eb - z) ->
  a * 2 ^ (ea - z') <= b * 2 ^ (eb - z').
Proof.
  intros Hz Ha Hb H.
  replace (ea - z') with ((ea - z) + (z - z')) by lia.
  replace (eb - z') with ((eb - z) + (z - z')) by lia.
  rewrite !pow2_split by lia.
  pose proof (pow2_pos (z - z') ltac:(lia)).
  rewrite !Z.mul_assoc. apply Z.mul_le_mono_nonneg_r; lia.
Qed.

Lemma rescale_up (a b ea eb z z' : Z) :
  z <= z' -> z' <= ea -> z' <= eb ->
  a * 2 ^ (ea - z) <= b * 2 ^ (eb - z) ->
  a * 2 ^ (ea - z') <= b * 2 ^ (eb - z').
Proof.
  intros Hz Ha Hb H.
  replace (ea - z) with ((ea - z') + (z' - z)) in H by lia.
  replace (eb - z) with ((eb - z') + (z' - z)) in H by lia.
  rewrite !pow2_split in H by lia.
  pose proof (pow2_pos (z' - z) ltac:(lia)).
  rewrite !Z.mul_assoc in H. apply Z.mul_le_mono_pos_r in H; lia.
Qed.

Lemma rescale (a b ea eb z z' : Z) :
  z <= ea -> z <= eb -> z' <= ea -> z' <= eb ->
  a * 2 ^ (ea - z) <= b * 2 ^ (eb - z) ->
  a * 2 ^ (ea - z') <= b * 2 ^ (eb - z').
Proof.
  intros H1 H2 H3 H4 H.
  destruct (Z.le_ge_cases z z').
  - apply (rescale_up a b ea eb z z'); assumption.
  - apply (rescale_down a b ea eb z z'); assumption || lia.
Qed.

(** A right shift halves the mantissa of a shift record. *)
Lemma shr_1_m (mrs : shr_record) :
  0 <= shr_m mrs -> shr_m (shr_1 mrs) = shr_m mrs / 2.
Proof.
  destruct mrs as [m r s]. cbn [shr_m]. intros Hm.
  destruct m as [|[p|p|]|p]; try lia; cbn [shr_1 shr_m].
  - reflexivity.
  - rewrite Pos2Z.inj_xI. apply Z.div_unique with 1; lia.
  - rewrite Pos2Z.inj_xO. apply Z.div_unique with 0; lia.
  - reflexivity.
Qed.

Lemma shr_m_iter (m0 : Z) (p : positive) (mrs : shr_record) :
  0 <= m0 -> shr_m mrs = m0 ->
  shr_m (iter_pos shr_1 p mrs) = m0 / 2 ^ Zpos p.
Proof.
  intros Hm H.
  change (Zpos p) with (0 + Zpos p).
  apply (iter_pos_invariant shr_1 (fun k x => shr_m x = m0 / 2 ^ k));
    [| lia | rewrite Z.div_1_r; exact H].
  intros k x Hk Hx. rewrite shr_1_m.
  - rewrite Hx, div_pow2_succ by lia. reflexivity.
  - rewrite Hx. apply Z.div_pos; [lia | apply pow2_pos; lia].
Qed.

Section Bounds.

Variables prec emax : Z.
Hypothesis prec_pos : 0 < prec.

Local Abbreviation fexp := (fexp prec emax).

(** The shift to the exponent the format asks for, whatever the
    location the mantissa comes with. *)
Lemma shr_fexp_m (m e : Z) (l : location) :
  0 <= m ->
  let e' := Z.max e (fexp (Zdigits2 m + e)) in
  snd (shr_fexp prec emax m e l) = e'
  /\ shr_m (fst (shr_fexp prec emax m e l)) = m / 2 ^ (e' - e).
Proof.
  intros Hm e'. unfold shr_fexp. subst e'.
  assert (H0 : shr_m (shr_record_of_loc m l) = m) by (destruct l as [|[| |]]; reflexivity).
  destruct (fexp (Zdigits2 m + e) - e) as [|p|p] eqn:Hn; cbn [shr fst snd].
  - replace (Z.max e (fexp (Zdigits2 m + e)) - e) with 0 by lia.
    rewrite Z.div_1_r. split; [lia | exact H0].
  - replace (Z.max e (fexp (Zdigits2 m + e))) with (e + Zpos p) by lia.
    replace (e + Zpos p - e) with (Zpos p) by lia.
    split; [reflexivity|]. apply shr_m_iter; assumption.
  - replace (Z.max e (fexp (Zdigits2 m + e)) - e) with 0 by lia.
    rewrite Z.div_1_r. split; [lia | exact H0].
Qed.

Lemma round_nearest_even_m (mrs : shr_record) :
  shr_m mrs <= round_nearest_even (shr_m mrs) (loc_of_shr_record mrs)
            <= shr_m mrs + 1.
Proof.
  destruct mrs as [m [|] [|]]; cbn [shr_m loc_of_shr_record round_nearest_even];
    try destruct (Z.even m); lia.
Qed.

(** The two stages of [binary_round_aux], for any location. *)
Lemma binary_round_aux_stages (s : bool) (m ez : Z) (l : location) :
  0 <= m ->
  let e1 := Z.max ez (fexp (Zdigits2 m + ez)) in
  exists m_r : Z,
    m / 2 ^ (e1 - ez) <= m_r <= m / 2 ^ (e1 - ez) + 1
    /\ (l = loc_Exact -> m mod 2 ^ (e1 - ez) = 0 -> m_r = m / 2 ^ (e1 - ez))
    /\ let e2 := Z.max e1 (fexp (Zdigits2 m_r + e1)) in
       binary_round_aux prec emax s m ez l =
       match m_r / 2 ^ (e2 - e1) with
       | Z0 => S754_zero s
       | Zpos m' => if e2 <=? emax - prec then S754_finite s m' e2
                    else S754_infinity s
       | Zneg _ => S754_nan
       end.
Proof.
  intros Hm e1. unfold binary_round_aux.
  destruct (shr_fexp_m m ez l Hm) as [He1 Hs1]. fold e1 in He1, Hs1.
  assert (Hex : l = loc_Exact -> m mod 2 ^ (e1 - ez) = 0 ->
                round_nearest_even (shr_m (fst (shr_fexp prec emax m ez l)))
                  (loc_of_shr_record (fst (shr_fexp prec emax m ez l)))
                = m / 2 ^ (e1 - ez)).
  { intros -> Hmod.
    destruct (shr_fexp_exact prec emax m ez Hm) as [_ Hsh]. fold e1 in Hsh.
    apply (round_nearest_even_shifted _ _ _ Hsh). exact Hmod. }
  destruct (shr_fexp prec emax m ez l) as [mrs1 e1'].
  cbn [fst snd] in He1, Hs1, Hex. subst e1'.
  pose proof (round_nearest_even_m mrs1) as Hb.
  set (m_r := round_nearest_even (shr_m mrs1) (loc_of_shr_record mrs1)) in *.
  rewrite Hs1 in Hb.
  exists m_r. split; [exact Hb|]. split; [exact Hex|].
  assert (Hmr : 0 <= m_r).
  { assert (0 <= m / 2 ^ (e1 - ez)); [|lia].
    apply Z.div_pos; [lia|]. apply pow2_pos. lia. }
  destruct (shr_fexp_m m_r e1 loc_Exact Hmr) as [He2 Hs2].
  destruct (shr_fexp prec emax m_r e1 loc_Exact) as [mrs2 e2'].
  cbn [fst snd] in He2, Hs2. subst e2'. rewrite Hs2. reflexivity.
Qed.

Lemma Zdigits2_le (m : Z) (K : positive) (k : Z) :
  0 <= m -> 0 <= k -> m <= Zpos K * 2 ^ k -> Zdigits2 m <= D K + k.
Proof.
  intros Hm Hk H. destruct m as [|p|p]; try lia.
  - change (Zdigits2 0) with 0. pose proof (D_pos K). lia.
  - apply D_le_mul_pow; assumption.
Qed.

(** Rounding does not cross a bound the format represents: a mantissa
    with its location whose value is at most [mb * 2^eb] is rounded to
    at most that. *)
Lemma binary_round_aux_bounded (s : bool) (m ez : Z) (l : location)
    (mb : positive) (eb : Z) :
  0 <= m -> fexp (D mb + eb) = eb -> eb <= emax - prec -> ez <= eb ->
  m + 1 <= Zpos mb * 2 ^ (eb - ez)
  \/ (l = loc_Exact /\ m <= Zpos mb * 2 ^ (eb - ez)) ->
  bounded s mb eb (binary_round_aux prec emax s m ez l).
Proof.
  intros Hm Hcan Hbnd Hez HP.
  assert (HP' : m <= Zpos mb * 2 ^ (eb - ez)) by lia.
  destruct (binary_round_aux_stages s m ez l Hm) as (m_r & Hb & Hex & ->).
  set (e1 := Z.max ez (fexp (Zdigits2 m + ez))) in *.
  assert (Hd : Zdigits2 m <= D mb + (eb - ez)) by (apply Zdigits2_le; lia).
  assert (He1 : e1 <= eb).
  { assert (fexp (Zdigits2 m + ez) <= eb); [|lia].
    rewrite <- Hcan. apply fexp_mono. lia. }
  pose proof (pow2_pos (e1 - ez) ltac:(lia)) as Hp1.
  pose proof (pow2_pos (eb - e1) ltac:(lia)) as Hp2.
  assert (Hsplit : 2 ^ (eb - ez) = 2 ^ (eb - e1) * 2 ^ (e1 - ez)).
  { rewrite <- pow2_split by lia. f_equal. lia. }
  assert (Hm1 : 0 <= m / 2 ^ (e1 - ez)) by (apply Z.div_pos; lia).
  assert (HK : m_r <= Zpos mb * 2 ^ (eb - e1)).
  { destruct HP as [Hlt | [Hl Hle]].
    - assert (m / 2 ^ (e1 - ez) < Zpos mb * 2 ^ (eb - e1)); [|lia].
      apply Z.div_lt_upper_bound; [lia|]. rewrite Hsplit in Hlt. lia.
    - destruct (Z.eq_dec (m mod 2 ^ (e1 - ez)) 0) as [Hz|Hnz].
      + rewrite (Hex Hl Hz). apply Z.div_le_upper_bound; [lia|].
        rewrite Hsplit in Hle. lia.
      + assert (m / 2 ^ (e1 - ez) < Zpos mb * 2 ^ (eb - e1)); [|lia].
        apply Z.div_lt_upper_bound; [lia|].
        assert (m <> Zpos mb * 2 ^ (eb - e1) * 2 ^ (e1 - ez)).
        { intros Heq. apply Hnz. rewrite Heq. apply Z.mod_mul. lia. }
        rewrite Hsplit in Hle. lia. }
  destruct m_r as [|q|q]; try lia.
  - cbn. exact I.
  - change (Zdigits2 (Zpos q)) with (D q).
    set (e2 := Z.max e1 (fexp (D q + e1))).
    assert (Hdq : D q <= D mb + (eb - e1)) by (apply D_le_mul_pow; lia).
    assert (He2 : e2 <= eb).
    { assert (fexp (D q + e1) <= eb); [|lia].
      rewrite <- Hcan. apply fexp_mono. lia. }
    pose proof (pow2_pos (e2 - e1) ltac:(lia)) as Hp3.
    pose proof (pow2_pos (eb - e2) ltac:(lia)) as Hp4.
    assert (Hm2 : 0 <= Zpos q / 2 ^ (e2 - e1)) by (apply Z.div_pos; lia).
    destruct (Zpos q / 2 ^ (e2 - e1)) as [|m'|m'] eqn:Hq; try lia.
    + exact I.
    + replace (e2 <=? emax - prec) with true by (symmetry; apply Z.leb_le; lia).
      cbn [bounded]. split; [reflexivity|]. split; [exact He2|].
      rewrite <- Hq. apply Z.div_le_upper_bound; [lia|].
      assert (Hsplit2 : 2 ^ (eb - e1) = 2 ^ (e2 - e1) * 2 ^ (eb - e2)).
      { rewrite <- pow2_split by lia. f_equal. lia. }
      rewrite Hsplit2 in HK. lia.
Qed.

Lemma shl_align_min (P : positive) (ez e0 : Z) :
  snd (shl_align P ez e0) = Z.min ez e0.
Proof.
  unfold shl_align. destruct (e0 - ez) as [|d|d] eqn:Hd; cbn [snd]; lia.
Qed.

(** The same for [binary_round], whose mantissa is exact. *)
Lemma binary_round_bounded (s : bool) (P : positive) (ez : Z)
    (mb : positive) (eb z : Z) :
  fexp (D mb + eb) = eb -> eb <= emax - prec -> z <= ez -> z <= eb ->
  Zpos P * 2 ^ (ez - z) <= Zpos mb * 2 ^ (eb - z) ->
  bounded s mb eb (binary_round prec emax s P ez).
Proof.
  intros Hcan Hbnd Hz1 Hz2 HP. unfold binary_round.
  change (Zpos (digits2_pos P)) with (D P).
  pose proof (shl_align_spec P ez (fexp (D P + ez))) as [H1 H2].
  pose proof (shl_align_min P ez (fexp (D P + ez))) as H3.
  destruct (shl_align P ez (fexp (D P + ez))) as [mz ez'].
  cbn [fst snd] in H1, H2, H3.
  assert (Hd : D P + ez <= D mb + eb).
  { pose proof (pow2_pos (ez - z) ltac:(lia)) as Hp.
    destruct (Zpos P * 2 ^ (ez - z)) as [|N|N] eqn:HN; try lia.
    pose proof (D_ge_mul_pow N P (ez - z) ltac:(lia) ltac:(lia)).
    pose proof (D_le_mul_pow N mb (eb - z) ltac:(lia) ltac:(lia)). lia. }
  assert (He : ez' <= eb).
  { assert (fexp (D P + ez) <= eb) by (rewrite <- Hcan; apply fexp_mono; lia).
    lia. }
  apply binary_round_aux_bounded; try assumption; try lia.
  right. split; [reflexivity|]. rewrite H2.
  apply (rescale (Zpos P) (Zpos mb) ez eb z ez'); lia || assumption.
Qed.

(** The product with a constant. *)
Lemma SFmul_bounded (x : spec_float) (sx sy : bool) (my : positive) (ey : Z)
    (mbx : positive) (ebx : Z) (mb : positive) (eb : Z) :
  bounded sx mbx ebx x ->
  fexp (D mb + eb) = eb -> eb <= emax - prec -> ebx + ey <= eb ->
  Zpos mbx * Zpos my <= Zpos mb * 2 ^ (eb - (ebx + ey)) ->
  bounded (xorb sx sy) mb eb (SFmul prec emax x (S754_finite sy my ey)).
Proof.
  intros Hx Hcan Hbnd He HK.
  destruct x as [s0|s0| |s0 mx ex]; cbn [bounded] in Hx; try contradiction.
  - exact I.
  - destruct Hx as (-> & Hex & Hmx). cbn [SFmul].
    apply binary_round_aux_bounded; try assumption; try lia.
    right. split; [reflexivity|]. rewrite Pos2Z.inj_mul.
    replace (eb - (ex + ey)) with ((eb - (ebx + ey)) + (ebx - ex)) by lia.
    rewrite pow2_split by lia.
    pose proof (pow2_pos (ebx - ex) ltac:(lia)) as Hp.
    transitivity (Zpos mbx * 2 ^ (ebx - ex) * Zpos my).
    + apply Z.mul_le_mono_nonneg_r; lia.
    + replace (Zpos mbx * 2 ^ (ebx - ex) * Zpos my)
        with (Zpos mbx * Zpos my * 2 ^ (ebx - ex)) by ring.
      rewrite Z.mul_assoc. apply Z.mul_le_mono_nonneg_r; lia.
Qed.

Lemma shift_cases (m s : Z) :
  0 <= s ->
  match s with
  | Zpos _ => Z.shiftl m s
  | Z0 => m
  | Zneg _ => 0
  end = m * 2 ^ s.
Proof.
  intros Hs. destruct s as [|p|p]; try lia.
  rewrite Z.shiftl_mul_pow2 by lia. reflexivity.
Qed.

Lemma new_location_0 (n : Z) : new_location n 0 = loc_Exact.
Proof.
  unfold new_location, new_location_even, new_location_odd.
  destruct (Z.even n); reflexivity.
Qed.

(** The quotient by a constant. *)
Lemma SFdiv_bounded (x : spec_float) (sx sy : bool) (my : positive) (ey : Z)
    (mbx : positive) (ebx : Z) (mb : positive) (eb : Z) :
  bounded sx mbx ebx x ->
  fexp (D mb + eb) = eb -> eb <= emax - prec ->
  fexp (D mbx + ebx - (D my + ey)) <= eb ->
  0 <= ebx - eb - ey ->
  Zpos mbx * 2 ^ (ebx - eb - ey) <= Zpos mb * Zpos my ->
  bounded (xorb sx sy) mb eb (SFdiv prec emax x (S754_finite sy my ey)).
Proof.
  intros Hx Hcan Hbnd Hf Hs HK.
  destruct x as [s0|s0| |s0 mx ex]; cbn [bounded] in Hx; try contradiction.
  - exact I.
  - destruct Hx as (-> & Hex & Hmx). cbn [SFdiv]. unfold SFdiv_core_binary.
    change (Zdigits2 (Zpos mx)) with (D mx).
    change (Zdigits2 (Zpos my)) with (D my).
    set (e' := Z.min (fexp (D mx + ex - (D my + ey))) (ex - ey)).
    assert (Hd : D mx + ex <= D mbx + ebx).
    { pose proof (D_le_mul_pow mx mbx (ebx - ex) ltac:(lia) Hmx). lia. }
    assert (He' : e' <= eb).
    { assert (fexp (D mx + ex - (D my + ey)) <= eb); [|lia].
      etransitivity; [apply fexp_mono|exact Hf]. lia. }
    set (sh := ex - ey - e'). assert (Hsh : 0 <= sh) by lia.
    rewrite (shift_cases (Zpos mx) sh Hsh). set (m' := Zpos mx * 2 ^ sh).
    assert (Hqr : Z.div_eucl m' (Zpos my) = (m' / Zpos my, m' mod Zpos my)).
    { unfold Z.div, Z.modulo. destruct (Z.div_eucl m' (Zpos my)); reflexivity. }
    rewrite Hqr.
    pose proof (pow2_pos sh Hsh) as Hpsh.
    pose proof (pow2_pos (eb - e') ltac:(lia)) as Hpe.
    pose proof (pow2_pos (ebx - ex) ltac:(lia)) as Hpx.
    set (K := Zpos mb * 2 ^ (eb - e')).
    assert (HmK : m' <= Zpos my * K).
    { unfold m', K.
      transitivity (Zpos mbx * 2 ^ (ebx - ex) * 2 ^ sh).
      - apply Z.mul_le_mono_nonneg_r; lia.
      - rewrite <- Z.mul_assoc, <- pow2_split by lia.
        replace (ebx - ex + sh) with ((ebx - eb - ey) + (eb - e'))
          by (unfold sh; lia).
        rewrite pow2_split by lia. rewrite Z.mul_assoc.
        replace (Zpos my * (Zpos mb * 2 ^ (eb - e')))
          with (Zpos mb * Zpos my * 2 ^ (eb - e')) by ring.
        apply Z.mul_le_mono_nonneg_r; lia. }
    assert (Hq0 : 0 <= m' / Zpos my) by (apply Z.div_pos; unfold m'; lia).
    apply binary_round_aux_bounded; try assumption.
    destruct (Z.eq_dec (m' mod Zpos my) 0) as [Hr|Hr].
    + right. rewrite Hr, new_location_0. split; [reflexivity|].
      apply Z.div_le_upper_bound; [lia|]. exact HmK.
    + left. assert (m' / Zpos my < K); [|fold K; lia].
      apply Z.div_lt_upper_bound; [lia|].
      assert (m' <> Zpos my * K); [|lia].
      intros Heq. apply Hr. rewrite Heq, Z.mul_comm. apply Z.mod_mul. lia.
Qed.

(** The sum of a number that is not negative and a positive constant. *)
Lemma SFadd_bounded_pos (x : spec_float) (my : positive) (ey : Z)
    (mbx : positive) (ebx : Z) (mb : positive) (eb : Z) :
  bounded false mbx ebx x ->
  fexp (D mb + eb) = eb -> eb <= emax - prec -> ey <= eb -> ebx <= eb ->
  Zpos mbx * 2 ^ (ebx - Z.min ebx ey) + Zpos my * 2 ^ (ey - Z.min ebx ey)
  <= Zpos mb * 2 ^ (eb - Z.min ebx ey) ->
  bounded false mb eb (SFadd prec emax x (S754_finite false my ey)).
Proof.
  intros Hx Hcan Hbnd Hey Hebx HK. set (z0 := Z.min ebx ey) in *.
  pose proof (pow2_pos (ebx - z0) ltac:(lia)) as Hp1.
  pose proof (pow2_pos (ey - z0) ltac:(lia)) as Hp2.
  destruct x as [s0|s0| |s0 mx ex]; cbn [bounded] in Hx; try contradiction.
  - cbn [SFadd bounded]. split; [reflexivity|]. split; [exact Hey|].
    assert (R : Zpos my * 2 ^ (ey - ey) <= Zpos mb * 2 ^ (eb - ey))
      by (apply (rescale (Zpos my) (Zpos mb) ey eb z0 ey); lia).
    rewrite Z.sub_diag in R. lia.
  - destruct Hx as (-> & Hex & Hmx). cbn [SFadd].
    set (ez := Z.min ex ey).
    rewrite (shl_align_le mx ex ez), (shl_align_le my ey ez) by lia.
    cbn [cond_Zopp].
    pose proof (pow2_pos (ex - ez) ltac:(lia)) as Hp3.
    pose proof (pow2_pos (ey - ez) ltac:(lia)) as Hp4.
    pose proof (pow2_pos (z0 - ez) ltac:(lia)) as Hp5.
    assert (Hx' : Zpos mx * 2 ^ (ex - ez) <= Zpos mbx * 2 ^ (ebx - ez)).
    { apply (rescale_down (Zpos mx) (Zpos mbx) ex ebx ex ez); try lia.
      rewrite Z.sub_diag. simpl (2 ^ 0). lia. }
    assert (HK' : Zpos mbx * 2 ^ (ebx - ez) + Zpos my * 2 ^ (ey - ez)
                  <= Zpos mb * 2 ^ (eb - ez)).
    { replace (ebx - ez) with ((ebx - z0) + (z0 - ez)) by lia.
      replace (ey - ez) with ((ey - z0) + (z0 - ez)) by lia.
      replace (eb - ez) with ((eb - z0) + (z0 - ez)) by lia.
      rewrite !pow2_split by lia. rewrite !Z.mul_assoc.
      rewrite <- Z.mul_add_distr_r. apply Z.mul_le_mono_nonneg_r; lia. }
    destruct (Zpos mx * 2 ^ (ex - ez) + Zpos my * 2 ^ (ey - ez))
      as [|N|N] eqn:HN; try lia.
    cbn [binary_normalize].
    apply (binary_round_bounded false N ez mb eb ez); try assumption; try lia.
    rewrite Z.sub_diag. simpl (2 ^ 0). lia.
Qed.

(** The sum of a number that is not positive and a positive constant:
    at most the constant, and no further below zero than the bound of the
    number less the constant. *)
Lemma SFadd_bounded_neg (x : spec_float) (my : positive) (ey : Z)
    (mbx : positive) (ebx : Z) (mb : positive) (eb : Z) :
  bounded true mbx ebx x ->
  fexp (D mb + eb) = eb -> eb <= emax - prec ->
  fexp (D my + ey) = ey -> ey <= emax - prec ->
  ey <= eb -> ebx <= eb ->
  Zpos mbx * 2 ^ (ebx - Z.min ebx ey)
  <= Zpos mb * 2 ^ (eb - Z.min ebx ey) + Zpos my * 2 ^ (ey - Z.min ebx ey) ->
  bounded false my ey (SFadd prec emax x (S754_finite false my ey))
  \/ bounded true mb eb (SFadd prec emax x (S754_finite false my ey)).
Proof.
  intros Hx Hcan Hbnd Hcany Hbndy Hey Hebx HK. set (z0 := Z.min ebx ey) in *.
  pose proof (pow2_pos (ebx - z0) ltac:(lia)) as Hp1.
  pose proof (pow2_pos (ey - z0) ltac:(lia)) as Hp2.
  destruct x as [s0|s0| |s0 mx ex]; cbn [bounded] in Hx; try contradiction.
  - left. cbn [SFadd bounded]. split; [reflexivity|]. split; [lia|].
    rewrite Z.sub_diag. simpl (2 ^ 0). lia.
  - destruct Hx as (-> & Hex & Hmx). cbn [SFadd].
    set (ez := Z.min ex ey).
    rewrite (shl_align_le mx ex ez), (shl_align_le my ey ez) by lia.
    cbn [cond_Zopp].
    pose proof (pow2_pos (ex - ez) ltac:(lia)) as Hp3.
    pose proof (pow2_pos (ey - ez) ltac:(lia)) as Hp4.
    pose proof (pow2_pos (z0 - ez) ltac:(lia)) as Hp5.
    assert (Hx' : Zpos mx * 2 ^ (ex - ez) <= Zpos mbx * 2 ^ (ebx - ez)).
    { apply (rescale_down (Zpos mx) (Zpos mbx) ex ebx ex ez); try lia.
      rewrite Z.sub_diag. simpl (2 ^ 0). lia. }
    assert (HK' : Zpos mbx * 2 ^ (ebx - ez)
                  <= Zpos mb * 2 ^ (eb - ez) + Zpos my * 2 ^ (ey - ez)).
    { replace (ebx - ez) with ((ebx - z0) + (z0 - ez)) by lia.
      replace (ey - ez) with ((ey - z0) + (z0 - ez)) by lia.
      replace (eb - ez) with ((eb - z0) + (z0 - ez)) by lia.
      rewrite !pow2_split by lia. rewrite !Z.mul_assoc.
      rewrite <- Z.mul_add_distr_r. apply Z.mul_le_mono_nonneg_r; lia. }
    destruct (- (Zpos mx * 2 ^ (ex - ez)) + Zpos my * 2 ^ (ey - ez))
      as [|N|N] eqn:HN; cbn [binary_normalize].
    + left. exact I.
    + left.
      apply (binary_round_bounded false N ez my ey ez); try assumption; try lia.
      rewrite Z.sub_diag. simpl (2 ^ 0). lia.
    + right.
      apply (binary_round_bounded true N ez mb eb ez); try assumption; try lia.
      rewrite Z.sub_diag. simpl (2 ^ 0). lia.
Qed.

End Bounds.

(** The floor of a bounded number. *)
Lemma floor_Z_bounded_pos (x : spec_float) (mb : positive) (eb k : Z) :
  eb < 0 -> bounded false mb eb x -> Zpos mb / 2 ^ (- eb) <= k ->
  exists n, floor_Z x = Some n /\ 0 <= n <= k.
Proof.
  intros Heb Hx Hk. pose proof (pow2_pos (- eb) ltac:(lia)) as Hp.
  assert (0 <= Zpos mb / 2 ^ (- eb)) by (apply Z.div_pos; lia).
  destruct x as [s0|s0| |s0 m e]; cbn [bounded] in Hx; try contradiction.
  - exists 0. split; [reflexivity|]. lia.
  - destruct Hx as (-> & He & Hm). cbn [floor_Z cond_Zopp].
    replace (0 <=? e) with false by (symmetry; apply Z.leb_gt; lia).
    pose proof (pow2_pos (- e) ltac:(lia)) as Hp'.
    pose proof (pow2_pos (eb - e) ltac:(lia)) as Hp''.
    eexists. split; [reflexivity|]. split; [apply Z.div_pos; lia|].
    transitivity (Zpos mb / 2 ^ (- eb)); [|exact Hk].
    transitivity ((Zpos mb * 2 ^ (eb - e)) / 2 ^ (- e)).
    + apply Z.div_le_mono; lia.
    + replace (- e) with ((- eb) + (eb - e)) by lia.
      rewrite pow2_split by lia. rewrite Z.div_mul_cancel_r by lia. lia.
Qed.

Lemma floor_Z_bounded_neg (x : spec_float) (mb : positive) (eb k : Z) :
  eb < 0 -> bounded true mb eb x -> k <= (- Zpos mb) / 2 ^ (- eb) ->
  exists n, floor_Z x = Some n /\ k <= n <= 0.
Proof.
  intros Heb Hx Hk. pose proof (pow2_pos (- eb) ltac:(lia)) as Hp.
  assert ((- Zpos mb) / 2 ^ (- eb) <= 0) by (apply Z.div_le_upper_bound; lia).
  destruct x as [s0|s0| |s0 m e]; cbn [bounded] in Hx; try contradiction.
  - exists 0. split; [reflexivity|]. lia.
  - destruct Hx as (-> & He & Hm). cbn [floor_Z cond_Zopp].
    replace (0 <=? e) with false by (symmetry; apply Z.leb_gt; lia).
    pose proof (pow2_pos (- e) ltac:(lia)) as Hp'.
    pose proof (pow2_pos (eb - e) ltac:(lia)) as Hp''.
    eexists. split; [reflexivity|]. split.
    + transitivity ((- Zpos mb) / 2 ^ (- eb)); [exact Hk|].
      transitivity ((- Zpos mb * 2 ^ (eb - e)) / 2 ^ (- e)).
      * replace (- e) with ((- eb) + (eb - e)) by lia.
        rewrite pow2_split by lia. rewrite Z.div_mul_cancel_r by lia. lia.
      * apply Z.div_le_mono; lia.
    + apply Z.div_le_upper_bound; lia.
Qed.

End FloatBounds.

Module AngleRange.
Import Float Notions FloatFacts FloatBounds HandMouvementRecognitionCalculator.

(** The order of two numbers of the same sign written in canonical form
    bounds the mantissa of the smaller one. *)
Lemma lex_le_value (m : positive) (e : Z) (mb : positive) (eb p : Z) :
  0 < p -> D m <= p -> 2 ^ (p - 1) <= Zpos mb ->
  e < eb \/ (e = eb /\ Zpos m <= Zpos mb) ->
  e <= eb /\ Zpos m <= Zpos mb * 2 ^ (eb - e).
Proof.
  intros Hp Hd Hmb [Hlt | [-> Hle]].
  - split; [lia|].
    pose proof (D_bounds m) as [_ Hu]. pose proof (D_pos m).
    assert (2 ^ D m <= 2 ^ p) by (apply pow2_le; lia).
    assert (E : 2 ^ p = 2 * 2 ^ (p - 1)).
    { replace p with (1 + (p - 1)) at 1 by lia.
      rewrite pow2_split by lia. reflexivity. }
    assert (2 ^ 1 <= 2 ^ (eb - e)) by (apply pow2_le; lia).
    change (2 ^ 1) with 2 in *. nia.
  - split; [lia|]. rewrite Z.sub_diag. lia.
Qed.

Lemma valid_digits (s : bool) (m : positive) (e : Z) :
  valid (S754_finite s m e) = true -> D m <= 24.
Proof.
  intros H. apply (valid_finite 24 128) in H. destruct H as [H _].
  unfold fexp in H. lia.
Qed.

(** A binary32 number between the [float]s nearest to -pi and to pi. *)
Lemma radian_bounded (s : bool) (m : positive) (e : Z) :
  valid (S754_finite s m e) = true ->
  le (pi_f true) (S754_finite s m e) = true ->
  le (S754_finite s m e) (pi_f false) = true ->
  bounded s 13176795 (-22) (S754_finite s m e).
Proof.
  intros Hv Hlo Hhi. pose proof (valid_digits s m e Hv) as Hd.
  cbn [bounded]. split; [reflexivity|].
  apply (lex_le_value m e 13176795 (-22) 24); [lia | exact Hd | lia |].
  unfold le, SFleb, pi_f in Hlo, Hhi. cbn [SFcompare] in Hlo, Hhi.
  destruct s.
  - clear Hhi.
    destruct (Z.compare_spec (-22) e) as [E|E|E]; try discriminate;
      [right; split; [lia|] | left; lia].
    pose proof (Pos.compare_spec 13176795 m) as C.
    change (Pos.compare 13176795 m)
      with (Pos.compare_cont Eq 13176795 m) in C.
    destruct C as [E'|E'|E']; try discriminate; clear Hlo.
    + rewrite <- E'. lia.
    + apply Pos2Z.pos_lt_pos in E'. lia.
  - clear Hlo.
    destruct (Z.compare_spec e (-22)) as [E|E|E]; try discriminate;
      [right; split; [lia|] | left; lia].
    pose proof (Pos.compare_spec m 13176795) as C.
    change (Pos.compare m 13176795)
      with (Pos.compare_cont Eq m 13176795) in C.
    destruct C as [E'|E'|E']; try discriminate; clear Hhi.
    + rewrite E'. lia.
    + apply Pos2Z.pos_lt_pos in E'. lia.
Qed.

Lemma to_double_bounded (s : bool) (m : positive) (e : Z) :
  bounded s 13176795 (-22) (S754_finite s m e) ->
  bounded s 7074237948887040 (-51) (to_double (S754_finite s m e)).
Proof.
  intros (_ & He & Hm). unfold to_double, convert.
  apply (binary_round_bounded 53 1024 s m e 7074237948887040 (-51)
           (Z.min e (-51))); try lia.
  - reflexivity.
  - assert (R : Zpos m * 2 ^ (e - Z.min e (-51))
                <= 13176795 * 2 ^ (-22 - Z.min e (-51))).
    { apply (rescale_down (Zpos m) 13176795 e (-22) e (Z.min e (-51)));
        try lia.
      rewrite Z.sub_diag. lia. }
    replace (-22 - Z.min e (-51)) with (29 + (-51 - Z.min e (-51))) in R by lia.
    rewrite pow2_split in R by lia. lia.
Qed.

(** [radian * 180. / M_PI] is at most 180.25 in magnitude. *)
Lemma degrees_bounded (s : bool) (x : double) :
  bounded s 7074237948887040 (-51) x ->
  bounded s 6341983069011968 (-45)
    (ddiv (dmul x (int_to_double 180)) M_PI).
Proof.
  intros Hx.
  assert (E180 : int_to_double 180 = S754_finite false 6333186975989760 (-45))
    by (vm_compute; reflexivity).
  rewrite E180. unfold ddiv, dmul, M_PI.
  replace s with (xorb (xorb s false) false) at 1 by (destruct s; reflexivity).
  apply (SFdiv_bounded 53 1024 _ (xorb s false) false
           7074237752028440 (-51) 4978588650569728 (-43));
    [ apply (SFmul_bounded 53 1024 x s false 6333186975989760 (-45)
               7074237948887040 (-51)); [exact Hx | ..] | ..];
    try reflexivity; try lia; apply Z.leb_le; vm_compute; reflexivity.
Qed.

Lemma int_of_floor_in_range (x : double) (n : Z) :
  floor_Z x = Some n -> -180 <= n <= 180 -> int_of_floor x = n.
Proof.
  intros E H. unfold int_of_floor. rewrite E.
  replace ((INT_MIN <=? n) && (n <=? INT_MAX)) with true; [reflexivity|].
  symmetry. apply andb_true_iff. unfold INT_MIN, INT_MAX.
  split; apply Z.leb_le; lia.
Qed.

(** X21.  From an angle between the [float]s nearest to -pi and to pi,
    the range of [atan2], [radianToDegree] returns a whole number of
    degrees from -180 to 180: none of the four roundings of
    [radian * 180. / M_PI + 0.5] takes the sum to 181 or beyond, nor
    below -180, and the conversion to [int] is defined. *)
Theorem radianToDegree_range (radian : float) :
  valid radian = true ->
  le (pi_f true) radian = true -> le radian (pi_f false) = true ->
  -180 <= radianToDegree radian <= 180.
Proof.
  intros Hv Hlo Hhi.
  destruct radian as [s|s| |s m e].
  - destruct s; vm_compute; split; discriminate.
  - destruct s; [discriminate Hlo | discriminate Hhi].
  - discriminate Hlo.
  - pose proof (degrees_bounded s _
                  (to_double_bounded s m e (radian_bounded s m e Hv Hlo Hhi)))
      as Hb.
    unfold radianToDegree.
    set (x := ddiv (dmul (to_double (S754_finite s m e)) (int_to_double 180))
                M_PI) in *.
    assert (Ehalf : dlit 5 10 = S754_finite false 4503599627370496 (-53))
      by (vm_compute; reflexivity).
    rewrite Ehalf. unfold dadd. destruct s.
    + destruct (SFadd_bounded_neg 53 1024 x 4503599627370496 (-53)
                  6341983069011968 (-45) 6324390882967552 (-45) Hb)
        as [Hp|Hn]; try reflexivity; try lia;
        try (apply Z.leb_le; vm_compute; reflexivity).
      * destruct (floor_Z_bounded_pos _ 4503599627370496 (-53) 0 ltac:(lia) Hp)
          as (n & En & Hn); [apply Z.leb_le; vm_compute; reflexivity|].
        rewrite (int_of_floor_in_range _ n En); lia.
      * destruct (floor_Z_bounded_neg _ 6324390882967552 (-45) (-180)
                    ltac:(lia) Hn)
          as (n & En & Hn'); [apply Z.leb_le; vm_compute; reflexivity|].
        rewrite (int_of_floor_in_range _ n En); lia.
    + assert (Hp : bounded false 6359575255056384 (-45)
                     (SFadd 53 1024 x (S754_finite false 4503599627370496 (-53)))).
      { apply (SFadd_bounded_pos 53 1024 x 4503599627370496 (-53)
                 6341983069011968 (-45)); try assumption; try reflexivity;
          try lia; apply Z.leb_le; vm_compute; reflexivity. }
      destruct (floor_Z_bounded_pos _ 6359575255056384 (-45) 180 ltac:(lia) Hp)
        as (n & En & Hn); [apply Z.leb_le; vm_compute; reflexivity|].
      rewrite (int_of_floor_in_range _ n En); lia.
Qed.

Lemma radianToDegree_range_witness :
  -180 <= radianToDegree (pi_f false) <= 180.
Proof.
  apply (radianToDegree_range (pi_f false)); vm_compute; reflexivity.
Defined.

End AngleRange.
